(** * vtcalapp: the timetable-text-to-event core of [main.py]

    A shallow embedding of the parser and calendar services of
    [src/main.py] (identifier extraction, weekday resolution, time parsing,
    schedule normalisation, de-duplication, recurrence building and batch
    submission), with the properties of the specification proved about it.

    Conventions of the embedding:
    - Python [str] values are Rocq strings; case conversion and the regular
      expression class [\d] are those of ASCII text.  The identifier
      extractor is developed over an arbitrary character type and digit
      class, so that its results do not depend on this restriction.
    - A Python exception is a value [Raise e] of the type [result]; a
      [try ... except Exception] is a match on it.
    - A [datetime.date] is represented by its proleptic Gregorian ordinal
      ([date.toordinal()]), on which [weekday()] and [+ timedelta(days=k)]
      are defined exactly as in CPython.
    - The wall clock ([datetime.now().date()], one date per request) and
      [datetime.fromisoformat] are inputs of the functions that use them.
      The section resolver ([pyvt.Timetable.crn_lookup]) and the Google
      Calendar client act on an abstract state of the outside world, which
      the functions that call them pass along. *)

From Stdlib Require Import ZArith List String Ascii Bool Lia.
From stdpp Require Import base tactics option list strings pretty gmap.

Local Open Scope Z_scope.

(** ** Python results: a value or a raised exception *)

Inductive exn : Type :=
  | ValueError
  | KeyError
  | AttributeError
  | OverflowError
  | IndexError
  | ServiceError.

Inductive result (A : Type) : Type :=
  | Ok (a : A)
  | Raise (e : exn).

Arguments Ok {A} a.
Arguments Raise {A} e.

Definition rbind {A B : Type} (r : result A) (k : A -> result B) : result B :=
  match r with
  | Ok a => k a
  | Raise e => Raise e
  end.

Notation "'let!' x ':=' r 'in' k" := (rbind r (fun x => k))
  (at level 10, x name, r at level 100, k at level 200).

(** * The program *)

(** ** 4.1 Identifier extractor: [re.findall(r'(\d{5})', text, re.MULTILINE)] *)

Module Extractor.
Section Findall.
(** The characters of the text and the class [\d]. *)
Context {char : Type} (digit : char -> bool).

(** [\d{5}] anchored at the start of [s]: the five characters matched. *)
Definition match_d5 (s : list char) : option (list char) :=
  match s with
  | c1 :: c2 :: c3 :: c4 :: c5 :: _ =>
      if digit c1 && digit c2 && digit c3 && digit c4 && digit c5
      then Some [c1; c2; c3; c4; c5]
      else None
  | _ => None
  end.

(** [findall] scans left to right: at each position it tries the pattern;
    after a match the scan resumes at the end of the match, which here
    means passing over the [skip] = 4 characters that follow its first
    one; without a match it moves one character on.  The pattern has one
    group that spans the whole match, so each result is the matched
    text. *)
Fixpoint findall_from (skip : nat) (s : list char) : list (list char) :=
  match s with
  | [] => []
  | _ :: rest =>
      match skip with
      | S k => findall_from k rest
      | O =>
          match match_d5 s with
          | Some m => m :: findall_from 4 rest
          | None => findall_from 0 rest
          end
      end
  end.

Definition findall_d5 (text : list char) : list (list char) :=
  findall_from 0 text.

(** *** The vocabulary of the specification *)

Definition flush (cur : list char) : list (list char) :=
  match cur with [] => [] | _ => [cur] end.

(** Maximal runs of consecutive digits, in text order; [cur] is the run
    being read. *)
Fixpoint runs_from (cur : list char) (s : list char) : list (list char) :=
  match s with
  | [] => flush cur
  | c :: rest =>
      if digit c then runs_from (cur ++ [c]) rest
      else flush cur ++ runs_from [] rest
  end.

Definition digit_runs (text : list char) : list (list char) :=
  runs_from [] text.

(** The specification's reading: the maximal runs of exactly 5 digits. *)
Definition runs_of_exactly_5 (text : list char) : list (list char) :=
  filter (fun r => length r = 5%nat) (digit_runs text).

(** The successive non-overlapping blocks of 5 characters of a run:
    block [i] is [r[5i : 5i+5]], for [i < len(r) // 5]. *)
Definition blocks5 (r : list char) : list (list char) :=
  map (fun i => take 5 (drop (5 * i) r)) (seq 0 (length r / 5)).

Definition all_digits (r : list char) : Prop := forallb digit r = true.

(** [rest] does not continue a digit run. *)
Definition boundary (rest : list char) : Prop :=
  match rest with [] => True | c :: _ => digit c = false end.

End Findall.
End Extractor.

(** ** Python strings *)

(** A [string] stands for a Python string of ASCII characters ([isascii]).
    On such a string [\d] matches the characters 0 to 9, [int] reads them
    as decimal digits, and [upper] and [lower] change the letters a to z
    and A to Z and nothing else.  On other strings Python's [\d], [int],
    [upper] and [lower] also act on characters outside ASCII; a statement
    that depends on the text being ASCII says so with [isascii]. *)

Module Str.

Definition in_range (lo hi c : ascii) : bool :=
  (nat_of_ascii lo <=? nat_of_ascii c)%nat
  && (nat_of_ascii c <=? nat_of_ascii hi)%nat.

(** [\d] on ASCII text. *)
Definition is_digit (c : ascii) : bool := in_range "0" "9" c.

Definition upper_char (c : ascii) : ascii :=
  if in_range "a" "z" c then ascii_of_nat (nat_of_ascii c - 32) else c.

Definition lower_char (c : ascii) : ascii :=
  if in_range "A" "Z" c then ascii_of_nat (nat_of_ascii c + 32) else c.

(** [s.upper()] and [s.lower()]. *)
Fixpoint upper (s : string) : string :=
  match s with
  | EmptyString => EmptyString
  | String c s' => String (upper_char c) (upper s')
  end.

Fixpoint lower (s : string) : string :=
  match s with
  | EmptyString => EmptyString
  | String c s' => String (lower_char c) (lower s')
  end.

(** [s.isascii()] *)
Definition isascii (s : string) : bool :=
  forallb (fun c => (nat_of_ascii c <? 128)%nat) (list_ascii_of_string s).

(** [s.replace(" ", "")]. *)
Fixpoint remove_spaces (s : string) : string :=
  match s with
  | EmptyString => EmptyString
  | String c s' =>
      if Ascii.eqb c " " then remove_spaces s' else String c (remove_spaces s')
  end.

(** [sub in s] for two strings: [sub] occurs in [s] at some position. *)
Fixpoint contains (sub s : string) : bool :=
  String.prefix sub s
  || match s with
     | EmptyString => false
     | String _ s' => contains sub s'
     end.

(** [int(s)] for a string of ASCII digits. *)
Definition digit_value (c : ascii) : Z := Z.of_nat (nat_of_ascii c) - 48.

Fixpoint int_from (acc : Z) (s : string) : Z :=
  match s with
  | EmptyString => acc
  | String c s' => int_from (10 * acc + digit_value c) s'
  end.

Definition int (s : string) : Z := int_from 0 s.

(** ["%02d" % n] and ["%04d" % n] for [n >= 0]. *)
Definition digit_char (d : Z) : ascii := ascii_of_nat (Z.to_nat (48 + d)).

Definition pad2 (n : Z) : string :=
  String (digit_char (n / 10 mod 10)) (String (digit_char (n mod 10)) "").

Definition pad4 (n : Z) : string :=
  (pad2 (n / 100) +:+ pad2 (n mod 100))%string.

End Str.

(** ** Dates, times and datetimes *)

Module Date.

(** [date.min.toordinal()] and [date.max.toordinal()]. *)
Definition MINORDINAL : Z := 1.
Definition MAXORDINAL : Z := 3652059.

Record date : Type := mk_date { toordinal : Z }.

Definition valid (d : date) : Prop :=
  MINORDINAL <= toordinal d <= MAXORDINAL.

(** [d.weekday()]: Monday is 0 and Sunday is 6. *)
Definition weekday (d : date) : Z := (toordinal d + 6) mod 7.

(** [d + timedelta(days=k)], with the range check of [date.fromordinal]. *)
Definition add_days (d : date) (k : Z) : result date :=
  let o := toordinal d + k in
  if (0 <? o) && (o <=? MAXORDINAL) then Ok (mk_date o)
  else Raise OverflowError.

(** The calendar arithmetic of CPython's [datetime] module. *)
Definition is_leap (year : Z) : bool :=
  (year mod 4 =? 0) && (negb (year mod 100 =? 0) || (year mod 400 =? 0)).

Definition days_before_year (year : Z) : Z :=
  let y := year - 1 in y * 365 + y / 4 - y / 100 + y / 400.

Definition DAYS_IN_MONTH : list Z :=
  [31; 28; 31; 30; 31; 30; 31; 31; 30; 31; 30; 31].

Definition days_before_month (year month : Z) : Z :=
  fold_right Z.add 0 (firstn (Z.to_nat (month - 1)) DAYS_IN_MONTH)
  + (if (2 <? month) && is_leap year then 1 else 0).

(** [_ymd2ord(year, month, day)] *)
Definition ymd2ord (year month day : Z) : Z :=
  days_before_year year + days_before_month year month + day.

(** [_ord2ymd(n)] *)
Definition ord2ymd (n : Z) : Z * Z * Z :=
  let n := n - 1 in
  let n400 := n / 146097 in
  let n := n mod 146097 in
  let year := n400 * 400 + 1 in
  let n100 := n / 36524 in
  let n := n mod 36524 in
  let n4 := n / 1461 in
  let n := n mod 1461 in
  let n1 := n / 365 in
  let n := n mod 365 in
  let year := year + n100 * 100 + n4 * 4 + n1 in
  if (n1 =? 4) || (n100 =? 4) then (year - 1, 12, 31)
  else
    let leapyear := (n1 =? 3) && (negb (n4 =? 24) || (n100 =? 3)) in
    let month := Z.shiftr (n + 50) 5 in
    let preceding :=
      days_before_month 1 month + (if (2 <? month) && leapyear then 1 else 0) in
    if n <? preceding then
      let month := month - 1 in
      let preceding :=
        preceding - (nth (Z.to_nat (month - 1)) DAYS_IN_MONTH 0
                     + (if (month =? 2) && leapyear then 1 else 0)) in
      (year, month, n - preceding + 1)
    else (year, month, n - preceding + 1).

(** [date(year, month, day)] *)
Definition of_ymd (year month day : Z) : date :=
  mk_date (ymd2ord year month day).

Definition year (d : date) : Z := (ord2ymd (toordinal d)).1.1.
Definition month (d : date) : Z := (ord2ymd (toordinal d)).1.2.
Definition day (d : date) : Z := (ord2ymd (toordinal d)).2.

(** [datetime.time]: only its fields are used. *)
Record time : Type := mk_time {
  hour : Z;
  minute : Z;
  second : Z;
  microsecond : Z
}.

(** The two kinds of [tzinfo] that reach the calendar service.
    [Eastern d t] is the tzinfo that [pytz] attaches when it localises the
    wall-clock date [d] and time [t] in ['America/New_York']: the fixed UTC
    offset of the zone, standard or daylight time, in force at [d] and [t].
    [Fixed m] is a fixed UTC offset of [m] minutes ([timezone.utc] is
    [Fixed 0]). *)
Inductive tzinfo : Type :=
  | Eastern (d : date) (t : time)
  | Fixed (offset_minutes : Z).

Definition utc : tzinfo := Fixed 0.

Record datetime : Type := mk_datetime {
  dt_date : date;
  dt_time : time;
  dt_tzinfo : option tzinfo
}.

(** [datetime.combine(date, time)]: naive. *)
Definition combine (d : date) (t : time) : datetime :=
  mk_datetime d t None.

(** [dt.replace(tzinfo=tz)] *)
Definition replace_tzinfo (dt : datetime) (tz : option tzinfo) : datetime :=
  mk_datetime (dt_date dt) (dt_time dt) tz.

(** [eastern.localize(dt)]: the wall-clock fields are kept, and the tzinfo
    is the offset of the zone at that wall-clock date and time. *)
Definition localize (dt : datetime) : datetime :=
  mk_datetime (dt_date dt) (dt_time dt)
              (Some (Eastern (dt_date dt) (dt_time dt))).

(** [dt.strftime("%Y%m%dT%H%M%SZ")] *)
Definition strftime_compact (dt : datetime) : string :=
  (Str.pad4 (year (dt_date dt)) +:+ Str.pad2 (month (dt_date dt))
   +:+ Str.pad2 (day (dt_date dt)) +:+ "T"
   +:+ Str.pad2 (hour (dt_time dt)) +:+ Str.pad2 (minute (dt_time dt))
   +:+ Str.pad2 (second (dt_time dt)) +:+ "Z")%string.

End Date.

(** ** 4.2 Weekday resolution: [get_next_weekday_date] *)

Definition days_of_week : list string :=
  ["monday"; "tuesday"; "wednesday"; "thursday"; "friday"; "saturday"; "sunday"]%string.

(** [l.index(x)]: the first position of [x], or [ValueError]. *)
Fixpoint index (x : string) (l : list string) : result Z :=
  match l with
  | [] => Raise ValueError
  | y :: l' =>
      if String.eqb y x then Ok 0
      else let! i := index x l' in Ok (i + 1)
  end.

(** [today] stands for [datetime.now().date()]. *)
Definition get_next_weekday_date (today : Date.date) (day_name : string)
  : result Date.date :=
  match index (Str.lower day_name) days_of_week with
  | Raise _ => Ok today
  | Ok target_day_index =>
      let days_ahead := (target_day_index - Date.weekday today + 7) mod 7 in
      let days_ahead := if days_ahead =? 0 then 7 else days_ahead in
      Date.add_days today days_ahead
  end.

(** ** 4.3 Time parsing: [datetime.strptime] and [parse_time] *)

Module Strptime.
Import Str.

(** The regular expressions that [_strptime] builds from a format, matched
    under [re.IGNORECASE]. *)
Inductive re : Type :=
  | Chr (c : ascii)
  | Rng (lo hi : ascii)
  | Dig
  | Cat (r1 r2 : re)
  | Alt (r1 r2 : re).

(** Backtracking matcher anchored at the start of [s]: every way to match
    a prefix of [s], as (matched text, rest), in the order in which the
    engine tries them (left alternative first). *)
Fixpoint rmatch (r : re) (s : string) : list (string * string) :=
  match r with
  | Chr c =>
      match s with
      | String x s' =>
          if Ascii.eqb (lower_char x) (lower_char c) then [(String x "", s')]
          else []
      | EmptyString => []
      end
  | Rng lo hi =>
      match s with
      | String x s' => if in_range lo hi x then [(String x "", s')] else []
      | EmptyString => []
      end
  | Dig =>
      match s with
      | String x s' => if is_digit x then [(String x "", s')] else []
      | EmptyString => []
      end
  | Cat r1 r2 =>
      flat_map (fun '(m1, s1) =>
                  map (fun '(m2, s2) => ((m1 +:+ m2)%string, s2)) (rmatch r2 s1))
               (rmatch r1 s)
  | Alt r1 r2 => rmatch r1 s ++ rmatch r2 s
  end.

(** The directives of the two formats of [parse_time]. *)
Inductive directive : Type :=
  | dI            (* %I *)
  | dH            (* %H *)
  | dM            (* %M *)
  | dp            (* %p *)
  | dLit (c : ascii).

Definition directive_eqb (a b : directive) : bool :=
  match a, b with
  | dI, dI | dH, dH | dM, dM | dp, dp => true
  | dLit c, dLit d => Ascii.eqb c d
  | _, _ => false
  end.

(** [TimeRE] of [_strptime.py]:
    %I is [1[0-2]|0[1-9]|[1-9]], %H is [2[0-3]|[0-1]\d|\d],
    %M is [[0-5]\d|\d] and %p is [am|pm] (the C and English locales). *)
Definition re_of (d : directive) : re :=
  match d with
  | dI => Alt (Cat (Chr "1") (Rng "0" "2"))
            (Alt (Cat (Chr "0") (Rng "1" "9")) (Rng "1" "9"))
  | dH => Alt (Cat (Chr "2") (Rng "0" "3"))
            (Alt (Cat (Rng "0" "1") Dig) Dig)
  | dM => Alt (Cat (Rng "0" "5") Dig) Dig
  | dp => Alt (Cat (Chr "a") (Chr "m")) (Cat (Chr "p") (Chr "m"))
  | dLit c => Chr c
  end.

(** ["%I:%M%p"] and ["%H:%M"] *)
Definition fmt_I_M_p : list directive := [dI; dLit ":"; dM; dp].
Definition fmt_H_M : list directive := [dH; dLit ":"; dM].

(** [format_regex.match(data_string)]: the groups and the unmatched rest
    of every match, in the order of the engine. *)
Fixpoint match_format (fmt : list directive) (s : string)
  : list (list (directive * string) * string) :=
  match fmt with
  | [] => [([], s)]
  | d :: fmt' =>
      flat_map (fun '(m, s1) =>
                  map (fun '(groups, rest) => ((d, m) :: groups, rest))
                      (match_format fmt' s1))
               (rmatch (re_of d) s)
  end.

(** [found_dict.get(d)] *)
Fixpoint group (d : directive) (found : list (directive * string))
  : option string :=
  match found with
  | [] => None
  | (d', m) :: found' => if directive_eqb d d' then Some m else group d found'
  end.

(** The hour and minute that [_strptime] computes from the groups; the
    other fields keep their defaults and [.time()] drops the date. *)
Definition time_of_groups (found : list (directive * string)) : Date.time :=
  let hour :=
    match group dH found, group dI found with
    | Some h, _ => int h
    | None, Some i =>
        let hour := int i in
        let ampm := lower (default ""%string (group dp found)) in
        if String.eqb ampm "" || String.eqb ampm "am" then
          (if hour =? 12 then 0 else hour)
        else if String.eqb ampm "pm" then
          (if hour =? 12 then hour else hour + 12)
        else hour
    | None, None => 0
    end in
  let minute :=
    match group dM found with Some m => int m | None => 0 end in
  Date.mk_time hour minute 0 0.

(** [datetime.strptime(data_string, format).time()]: [ValueError] when the
    format does not match or when unconverted data remains. *)
Definition strptime (fmt : list directive) (data_string : string)
  : result Date.time :=
  match match_format fmt data_string with
  | [] => Raise ValueError
  | (found, rest) :: _ =>
      if String.eqb rest "" then Ok (time_of_groups found)
      else Raise ValueError
  end.

End Strptime.

(** The loop over the formats: the first that parses wins, a [ValueError]
    moves on to the next, and falling out of the loop returns [None]. *)
Fixpoint try_formats (fmts : list (list Strptime.directive)) (time_str : string)
  : result (option Date.time) :=
  match fmts with
  | [] => Ok None
  | fmt :: fmts' =>
      match Strptime.strptime fmt time_str with
      | Ok t => Ok (Some t)
      | Raise ValueError => try_formats fmts' time_str
      | Raise e => Raise e
      end
  end.

Definition normalize_time_str (time_str : string) : string :=
  Str.upper (Str.remove_spaces time_str).

Definition parse_time (time_str : string) : result (option Date.time) :=
  match try_formats [Strptime.fmt_I_M_p; Strptime.fmt_H_M]
                    (normalize_time_str time_str) with
  | Ok r => Ok r
  | Raise _ => Ok None
  end.

(** ** Python values and dictionaries *)

(** The values held by the event dictionaries built by the parser and by the
    calendar endpoint. *)
Inductive pyval : Type :=
  | VNone
  | VBool (b : bool)
  | VStr (s : string)
  | VDatetime (dt : Date.datetime).

(** The values of a decoded JSON event descriptor: null, booleans and
    strings. *)
Inductive json : Type :=
  | JNull
  | JBool (b : bool)
  | JStr (s : string).

#[global] Instance json_eq_dec : EqDecision json.
Proof. solve_decision. Defined.

(** A decoded JSON value is that Python value. *)
Definition to_py (j : json) : pyval :=
  match j with
  | JNull => VNone
  | JBool b => VBool b
  | JStr s => VStr s
  end.

(** [d.get(k)] and [d[k]] *)
Definition get {V : Type} (none : V) (d : gmap string V) (k : string) : V :=
  default none (d !! k).

Definition getitem {V : Type} (d : gmap string V) (k : string) : result V :=
  match d !! k with
  | Some v => Ok v
  | None => Raise KeyError
  end.

(** [bool(v)] *)
Definition truthy (v : pyval) : bool :=
  match v with
  | VNone => false
  | VBool b => b
  | VStr s => negb (String.eqb s "")
  | VDatetime _ => true
  end.

Definition jtruthy (j : json) : bool := truthy (to_py j).

(** [str(v)] for a decoded JSON value. *)
Definition jstr (j : json) : string :=
  match j with
  | JNull => "None"
  | JBool true => "True"
  | JBool false => "False"
  | JStr s => s
  end.

(** ** 4.4 Schedule normaliser: [parse_timetable_text] *)

(** The attributes of a [pyvt] section that the parser reads. *)
Record section : Type := mk_section {
  code : string;
  name : string;
  location : string;
  days : string;
  start_time : string;
  end_time : string
}.

Definition day_map : list (ascii * string) :=
  [("M"%char, "Monday"); ("T"%char, "Tuesday"); ("W"%char, "Wednesday");
   ("R"%char, "Thursday"); ("F"%char, "Friday"); ("S"%char, "Saturday");
   ("U"%char, "Sunday")]%string.

Fixpoint day_map_get (d : ascii) (m : list (ascii * string)) : option string :=
  match m with
  | [] => None
  | (k, v) :: m' => if Ascii.eqb k d then Some v else day_map_get d m'
  end.

(** [f"{section.code} {section.name}"] *)
Definition subject_of (s : section) : string :=
  (code s +:+ " " +:+ name s)%string.

(** The dictionary appended for an arranged section. *)
Definition arranged_event (s : section) : gmap string pyval :=
  <["end_time_str" := VStr (end_time s)]>
  (<["start_time_str" := VStr (start_time s)]>
  (<["needs_days_input" := VBool true]>
  (<["location" := VStr (location s)]>
  (<["subject" := VStr (subject_of s)]> ∅)))).

(** The dictionary appended for one meeting day. *)
Definition day_event (s : section) (day_name : string) (event_date : Date.date)
    (start_t end_t : Date.time) : gmap string pyval :=
  <["day" := VStr day_name]>
  (<["location" := VStr (location s)]>
  (<["end_datetime" := VDatetime (Date.combine event_date end_t)]>
  (<["start_datetime" := VDatetime (Date.combine event_date start_t)]>
  (<["subject" := VStr (subject_of s)]> ∅)))).

(** [for d in section.days: ...], on the list [events] that the loop appends
    to.  An exception leaves the loop with the events appended so far. *)
Fixpoint for_days (today : Date.date) (s : section) (ds : string)
    (events : list (gmap string pyval))
  : list (gmap string pyval) * result unit :=
  match ds with
  | EmptyString => (events, Ok tt)
  | String d ds' =>
      match day_map_get d day_map with
      | None => for_days today s ds' events
      | Some day_name =>
          let r :=
            let! event_date := get_next_weekday_date today day_name in
            let! start_t := parse_time (start_time s) in
            let! end_t := parse_time (end_time s) in
            (* if start_time and end_time: a time is truthy, None is not *)
            match start_t, end_t with
            | Some st, Some et =>
                Ok (events ++ [day_event s day_name event_date st et])
            | _, _ => Ok events
            end in
          match r with
          | Ok events' => for_days today s ds' events'
          | Raise e => (events, Raise e)
          end
      end
  end.

(** [re.findall(r'(\d{5})', text, re.MULTILINE)] on a string. *)
Definition crns_of (text : string) : list string :=
  map string_of_list_ascii
      (Extractor.findall_d5 Str.is_digit (list_ascii_of_string text)).

(** The body of the [try] once the lookup has answered [r]: nothing for an
    exception (it is caught and printed) or for [None], the arranged
    occurrence or the day loop for a section. *)
Definition section_body (today : Date.date) (r : result (option section))
    (events : list (gmap string pyval)) : list (gmap string pyval) :=
  match r with
  | Raise _ => events
  | Ok None => events
  | Ok (Some s) =>
      if Str.contains "ARR" (days s) then events ++ [arranged_event s]
      else fst (for_days today s (days s) events)
  end.

Section Parser.
(** The state of what lies outside the program: the network and the
    timetable site. *)
Context {world : Type}.
(** [vt.crn_lookup(crn, open_only=False)] in a state of the world: the state
    it leaves, and a section, [None] or an exception. *)
Variable crn_lookup : world -> string -> world * result (option section).

(** The body of [for crn in crns], with its [try ... except Exception], on
    the world and on the list [events]. *)
Definition process_crn (today : Date.date) (crn : string)
    (st : world * list (gmap string pyval))
  : world * list (gmap string pyval) :=
  let (w, r) := crn_lookup (fst st) crn in
  (w, section_body today r (snd st)).

(** The import and the construction of the [Timetable] client are taken to
    succeed. *)
Definition parse_timetable_text (today : Date.date) (text : string) (w : world)
  : world * list (gmap string pyval) :=
  fold_left (fun st crn => process_crn today crn st) (crns_of text) (w, []).

End Parser.

(** ** 4.6 Recurrence builder: [create_google_event] *)

Record event_time : Type := mk_event_time {
  dateTime : Date.datetime;  (* sent as [dt.isoformat()] *)
  timeZone : string
}.

Record reminder : Type := mk_reminder {
  method : string;
  minutes : Z
}.

Record reminders_t : Type := mk_reminders {
  useDefault : bool;
  overrides : list reminder
}.

(** [event_body] *)
Record event_body : Type := mk_event_body {
  summary : pyval;
  body_location : pyval;
  body_start : event_time;
  body_end : event_time;
  recurrence : list string;
  reminders : reminders_t
}.

(** The dictionary returned by [create_google_event]. *)
Record creation_result : Type := mk_creation_result {
  status : string;
  id : string
}.

Definition weekday_index_map : list (string * Z) :=
  [("Monday", 0); ("Tuesday", 1); ("Wednesday", 2); ("Thursday", 3);
   ("Friday", 4); ("Saturday", 5); ("Sunday", 6)]%string.

(** [day_map.get(v)]: only the seven names are keys. *)
Definition weekday_index_get (v : pyval) : option Z :=
  match v with
  | VStr s =>
      (fix go (m : list (string * Z)) : option Z :=
         match m with
         | [] => None
         | (k, i) :: m' => if String.eqb k s then Some i else go m'
         end) weekday_index_map
  | _ => None
  end.

Definition weekday_codes : list string :=
  ["MO"; "TU"; "WE"; "TH"; "FR"; "SA"; "SU"]%string.

(** [l[i]] for [i >= 0] *)
Definition list_getitem {A : Type} (l : list A) (i : Z) : result A :=
  match l !! Z.to_nat i with
  | Some x => Ok x
  | None => Raise IndexError
  end.

(** [datetime(2025, 12, 14, 23, 59, 59, tzinfo=timezone.utc)] *)
Definition end_of_semester : Date.datetime :=
  Date.mk_datetime (Date.of_ymd 2025 12 14) (Date.mk_time 23 59 59 0)
                   (Some Date.utc).

(** Reading [dt.tzinfo] and localising a naive datetime; a value that is not
    a datetime has no such attribute. *)
Definition ensure_eastern (v : pyval) : result Date.datetime :=
  match v with
  | VDatetime dt =>
      match Date.dt_tzinfo dt with
      | None => Ok (Date.localize dt)
      | Some _ => Ok dt
      end
  | _ => Raise AttributeError
  end.

(** [datetime.combine(d, dt.time()).replace(tzinfo=dt.tzinfo)] *)
Definition move_to (d : Date.date) (dt : Date.datetime) : Date.datetime :=
  Date.replace_tzinfo (Date.combine d (Date.dt_time dt)) (Date.dt_tzinfo dt).

(** [f'RRULE:FREQ=WEEKLY;BYDAY={byday_code};UNTIL={end_date_str}'] *)
Definition rrule (byday_code end_date_str : string) : string :=
  ("RRULE:FREQ=WEEKLY;BYDAY=" +:+ byday_code +:+ ";UNTIL=" +:+ end_date_str)%string.

(** The part of [create_google_event] between obtaining the service and the
    insert call: the payload built from the event. *)
Definition build_event_body (today : Date.date) (event : gmap string pyval)
  : result event_body :=
  let target_weekday := weekday_index_get (get VNone event "day") in
  let! start_v := getitem event "start_datetime" in
  let! end_v := getitem event "end_datetime" in
  let! start_dt := ensure_eastern start_v in
  let! end_dt := ensure_eastern end_v in
  let! dts :=
    match target_weekday with
    | Some target =>
        let current_weekday := Date.weekday today in
        let days_ahead := (target - current_weekday) mod 7 in
        let! next_occurrence :=
          if days_ahead =? 0 then Ok today else Date.add_days today days_ahead in
        Ok (move_to next_occurrence start_dt, move_to next_occurrence end_dt)
    | None => Ok (start_dt, end_dt)
    end in
  let start_dt := fst dts in
  let end_dt := snd dts in
  let end_date_str := Date.strftime_compact end_of_semester in
  let! byday_code :=
    list_getitem weekday_codes (Date.weekday (Date.dt_date start_dt)) in
  let! subject := getitem event "subject" in
  Ok {| summary := subject;
        body_location := get (VStr "") event "location";
        body_start := mk_event_time start_dt "America/New_York";
        body_end := mk_event_time end_dt "America/New_York";
        recurrence := [rrule byday_code end_date_str];
        reminders := mk_reminders false [mk_reminder "popup" 15] |}.

Section Calendar.
(** The state of what lies outside the program: the token file, the network
    and the calendar provider. *)
Context {world : Type}.
(** [get_calendar_service()]: the state it leaves and the service, or an
    exception when no credentials can be obtained. *)
Variable get_calendar_service : world -> world * result unit.
(** [service.events().insert(calendarId='primary', body=b).execute()]: the
    state it leaves and the identifier of the created event, or an
    exception when the provider refuses. *)
Variable insert_event : world -> event_body -> world * result string.
(** [datetime.fromisoformat] *)
Variable fromisoformat : string -> result Date.datetime.

(** [create_google_event(event)], on the world and on the list of the
    events created so far on the calendar. *)
Definition create_google_event (today : Date.date) (event : gmap string pyval)
    (st : world * list event_body)
  : (world * list event_body) * result creation_result :=
  let (w, service) := get_calendar_service (fst st) in
  match service with
  | Raise e => ((w, snd st), Raise e)
  | Ok _ =>
      match build_event_body today event with
      | Raise e => ((w, snd st), Raise e)
      | Ok body =>
          let (w', created_event) := insert_event w body in
          match created_event with
          | Raise e => ((w', snd st), Raise e)
          | Ok created_id =>
              ((w', snd st ++ [body]),
               Ok (mk_creation_result "success" created_id))
          end
      end
  end.

(** ** 4.5 Event de-duplicator and batch submission:
       [create_events_in_calendar] *)

(** [a or str(b)] *)
Definition or_str (a b : json) : json :=
  if jtruthy a then a else JStr (jstr b).

Definition dedup_key (event : gmap string json)
  : json * json * json * json * json :=
  (get JNull event "subject",
   get JNull event "day",
   or_str (get JNull event "start_time_str") (get JNull event "start_datetime"),
   or_str (get JNull event "end_time_str") (get JNull event "end_datetime"),
   get JNull event "location").

(** [key in unique_events] for the insertion-ordered dictionary. *)
Definition key_in {K V : Type} `{EqDecision K} (k : K) (d : list (K * V)) : bool :=
  existsb (fun kv => bool_decide (fst kv = k)) d.

(** The first loop: [unique_events], in insertion order. *)
Definition unique_events_of {K V : Type} `{EqDecision K} (key : V -> K)
    (events : list V) : list (K * V) :=
  fold_left (fun unique event =>
               if key_in (key event) unique then unique
               else unique ++ [(key event, event)])
            events [].

(** [unique_events.values()] *)
Definition dedup (events : list (gmap string json)) : list (gmap string json) :=
  map snd (unique_events_of dedup_key events).

(** [if isinstance(event.get(k), str): event[k] = datetime.fromisoformat(event[k])] *)
Definition convert_field (k : string) (event : gmap string pyval)
  : result (gmap string pyval) :=
  match event !! k with
  | Some (VStr s) =>
      let! dt := fromisoformat s in Ok (<[k := VDatetime dt]> event)
  | _ => Ok event
  end.

(** The body of the second loop, with its [try ... except Exception:
    continue], on the world, the created events and [creation_results]. *)
Definition submit_event (today : Date.date) (event : gmap string pyval)
    (st : (world * list event_body) * list creation_result)
  : (world * list event_body) * list creation_result :=
  match (let! event := convert_field "start_datetime" event in
         convert_field "end_datetime" event) with
  | Raise _ => st
  | Ok event =>
      if truthy (get VNone event "start_datetime")
         && truthy (get VNone event "end_datetime")
      then
        match create_google_event today event (fst st) with
        | (calendar, Raise _) => (calendar, snd st)
        | (calendar, Ok result) =>
            (* print(f"Created event: {event['subject']} on {event['day']}") *)
            match (let! _ := getitem event "subject" in getitem event "day") with
            | Raise _ => (calendar, snd st)
            | Ok _ => (calendar, snd st ++ [result])
            end
        end
      else st
  end.

Record response : Type := mk_response {
  results : list creation_result;
  message : string
}.

(** [f"Created {n} recurring events in Google Calendar."] *)
Definition created_message (n : nat) : string :=
  ("Created " +:+ pretty n +:+ " recurring events in Google Calendar.")%string.

(** The endpoint, from the world [w] and the events [created0] already on
    the calendar: the world it leaves, the events on the calendar, and its
    response. *)
Definition create_events_in_calendar (today : Date.date) (w : world)
    (created0 : list event_body) (events : list (gmap string json))
  : (world * list event_body) * response :=
  let unique_events := dedup events in
  let st :=
    fold_left (fun st event => submit_event today (to_py <$> event) st)
              unique_events ((w, created0), []) in
  (fst st, mk_response (snd st) (created_message (length (snd st)))).

End Calendar.


(** ** OCR service and upload endpoint: [preprocess_image],
       [extract_text_from_image], [upload_timetable_image] *)

Module Upload.

(** An exception as the handlers of this part see it: the classes that
    their [except] clauses tell apart, and [str(e)].  All are instances of
    [Exception]. *)
Inductive exc_class : Type :=
| ValueErrorClass | RuntimeErrorClass | TesseractNotFoundError | OtherException.

Record raised : Type := mk_raised {
  exc : exc_class;
  str : string
}.

Inductive outcome (A : Type) : Type :=
| Returns (a : A)
| Raises (e : raised).
Arguments Returns {A} a.
Arguments Raises {A} e.

Definition obind {A B : Type} (r : outcome A) (k : A -> outcome B) : outcome B :=
  match r with
  | Returns a => k a
  | Raises e => Raises e
  end.

(** The uploaded file: its declared content type, [None] when the upload
    declares none, and what awaiting [file.read()] gives. *)
Record upload_file : Type := mk_upload_file {
  content_type : option string;
  read : outcome (list Byte.byte)
}.

(** The dictionaries that the endpoint returns: [{"error": ...}] with or
    without ["raw_text"], and [{"events": ...}]. *)
Inductive upload_response : Type :=
| ErrorResponse (error : string) (raw_text : option string)
| EventsResponse (events : list (gmap string pyval)).

Section Ocr.
(** A PIL image. *)
Context {image : Type}.
(** [Image.open(io.BytesIO(image_bytes))] *)
Variable image_open : list Byte.byte -> outcome image.
(** [image.convert(mode)] *)
Variable convert : image -> string -> outcome image.
(** [pytesseract.image_to_string(image, config=config)] *)
Variable image_to_string : image -> string -> outcome string.

Definition preprocess_image (image_bytes : list Byte.byte) : outcome image :=
  match obind (image_open image_bytes) (fun image => convert image "L") with
  | Returns image => Returns image
  | Raises _ =>
      Raises (mk_raised ValueErrorClass
                "Could not process the provided image file.")
  end.

Definition extract_text_from_image (image : image) : outcome string :=
  let custom_config := "--psm 6"%string in
  match image_to_string image custom_config with
  | Returns text => Returns text
  | Raises e =>
      match exc e with
      | TesseractNotFoundError =>
          Raises (mk_raised RuntimeErrorClass
                    ("Tesseract is not installed or not in your PATH. "
                     +:+ "Please install it to use the OCR functionality."))
      | _ =>
          Raises (mk_raised ValueErrorClass
                    "Failed to extract text from the image.")
      end
  end.

Context {world : Type}.
Variable crn_lookup : world -> string -> world * result (option section).

(** [upload_timetable_image(request, file)] on the state of the world.  The
    content type is tested outside the [try]: with no content type,
    [None.startswith] raises [AttributeError] out of the endpoint. *)
Definition upload_timetable_image (today : Date.date) (file : upload_file)
    (w : world) : world * result upload_response :=
  match content_type file with
  | None => (w, Raise AttributeError)
  | Some content_type =>
      if negb (String.prefix "image/" content_type) then
        (w, Ok (ErrorResponse "File provided is not an image." None))
      else
        match (obind (read file) (fun image_bytes =>
               obind (preprocess_image image_bytes) (fun preprocessed_image =>
               extract_text_from_image preprocessed_image))) with
        | Returns extracted_text =>
            let (w', parsed_events) :=
              parse_timetable_text crn_lookup today extracted_text w in
            match parsed_events with
            | [] =>
                (w', Ok (ErrorResponse
                           ("Could not parse any events. "
                            +:+ "Try a clearer image or a different format.")
                           (Some extracted_text)))
            | _ :: _ => (w', Ok (EventsResponse parsed_events))
            end
        | Raises e =>
            match exc e with
            | ValueErrorClass | RuntimeErrorClass =>
                (w, Ok (ErrorResponse (str e) None))
            | _ =>
                (w, Ok (ErrorResponse
                          ("An unexpected error occurred: " +:+ str e) None))
            end
        end
  end.

End Ocr.

End Upload.


(** ** Calendar credentials: [get_calendar_service] *)

Module Credentials.

(** What the function reads of a credentials object. *)
Record creds : Type := mk_creds {
  valid : bool;
  expired : bool;
  refresh_token : option string
}.

(** Truth value of [creds.refresh_token]: [None] and the empty string are
    false. *)
Definition token_truthy (t : option string) : bool :=
  match t with
  | Some (String _ _) => true
  | _ => false
  end.

Section Service.
Context {service : Type}.
(** [creds.refresh(GoogleRequest())]: the credentials as the call leaves
    them. *)
Variable refresh : creds -> result creds.
(** [InstalledAppFlow.from_client_secrets_file('credentials.json', SCOPES)
    .run_local_server(port=8080)] *)
Variable run_local_server : result creds.
(** [build('calendar', 'v3', credentials=creds)] *)
Variable build : creds -> result service.

(** [get_calendar_service()] on the file [token.pickle], which is absent
    ([None]) or holds pickled credentials; reading and writing the file are
    taken to succeed. *)
Definition get_calendar_service (token_pickle : option creds)
  : option creds * result service :=
  let login (flow : result creds) : result (option creds * creds) :=
    let! creds := flow in Ok (Some creds, creds) in
  let stored :=
    match token_pickle with
    | None => login run_local_server
    | Some creds =>
        if negb (valid creds) then
          if expired creds && token_truthy (refresh_token creds)
          then login (refresh creds)
          else login run_local_server
        else Ok (token_pickle, creds)
    end in
  match stored with
  | Raise e => (token_pickle, Raise e)
  | Ok (token_pickle', creds) => (token_pickle', build creds)
  end.

End Service.

End Credentials.

(** * The vocabulary of the specification *)

(** ** First occurrences *)

Section FirstOccurrencesDef.
Context {K V : Type} `{EqDecision K} (key : V -> K).

(** The algorithm in the words of the specification: go through the events
    in order and keep one exactly when its key has not been seen. *)
Fixpoint first_occurrences (seen : list K) (events : list V) : list V :=
  match events with
  | [] => []
  | e :: events' =>
      if decide (key e ∈ seen) then first_occurrences seen events'
      else e :: first_occurrences (seen ++ [key e]) events'
  end.

End FirstOccurrencesDef.

(** ** The DedupKey *)

(** A field of the descriptor, null when the descriptor has no such
    field. *)
Definition field_or_null (event : gmap string json) (k : string) : json :=
  match event !! k with
  | Some v => v
  | None => JNull
  end.

(** The representation of the start or of the end of an occurrence: its
    time string when the descriptor has one that is not empty (null, false
    and the empty string count as none), and otherwise the text of its
    datetime field, which is "None" when the descriptor has no datetime. *)
Definition representation (event : gmap string json)
    (time_str datetime : string) : json :=
  match event !! time_str with
  | Some (JStr (String c s)) => JStr (String c s)
  | Some (JBool true) => JBool true
  | _ =>
      match event !! datetime with
      | Some (JStr s) => JStr s
      | Some (JBool true) => JStr "True"
      | Some (JBool false) => JStr "False"
      | Some JNull | None => JStr "None"
      end
  end.

(** The DedupKey (subject, day-or-null, start-representation,
    end-representation, location). *)
Definition DedupKey_of (event : gmap string json)
  : json * json * json * json * json :=
  (field_or_null event "subject",
   field_or_null event "day",
   representation event "start_time_str" "start_datetime",
   representation event "end_time_str" "end_datetime",
   field_or_null event "location").

(** ** The written forms of a time of day *)

Module TimeForms.
Import Str Strptime.

Definition all_ascii : list ascii := map ascii_of_nat (seq 0 256).

(** The one-character strings of a character class. *)
Definition class_lang (P : ascii -> bool) : list string :=
  map (fun x => String x "") (List.filter P all_ascii).

(** The finite language of a regular expression of [re]. *)
Fixpoint lang (r : re) : list string :=
  match r with
  | Chr c => class_lang (fun x => Ascii.eqb (lower_char x) (lower_char c))
  | Rng lo hi => class_lang (in_range lo hi)
  | Dig => class_lang is_digit
  | Cat r1 r2 =>
      flat_map (fun a => map (fun b => (a +:+ b)%string) (lang r2)) (lang r1)
  | Alt r1 r2 => lang r1 ++ lang r2
  end.

(** The written forms of a number below 100: with or without a leading
    zero below 10, two digits from 10 on. *)
Definition texts (n : Z) : list string :=
  (if n <? 10 then [String (digit_char n) ""] else []) ++ [pad2 n].

(** Exactly two digits. *)
Definition two_digits (n : Z) : list string := [pad2 n].

Definition zrange (lo hi : Z) : list Z :=
  map (fun i => lo + Z.of_nat i) (seq 0 (Z.to_nat (hi - lo + 1))).

(** The hour of the day of a 12-hour clock reading. *)
Definition to_24h (h : Z) (suffix : string) : Z :=
  if String.eqb suffix "AM" then (if h =? 12 then 0 else h)
  else (if h =? 12 then 12 else h + 12).

(** Hour 1 to 12, a colon, the minute 0 to 59 and AM or PM, with the time
    of day each string denotes. *)
Definition ampm_forms (minute_texts : Z -> list string)
  : list (string * Date.time) :=
  flat_map (fun h =>
    flat_map (fun hs =>
      flat_map (fun m =>
        flat_map (fun ms =>
          map (fun p => ((hs +:+ ":" +:+ ms +:+ p)%string,
                         Date.mk_time (to_24h h p) m 0 0))
              ["AM"; "PM"]%string)
          (minute_texts m))
        (zrange 0 59))
      (texts h))
    (zrange 1 12).

(** Hour 0 to 23, a colon and the minute 0 to 59. *)
Definition h24_forms (minute_texts : Z -> list string)
  : list (string * Date.time) :=
  flat_map (fun h =>
    flat_map (fun hs =>
      flat_map (fun m =>
        map (fun ms => ((hs +:+ ":" +:+ ms)%string, Date.mk_time h m 0 0))
            (minute_texts m))
        (zrange 0 59))
      (texts h))
    (zrange 0 23).

(** What [parse_time] accepts, after spaces are removed and letters made
    upper case: the minute may be written with one digit. *)
Definition accepted_forms : list (string * Date.time) :=
  ampm_forms texts ++ h24_forms texts.

(** The forms of the specification, H:MM with AM or PM and HH:MM: the
    minute has two digits. *)
Definition stated_forms : list (string * Date.time) :=
  ampm_forms two_digits ++ h24_forms two_digits.

Fixpoint no_lower (s : string) : bool :=
  match s with
  | EmptyString => true
  | String c s' => negb (in_range "a" "z" c) && no_lower s'
  end.

Definition time_eqb (a b : Date.time) : bool :=
  (Date.hour a =? Date.hour b) && (Date.minute a =? Date.minute b)
  && (Date.second a =? Date.second b)
  && (Date.microsecond a =? Date.microsecond b).

(** The groups that a match of each format yields. *)
Definition groups_I_M_p (i m p : string) : list (directive * string) :=
  [(dI, i); (dLit ":", ":"%string); (dM, m); (dp, p)].

Definition groups_H_M (h m : string) : list (directive * string) :=
  [(dH, h); (dLit ":", ":"%string); (dM, m)].

(** The formats that [parse_time] tries, in order. *)
Definition formats : list (list directive) := [fmt_I_M_p; fmt_H_M].

(** Every text of a number group is a written form of its value, which is
    in range. *)
Definition number_group_ok (lo hi : Z) (x : string) : bool :=
  existsb (Z.eqb (int x)) (zrange lo hi) && existsb (String.eqb x) (texts (int x)).

End TimeForms.

(** ** Units of the schedule normaliser, payload dates and skipped events *)

(** The answers of the resolver to the successive lookups of a batch of
    identifiers, from the world [w]. *)
Fixpoint lookups {world : Type}
    (crn_lookup : world -> string -> world * result (option section))
    (w : world) (crns : list string) : list (result (option section)) :=
  match crns with
  | [] => []
  | crn :: crns' =>
      let (w', r) := crn_lookup w crn in
      r :: lookups crn_lookup w' crns'
  end.

(** The events that the body of the day loop appends for one day name. *)
Definition day_unit (today : Date.date) (s : section) (day_name : string)
  : result (list (gmap string pyval)) :=
  let! event_date := get_next_weekday_date today day_name in
  let! start_t := parse_time (start_time s) in
  let! end_t := parse_time (end_time s) in
  match start_t, end_t with
  | Some st, Some et => Ok [day_event s day_name event_date st et]
  | _, _ => Ok []
  end.

(** The events that the day loop appends for the day letter [d] alone. *)
Definition day_events (today : Date.date) (s : section) (d : ascii)
  : list (gmap string pyval) :=
  fst (for_days today s (String d "") []).

(** The by-day code of each weekday number. *)
Definition byday_table : list (Z * string) :=
  [(0, "MO"); (1, "TU"); (2, "WE"); (3, "TH"); (4, "FR"); (5, "SA"); (6, "SU")]%string.

(** The start or end datetime that the payload carries for the stored
    datetime [dt]: localised when naive, and moved to the next date of the
    event's day when that day is one of the seven names. *)
Definition payload_datetime (today : Date.date) (event : gmap string pyval)
    (dt : Date.datetime) : Date.datetime :=
  let dt := match Date.dt_tzinfo dt with
            | None => Date.localize dt
            | Some _ => dt
            end in
  match weekday_index_get (get VNone event "day") with
  | Some target =>
      move_to (Date.mk_date (Date.toordinal today
                             + (target - Date.weekday today) mod 7)) dt
  | None => dt
  end.

Definition is_none (v : pyval) : bool :=
  match v with VNone => true | _ => false end.

(** The event has no start or no end datetime: the key is absent or holds
    [None]. *)
Definition lacks_datetime (event : gmap string pyval) : bool :=
  is_none (get VNone event "start_datetime")
  || is_none (get VNone event "end_datetime").

(** The descriptor of a concrete occurrence that has no day key. *)
Definition event_without_day (subject start_s end_s : string) : gmap string json :=
  <["subject" := JStr subject]>
  (<["start_datetime" := JStr start_s]>
  (<["end_datetime" := JStr end_s]> ∅)).

(** ** Renderings of a time of day *)

(** The hour of a 12-hour clock and its suffix, as [strftime("%I")] and
    [strftime("%p")] give them. *)
Definition hour12 (h : Z) : Z := if h mod 12 =? 0 then 12 else h mod 12.

Definition ampm (h : Z) : string := if h <? 12 then "AM" else "PM".

(** [t.strftime("%H:%M")] and [t.strftime("%I:%M %p")] *)
Definition render_24h (h m : Z) : string :=
  (Str.pad2 h +:+ ":" +:+ Str.pad2 m)%string.

Definition render_12h (h m : Z) : string :=
  (Str.pad2 (hour12 h) +:+ ":" +:+ Str.pad2 m +:+ " " +:+ ampm h)%string.

(** ** The occurrences that the parser builds *)

(** A concrete occurrence built on [today]: the day dictionary of a
    section, dated 1 to 7 days after [today] on the weekday that its day
    names, at the times parsed from the section's time strings. *)
Definition concrete_occurrence (today : Date.date) (ev : gmap string pyval) : Prop :=
  exists s day_name k st et,
    ev = day_event s day_name (Date.mk_date (Date.toordinal today + k)) st et
    /\ 1 <= k <= 7
    /\ weekday_index_get (VStr day_name)
       = Some (Date.weekday (Date.mk_date (Date.toordinal today + k)))
    /\ parse_time (start_time s) = Ok (Some st)
    /\ parse_time (end_time s) = Ok (Some et).

Definition parsed_occurrence (today : Date.date) (ev : gmap string pyval) : Prop :=
  (exists s, ev = arranged_event s /\ Str.contains "ARR" (days s) = true)
  \/ concrete_occurrence today ev.

(** The most events that the answer of a lookup can yield. *)
Definition days_bound (r : result (option section)) : nat :=
  match r with
  | Ok (Some s) => String.length (days s)
  | _ => 0%nat
  end.

(** The start or the end of the event is a string that [fromisoformat]
    rejects. *)
Definition rejected_timestamp (fromisoformat : string -> result Date.datetime)
    (event : gmap string json) : Prop :=
  exists k s e,
    (k = "start_datetime" \/ k = "end_datetime")%string
    /\ event !! k = Some (JStr s) /\ fromisoformat s = Raise e.


(** ** Messages of the upload endpoint *)

(** The messages with which a failure to decode the image or to run the OCR
    engine is reported. *)
Definition ocr_failure_messages : list string :=
  ["Could not process the provided image file.";
   "Failed to extract text from the image.";
   "Tesseract is not installed or not in your PATH. Please install it to use the OCR functionality."]%string.

Definition could_not_parse : string :=
  "Could not parse any events. Try a clearer image or a different format.".

(** * Properties *)

(** ** Identifier extractor *)

Module ExtractorFacts.
Import Extractor.
Section Findall.
Context {char : Type} (digit : char -> bool).

Lemma span_digits (s : list char) :
  exists r rest, s = r ++ rest /\ all_digits digit r /\ boundary digit rest.
Proof.
  induction s as [|c s IH].
  - exists [], []. repeat split.
  - destruct (digit c) eqn:Hc.
    + destruct IH as (r & rest & -> & Hr & Hb).
      exists (c :: r), rest. repeat split; [|done].
      unfold all_digits in *. simpl. by rewrite Hc.
    + exists [], (c :: s). repeat split. exact Hc.
Qed.

Lemma findall_from_skip (p s : list char) :
  findall_from digit (length p) (p ++ s) = findall_from digit 0 s.
Proof. induction p as [|c p IH]; [done|]. simpl. exact IH. Qed.

Lemma match_d5_short (r rest : list char) :
  (length r < 5)%nat -> boundary digit rest -> match_d5 digit (r ++ rest) = None.
Proof.
  intros Hlen Hb.
  destruct r as [|c1 [|c2 [|c3 [|c4 [|c5 r]]]]]; simpl in *; try lia;
    destruct rest as [|d1 [|d2 [|d3 [|d4 [|d5 rest]]]]]; simpl in *;
    try done; rewrite ?Hb, ?andb_false_r; simpl; done.
Qed.

Lemma findall_short (r rest : list char) :
  (length r < 5)%nat -> boundary digit rest ->
  findall_from digit 0 (r ++ rest) = findall_from digit 0 rest.
Proof.
  induction r as [|c r IH]; intros Hlen Hb; [done|].
  change (findall_from digit 0 ((c :: r) ++ rest)) with
    (match match_d5 digit ((c :: r) ++ rest) with
     | Some m => m :: findall_from digit 4 (r ++ rest)
     | None => findall_from digit 0 (r ++ rest)
     end).
  rewrite match_d5_short by done.
  apply IH; [simpl in Hlen; lia | done].
Qed.

Lemma match_d5_block (b s : list char) :
  length b = 5%nat -> all_digits digit b -> match_d5 digit (b ++ s) = Some b.
Proof.
  intros Hlen Hd.
  destruct b as [|c1 [|c2 [|c3 [|c4 [|c5 [|c6 b]]]]]]; simpl in Hlen; try lia.
  unfold all_digits in Hd. simpl in Hd. rewrite andb_true_r in Hd.
  simpl.
  destruct (digit c1), (digit c2), (digit c3), (digit c4), (digit c5);
    simpl in *; done.
Qed.

Lemma blocks5_short (r : list char) : (length r < 5)%nat -> blocks5 r = [].
Proof.
  intros H. unfold blocks5.
  replace (length r / 5)%nat with 0%nat; [done|].
  symmetry. apply Nat.div_small. exact H.
Qed.

Lemma blocks5_cons (b r : list char) :
  length b = 5%nat -> blocks5 (b ++ r) = b :: blocks5 r.
Proof.
  intros Hlen. unfold blocks5.
  rewrite length_app, Hlen.
  replace ((5 + length r) / 5)%nat with (S (length r / 5)).
  2:{ replace (5 + length r)%nat with (1 * 5 + length r)%nat by lia.
      rewrite Nat.div_add_l by lia. lia. }
  rewrite <- cons_seq. cbn [map]. f_equal.
  - rewrite Nat.mul_0_r, drop_0. rewrite take_app_length'; done.
  - rewrite <- seq_shift, map_map. apply map_ext. intros i.
    replace (5 * S i)%nat with (length b + 5 * i)%nat by lia.
    by rewrite drop_app_add.
Qed.

Lemma all_digits_app (r1 r2 : list char) :
  all_digits digit (r1 ++ r2) <-> all_digits digit r1 /\ all_digits digit r2.
Proof.
  unfold all_digits. rewrite forallb_app, andb_true_iff. done.
Qed.

(** One maximal run contributes its blocks of five. *)
Lemma findall_run (n : nat) : forall r rest : list char,
  (length r <= n)%nat -> all_digits digit r -> boundary digit rest ->
  findall_from digit 0 (r ++ rest) = blocks5 r ++ findall_from digit 0 rest.
Proof.
  induction n as [|n IH]; intros r rest Hn Hd Hb.
  - destruct r; simpl in Hn; [done | lia].
  - destruct (decide (length r < 5)%nat) as [Hlt|Hge].
    + rewrite blocks5_short by done. by apply findall_short.
    + rewrite <- (take_drop 5 r) in Hd |- *.
      apply all_digits_app in Hd as [Hd1 Hd2].
      assert (Hb5 : length (take 5 r) = 5%nat) by (rewrite length_take; lia).
      rewrite blocks5_cons by done.
      rewrite <- app_assoc.
      destruct (take 5 r) as [|c b] eqn:Hb5'; [simpl in Hb5; lia|].
      change (findall_from digit 0 ((c :: b) ++ drop 5 r ++ rest)) with
        (match match_d5 digit ((c :: b) ++ drop 5 r ++ rest) with
         | Some m => m :: findall_from digit 4 (b ++ drop 5 r ++ rest)
         | None => findall_from digit 0 (b ++ drop 5 r ++ rest)
         end).
      rewrite match_d5_block by done.
      simpl in Hb5. injection Hb5 as Hb4.
      rewrite <- Hb4 at 1. rewrite findall_from_skip.
      simpl. f_equal. apply IH; [|done|done].
      rewrite length_drop. lia.
Qed.

Lemma runs_from_run (r : list char) : forall cur rest,
  all_digits digit r -> boundary digit rest ->
  runs_from digit cur (r ++ rest) = flush (cur ++ r) ++ runs_from digit [] rest.
Proof.
  induction r as [|c r IH]; intros cur rest Hd Hb.
  - rewrite app_nil_r. destruct rest as [|d rest]; simpl.
    + by rewrite app_nil_r.
    + simpl in Hb. by rewrite Hb.
  - unfold all_digits in Hd. simpl in Hd.
    apply andb_true_iff in Hd as [Hc Hd].
    simpl. rewrite Hc. rewrite IH by done.
    by rewrite <- app_assoc.
Qed.

(** The maximal runs, by equations: nothing in the empty text, a character
    that is no digit is passed over, and a non-empty stretch of digits that
    the text does not continue is the next run. *)
Lemma digit_runs_nil : digit_runs digit [] = [].
Proof. reflexivity. Qed.

Lemma digit_runs_skip (c : char) (s : list char) :
  digit c = false -> digit_runs digit (c :: s) = digit_runs digit s.
Proof. intros Hc. unfold digit_runs. simpl. by rewrite Hc. Qed.

Lemma digit_runs_run (r rest : list char) :
  r <> [] -> all_digits digit r -> boundary digit rest ->
  digit_runs digit (r ++ rest) = r :: digit_runs digit rest.
Proof.
  intros Hne Hd Hb. unfold digit_runs. rewrite runs_from_run by done.
  simpl. by destruct r.
Qed.

Lemma findall_blocks_of_runs (n : nat) : forall text : list char,
  (length text <= n)%nat ->
  findall_d5 digit text = flat_map blocks5 (digit_runs digit text).
Proof.
  unfold findall_d5, digit_runs.
  induction n as [|n IH]; intros text Hn.
  - destruct text; simpl in Hn; [done | lia].
  - destruct (span_digits text) as (r & rest & -> & Hd & Hb).
    destruct r as [|c r].
    + destruct rest as [|d rest]; [done|].
      simpl in Hb. simpl app.
      change (findall_from digit 0 (d :: rest)) with
        (match match_d5 digit (d :: rest) with
         | Some m => m :: findall_from digit 4 rest
         | None => findall_from digit 0 rest
         end).
      replace (match_d5 digit (d :: rest)) with (@None (list char)).
      2:{ destruct rest as [|d2 [|d3 [|d4 [|d5 rest]]]]; simpl; try done.
          by rewrite Hb. }
      simpl runs_from. rewrite Hb. simpl.
      apply IH. simpl in Hn. lia.
    + rewrite findall_run with (n := length (c :: r)) by done.
      rewrite runs_from_run by done.
      simpl flush. simpl flat_map. f_equal.
      apply IH. rewrite length_app in Hn. simpl in Hn. lia.
Qed.

Lemma length_blocks5 (r : list char) :
  length (blocks5 r) = (length r / 5)%nat.
Proof. unfold blocks5. by rewrite length_map, length_seq. Qed.

Lemma length_flat_map_blocks5 (rs : list (list char)) :
  length (flat_map blocks5 rs)
  = list_sum (map (fun r => (length r / 5)%nat) rs).
Proof.
  induction rs as [|r rs IH]; [done|].
  simpl. by rewrite length_app, length_blocks5, IH.
Qed.

End Findall.
End ExtractorFacts.

Example digit_runs_example :
  map string_of_list_ascii
      (Extractor.digit_runs Str.is_digit (list_ascii_of_string "ab123 45x6"))
  = ["123"; "45"; "6"]%string.
Proof. reflexivity. Qed.

Example crns_of_example :
  crns_of "83538 MWF 9:00AM 1234567890123 x4567 83538"
  = ["83538"; "12345"; "67890"; "83538"]%string.
Proof. reflexivity. Qed.

(** C1 (as amended).  For every text, over any character type and digit
    class (and so for the strings that [parse_timetable_text] scans), the
    extractor returns the successive non-overlapping blocks of
    five digits of each maximal digit run, run after run in text order: a
    run of [n] digits gives its first [n / 5] blocks (so a run shorter than 5
    gives none, a run of 5 to 9 gives its first five digits and a 10-digit
    run gives two identifiers), and the number of identifiers is the sum of
    [n / 5] over the maximal runs. *)
Theorem C1_findall_blocks_of_runs :
  forall (char : Type) (digit : char -> bool) (text : list char),
    Extractor.findall_d5 digit text
    = flat_map Extractor.blocks5 (Extractor.digit_runs digit text)
    /\ length (Extractor.findall_d5 digit text)
       = list_sum (map (fun r => (length r / 5)%nat)
                       (Extractor.digit_runs digit text))
    /\ (forall s : string,
          crns_of s
          = map string_of_list_ascii
                (flat_map Extractor.blocks5
                   (Extractor.digit_runs Str.is_digit (list_ascii_of_string s)))).
Proof.
  intros char digit text.
  assert (H : forall (A : Type) (dig : A -> bool) (t : list A),
            Extractor.findall_d5 dig t
            = flat_map Extractor.blocks5 (Extractor.digit_runs dig t)).
  { intros A dig t.
    apply ExtractorFacts.findall_blocks_of_runs with (n := length t). lia. }
  split; [apply H|]. split.
  - rewrite H. apply ExtractorFacts.length_flat_map_blocks5.
  - intros s. unfold crns_of. by rewrite H.
Qed.

(** C1 (as stated) fails: on the text "123456" the extractor returns
    "12345", which is no maximal run of exactly 5 digits (the only maximal
    run has 6), so the output is not the list of those runs and its length is
    not their count. *)
Lemma C1_six_digit_run_counterexample :
  let text := list_ascii_of_string "123456" in
  Extractor.findall_d5 Str.is_digit text = [list_ascii_of_string "12345"]
  /\ Extractor.runs_of_exactly_5 Str.is_digit text = []
  /\ Extractor.findall_d5 Str.is_digit text
     <> Extractor.runs_of_exactly_5 Str.is_digit text
  /\ length (Extractor.findall_d5 Str.is_digit text)
     <> length (Extractor.runs_of_exactly_5 Str.is_digit text).
Proof. vm_compute. repeat split; discriminate. Qed.

(** ** Weekday resolution *)

Example monday_3_november_2025 :
  Date.weekday (Date.of_ymd 2025 11 3) = 0
  /\ Date.ord2ymd (Date.toordinal (Date.of_ymd 2025 11 3)) = (2025, 11, 3)
  /\ get_next_weekday_date (Date.of_ymd 2025 11 3) "Monday"
     = Ok (Date.of_ymd 2025 11 10)
  /\ get_next_weekday_date (Date.of_ymd 2025 11 3) "Wednesday"
     = Ok (Date.of_ymd 2025 11 5)
  /\ get_next_weekday_date (Date.of_ymd 2025 11 3) "Mon"
     = Ok (Date.of_ymd 2025 11 3).
Proof. vm_compute. repeat split. Qed.

Lemma index_range (x : string) (l : list string) : forall i,
  index x l = Ok i -> 0 <= i < Z.of_nat (length l).
Proof.
  induction l as [|y l IH]; intros i; simpl; [discriminate|].
  destruct (String.eqb y x); [intros [= <-]; lia|].
  destruct (index x l) as [j|e]; simpl; [|discriminate].
  intros [= <-]. specialize (IH j eq_refl). lia.
Qed.

Lemma index_days_of_week_range (x : string) (i : Z) :
  index x days_of_week = Ok i -> 0 <= i <= 6.
Proof. intros H. apply index_range in H. simpl in H. lia. Qed.

Lemma add_days_in_range (d : Date.date) (k : Z) :
  Date.valid d -> 0 <= k -> Date.toordinal d + k <= Date.MAXORDINAL ->
  Date.add_days d k = Ok (Date.mk_date (Date.toordinal d + k)).
Proof.
  unfold Date.valid, Date.add_days, Date.MINORDINAL. intros Hv Hk Hmax.
  replace (0 <? Date.toordinal d + k) with true by (symmetry; apply Z.ltb_lt; lia).
  replace (Date.toordinal d + k <=? Date.MAXORDINAL) with true
    by (symmetry; apply Z.leb_le; lia).
  reflexivity.
Qed.

(** A known name resolves to the date [k] days ahead, [k] being the
    distance to that weekday, or 7 when the distance is 0. *)
Lemma get_next_weekday_date_known (today : Date.date) (day_name : string) (i : Z) :
  Date.valid today ->
  Date.toordinal today + 7 <= Date.MAXORDINAL ->
  index (Str.lower day_name) days_of_week = Ok i ->
  exists k,
    1 <= k <= 7
    /\ get_next_weekday_date today day_name
       = Ok (Date.mk_date (Date.toordinal today + k))
    /\ Date.weekday (Date.mk_date (Date.toordinal today + k)) = i
    /\ (k = 7 <-> i = Date.weekday today)
    /\ k = (if (i - Date.weekday today + 7) mod 7 =? 0 then 7
            else (i - Date.weekday today + 7) mod 7).
Proof.
  intros Hv Hmax Hi.
  assert (Hw : 0 <= Date.weekday today < 7)
    by (unfold Date.weekday; apply Z.mod_pos_bound; lia).
  pose proof (index_days_of_week_range _ _ Hi) as Hr.
  unfold get_next_weekday_date. rewrite Hi.
  set (d := (i - Date.weekday today + 7) mod 7).
  assert (Hd : 0 <= d < 7) by (apply Z.mod_pos_bound; lia).
  assert (Hmod : (Date.toordinal today + 6 + d) mod 7 = i).
  { unfold d. rewrite Zplus_mod_idemp_r.
    unfold Date.weekday.
    replace (Date.toordinal today + 6 + (i - (Date.toordinal today + 6) mod 7 + 7))
      with (i + 7 + ((Date.toordinal today + 6) - (Date.toordinal today + 6) mod 7))
      by lia.
    rewrite (Z.div_mod (Date.toordinal today + 6) 7) at 1 by lia.
    replace (i + 7 + (7 * ((Date.toordinal today + 6) / 7)
                      + (Date.toordinal today + 6) mod 7
                      - (Date.toordinal today + 6) mod 7))
      with (i + (1 + (Date.toordinal today + 6) / 7) * 7) by lia.
    rewrite Z.mod_add by lia. apply Z.mod_small. lia. }
  destruct (d =? 0) eqn:Hd0.
  - apply Z.eqb_eq in Hd0. exists 7. split; [lia|].
    split; [apply add_days_in_range; [done|lia|lia]|].
    assert (Hi' : i = Date.weekday today).
    { rewrite Hd0, Z.add_0_r in Hmod. unfold Date.weekday. lia. }
    split; [|split; [tauto|done]].
    unfold Date.weekday in *. simpl Date.toordinal.
    replace (Date.toordinal today + 7 + 6)
      with (Date.toordinal today + 6 + 1 * 7) by lia.
    rewrite Z.mod_add by lia. lia.
  - apply Z.eqb_neq in Hd0. exists d. split; [lia|].
    split; [apply add_days_in_range; [done|lia|lia]|].
    split; [|split; [|done]].
    + unfold Date.weekday. simpl Date.toordinal.
      replace (Date.toordinal today + d + 6)
        with (Date.toordinal today + 6 + d) by lia.
      exact Hmod.
    + split; [lia|]. intros Hi'. exfalso. apply Hd0.
      unfold d. rewrite Hi'. replace (Date.weekday today - Date.weekday today + 7)
        with (1 * 7) by lia.
      apply Z.mod_mul. lia.
Qed.

(** C2.  For a reference date at least 7 days before [date.max] and a name
    whose lower-case form is one of the seven weekday names, the function
    returns the date [k] days after the reference date with [1 <= k <= 7],
    that date falls on the named weekday, and [k = 7] exactly when the name
    is the weekday of the reference date; so "Monday" from a Monday is
    today + 7 and "Wednesday" from a Monday is today + 2.  For any other
    name it returns the reference date unchanged. *)
Theorem C2_next_weekday_date :
  forall (today : Date.date) (day_name : string),
    Date.valid today ->
    Date.toordinal today + 7 <= Date.MAXORDINAL ->
    (forall i, index (Str.lower day_name) days_of_week = Ok i ->
       exists k,
         1 <= k <= 7
         /\ get_next_weekday_date today day_name
            = Ok (Date.mk_date (Date.toordinal today + k))
         /\ Date.weekday (Date.mk_date (Date.toordinal today + k)) = i
         /\ (k = 7 <-> i = Date.weekday today))
    /\ (forall e, index (Str.lower day_name) days_of_week = Raise e ->
          get_next_weekday_date today day_name = Ok today)
    /\ (Date.weekday today = 0 ->
          get_next_weekday_date today "Monday"
          = Ok (Date.mk_date (Date.toordinal today + 7))
          /\ get_next_weekday_date today "Wednesday"
             = Ok (Date.mk_date (Date.toordinal today + 2))).
Proof.
  intros today day_name Hv Hmax.
  pose proof (fun nm i => get_next_weekday_date_known today nm i Hv Hmax) as Hgen.
  split; [|split].
  - intros i Hi. destruct (Hgen _ _ Hi) as (k & ? & ? & ? & ? & _). eauto.
  - intros e He. unfold get_next_weekday_date. by rewrite He.
  - intros Hmon. split.
    + destruct (Hgen "Monday"%string 0 eq_refl) as (k & _ & Hk & _ & _ & Hkv).
      rewrite Hk, Hkv, Hmon. reflexivity.
    + destruct (Hgen "Wednesday"%string 2 eq_refl) as (k & _ & Hk & _ & _ & Hkv).
      rewrite Hk, Hkv, Hmon. reflexivity.
Qed.

(** C2 on 3 November 2025, a Monday: "FRIDAY" is 4 days ahead and "Monday"
    7 days ahead. *)
Lemma C2_next_weekday_date_witness :
  (exists k,
     1 <= k <= 7
     /\ get_next_weekday_date (Date.of_ymd 2025 11 3) "FRIDAY"
        = Ok (Date.mk_date (Date.toordinal (Date.of_ymd 2025 11 3) + k))
     /\ Date.weekday (Date.mk_date (Date.toordinal (Date.of_ymd 2025 11 3) + k)) = 4
     /\ (k = 7 <-> 4 = Date.weekday (Date.of_ymd 2025 11 3)))
  /\ get_next_weekday_date (Date.of_ymd 2025 11 3) "Monday"
     = Ok (Date.mk_date (Date.toordinal (Date.of_ymd 2025 11 3) + 7)).
Proof.
  assert (Hv : Date.valid (Date.of_ymd 2025 11 3)) by (vm_compute; split; discriminate).
  assert (Hm : Date.toordinal (Date.of_ymd 2025 11 3) + 7 <= Date.MAXORDINAL)
    by (vm_compute; discriminate).
  destruct (C2_next_weekday_date (Date.of_ymd 2025 11 3) "FRIDAY" Hv Hm)
    as (Hknown & _ & Hmon).
  split.
  - apply Hknown. reflexivity.
  - apply Hmon. reflexivity.
Defined.

(** ** Event de-duplicator *)

Section FirstOccurrences.
Context {K V : Type} `{EqDecision K} (key : V -> K).

Lemma key_in_spec (k : K) (d : list (K * V)) :
  key_in k d = bool_decide (k ∈ map fst d).
Proof.
  unfold key_in. induction d as [|[k' v] d IH]; simpl; [done|].
  rewrite IH. destruct (decide (k' = k)) as [->|Hne].
  - rewrite bool_decide_eq_true_2 by done.
    symmetry. apply bool_decide_eq_true_2. left.
  - rewrite (bool_decide_eq_false_2 (k' = k)) by done. simpl.
    apply bool_decide_ext. rewrite elem_of_cons.
    split; [by right | intros [Heq|Hin]; [by subst | done]].
Qed.

(** The dictionary loop computes the first occurrences. *)
Lemma unique_events_from (events : list V) : forall unique : list (K * V),
  fold_left (fun unique event =>
               if key_in (key event) unique then unique
               else unique ++ [(key event, event)]) events unique
  = unique ++ map (fun e => (key e, e))
                  (first_occurrences key (map fst unique) events).
Proof.
  induction events as [|e events IH]; intros unique; simpl.
  - by rewrite app_nil_r.
  - rewrite key_in_spec. destruct (decide (key e ∈ map fst unique)) as [Hin|Hout].
    + rewrite bool_decide_eq_true_2 by done. apply IH.
    + rewrite bool_decide_eq_false_2 by done. rewrite IH.
      rewrite map_app. simpl. by rewrite <- app_assoc.
Qed.

Lemma values_unique_events (events : list V) :
  map snd (unique_events_of key events) = first_occurrences key [] events.
Proof.
  unfold unique_events_of. rewrite unique_events_from. simpl.
  rewrite map_map. simpl. apply map_id.
Qed.

Lemma first_occurrences_sublist (events : list V) : forall seen,
  sublist (first_occurrences key seen events) events.
Proof.
  induction events as [|e events IH]; intros seen; simpl; [constructor|].
  destruct (decide (key e ∈ seen)).
  - apply sublist_cons, IH.
  - apply sublist_skip, IH.
Qed.

Lemma first_occurrences_fresh (events : list V) : forall seen e,
  e ∈ first_occurrences key seen events -> key e ∉ seen.
Proof.
  induction events as [|x events IH]; intros seen e; simpl.
  - by intros ?%elem_of_nil.
  - destruct (decide (key x ∈ seen)) as [Hin|Hout].
    + apply IH.
    + intros [->|He]%elem_of_cons; [done|].
      apply IH in He. intros Hs. apply He, elem_of_app. by left.
Qed.

Lemma first_occurrences_NoDup (events : list V) : forall seen,
  NoDup (map key (first_occurrences key seen events)).
Proof.
  induction events as [|x events IH]; intros seen; simpl; [constructor|].
  destruct (decide (key x ∈ seen)) as [Hin|Hout]; [apply IH|].
  simpl. constructor; [|apply IH].
  intros (e & Heq & He)%list_elem_of_fmap.
  apply first_occurrences_fresh in He. apply He, elem_of_app. right.
  rewrite Heq. left.
Qed.

(** A kept event is the first of the input with its key. *)
Lemma first_occurrences_find (events : list V) : forall seen e,
  e ∈ first_occurrences key seen events ->
  List.find (fun x => bool_decide (key x = key e)) events = Some e.
Proof.
  induction events as [|x events IH]; intros seen e; simpl.
  - by intros ?%elem_of_nil.
  - destruct (decide (key x ∈ seen)) as [Hin|Hout].
    + intros He. pose proof (first_occurrences_fresh _ _ _ He) as Hfresh.
      rewrite bool_decide_eq_false_2 by (intros Heq; by rewrite Heq in Hin).
      by apply (IH seen).
    + intros [->|He]%elem_of_cons.
      * by rewrite bool_decide_eq_true_2.
      * pose proof (first_occurrences_fresh _ _ _ He) as Hfresh.
        rewrite bool_decide_eq_false_2.
        -- by apply (IH (seen ++ [key x])).
        -- intros Heq. apply Hfresh, elem_of_app. right. rewrite Heq. left.
Qed.

(** Every key of the input that was not seen before survives. *)
Lemma first_occurrences_complete (events : list V) : forall seen e,
  e ∈ events -> key e ∉ seen ->
  exists e', e' ∈ first_occurrences key seen events /\ key e' = key e.
Proof.
  induction events as [|x events IH]; intros seen e; simpl.
  - by intros ?%elem_of_nil.
  - intros [->|He]%elem_of_cons Hfresh.
    + rewrite decide_False by done. exists x. split; [left|done].
    + destruct (decide (key x ∈ seen)) as [Hin|Hout]; [by apply IH|].
      destruct (decide (key e = key x)) as [Heq|Hne].
      * exists x. split; [left|done].
      * destruct (IH (seen ++ [key x]) e He) as (e' & He' & Hk).
        { intros [?|Hl%list_elem_of_singleton]%elem_of_app; done. }
        exists e'. split; [by right|done].
Qed.

Lemma first_occurrences_fixed (events : list V) : forall seen,
  NoDup (map key events) ->
  (forall e, e ∈ events -> key e ∉ seen) ->
  first_occurrences key seen events = events.
Proof.
  induction events as [|x events IH]; intros seen Hnd Hfresh; simpl; [done|].
  simpl in Hnd. apply NoDup_cons in Hnd as [Hx Hnd].
  rewrite decide_False by (apply Hfresh; left).
  f_equal. apply IH; [done|].
  intros e He [Hs|Hl%list_elem_of_singleton]%elem_of_app.
  - apply (Hfresh e); [by right|done].
  - apply Hx. rewrite <- Hl. apply list_elem_of_fmap. eauto.
Qed.

Lemma first_occurrences_idempotent (events : list V) :
  first_occurrences key [] (first_occurrences key [] events)
  = first_occurrences key [] events.
Proof.
  apply first_occurrences_fixed.
  - apply first_occurrences_NoDup.
  - intros e _. apply not_elem_of_nil.
Qed.

End FirstOccurrences.

(** The first occurrences depend on the key only through its values. *)
Lemma first_occurrences_ext {K V : Type} `{EqDecision K} (key key' : V -> K)
    (events : list V) : forall seen,
  (forall e, key e = key' e) ->
  first_occurrences key seen events = first_occurrences key' seen events.
Proof.
  induction events as [|x events IH]; intros seen Hext; simpl; [done|].
  rewrite <- Hext. destruct (decide (key x ∈ seen)); [by apply IH|].
  f_equal. by apply IH.
Qed.

(** Of two events the second is dropped exactly when it has the key of the
    first. *)
Lemma first_occurrences_pair {K V : Type} `{EqDecision K} (key : V -> K)
    (x y : V) :
  first_occurrences key [] [x; y]
  = if decide (key x = key y) then [x] else [x; y].
Proof.
  simpl. destruct (decide (key x ∈ [])) as [Hin|_];
    [by apply not_elem_of_nil in Hin|].
  destruct (decide (key y ∈ [key x])) as [Hin|Hout],
           (decide (key x = key y)) as [Heq|Hne]; try done.
  - apply list_elem_of_singleton in Hin. by destruct Hne.
  - destruct Hout. rewrite Heq. left.
Qed.

(** The key that the loop computes is the DedupKey. *)
Lemma dedup_key_DedupKey (event : gmap string json) :
  dedup_key event = DedupKey_of event.
Proof.
  unfold dedup_key, DedupKey_of, get, or_str, representation, field_or_null.
  destruct (event !! "subject"%string), (event !! "day"%string),
           (event !! "location"%string);
    destruct (event !! "start_time_str"%string) as [[|[]|[|c1 s1]]|],
             (event !! "start_datetime"%string) as [[|[]|s2]|];
    destruct (event !! "end_time_str"%string) as [[|[]|[|c3 s3]]|],
             (event !! "end_datetime"%string) as [[|[]|s4]|];
    reflexivity.
Qed.

Example dedup_key_arranged :
  dedup_key (<["subject" := JStr "CS 4994 Research"]>
             (<["location" := JStr "TBA"]>
             (<["needs_days_input" := JBool true]>
             (<["start_time_str" := JStr "ARR"]>
             (<["end_time_str" := JStr ""]> ∅)))))
  = (JStr "CS 4994 Research", JNull, JStr "ARR", JStr "None", JStr "TBA").
Proof. reflexivity. Qed.

(** C3.  For every list of event descriptors, the de-duplication loop of
    [create_events_in_calendar] keeps exactly the first descriptor of each
    distinct key, in input order: its result is the list of first
    occurrences, a subsequence of the input with pairwise distinct keys in
    which every key of the input is represented by the first descriptor that
    carries it; running it again changes nothing, and it never returns more
    descriptors than it was given.  The key is the DedupKey: the subject,
    the day or null, the representation of the start and that of the end
    (the time string, or else the text of the datetime), and the location.
    So of two descriptors the second is dropped exactly when it agrees with
    the first on these five components, whatever their other fields. *)
Theorem C3_dedup_first_occurrences :
  forall events : list (gmap string json),
    (forall e, dedup_key e = DedupKey_of e)
    /\ dedup events = first_occurrences DedupKey_of [] events
    /\ (forall x y,
          dedup [x; y]
          = if decide (field_or_null x "subject" = field_or_null y "subject"
                       /\ field_or_null x "day" = field_or_null y "day"
                       /\ representation x "start_time_str" "start_datetime"
                          = representation y "start_time_str" "start_datetime"
                       /\ representation x "end_time_str" "end_datetime"
                          = representation y "end_time_str" "end_datetime"
                       /\ field_or_null x "location" = field_or_null y "location")
            then [x] else [x; y])
    /\ dedup events = first_occurrences dedup_key [] events
    /\ sublist (dedup events) events
    /\ NoDup (map dedup_key (dedup events))
    /\ (forall e, e ∈ dedup events ->
          List.find (fun x => bool_decide (dedup_key x = dedup_key e)) events
          = Some e)
    /\ (forall e, e ∈ events ->
          exists e', e' ∈ dedup events /\ dedup_key e' = dedup_key e)
    /\ dedup (dedup events) = dedup events
    /\ (length (dedup events) <= length events)%nat.
Proof.
  intros events.
  split; [exact dedup_key_DedupKey|].
  split.
  { unfold dedup. rewrite values_unique_events.
    apply first_occurrences_ext, dedup_key_DedupKey. }
  split.
  { intros x y. unfold dedup.
    rewrite values_unique_events, first_occurrences_pair.
    destruct (decide (dedup_key x = dedup_key y)) as [Heq|Hne].
    - rewrite !dedup_key_DedupKey in Heq. unfold DedupKey_of in Heq.
      injection Heq as H1 H2 H3 H4 H5. rewrite decide_True; [done|].
      repeat split; assumption.
    - rewrite decide_False; [done|].
      intros (H1 & H2 & H3 & H4 & H5). apply Hne.
      rewrite !dedup_key_DedupKey. unfold DedupKey_of. congruence. }
  unfold dedup.
  rewrite !values_unique_events.
  split; [done|].
  split; [apply first_occurrences_sublist|].
  split; [apply first_occurrences_NoDup|].
  split; [apply first_occurrences_find|].
  split.
  { intros e He. apply first_occurrences_complete; [done|apply not_elem_of_nil]. }
  split; [apply first_occurrences_idempotent|].
  apply sublist_length, first_occurrences_sublist.
Qed.

(** ** Time parsing *)

Module TimeFacts.
Import Str Strptime TimeForms.

Lemma append_assoc (a b c : string) :
  (a +:+ b +:+ c = (a +:+ b) +:+ c)%string.
Proof.
  induction a as [|x a IH]; [reflexivity|].
  change (String x (a +:+ b +:+ c) = String x ((a +:+ b) +:+ c))%string.
  by rewrite IH.
Qed.

Lemma in_all_ascii (x : ascii) : In x all_ascii.
Proof.
  unfold all_ascii. rewrite <- (ascii_nat_embedding x).
  apply in_map, in_seq. pose proof (nat_ascii_bounded x). lia.
Qed.

Lemma in_lang_class (P : ascii -> bool) (x : ascii) :
  P x = true -> In (String x "") (class_lang P).
Proof.
  intros HP. apply (in_map (fun y => String y ""%string)), filter_In.
  split; [apply in_all_ascii | done].
Qed.

Lemma rmatch_sound (r : re) : forall s m rest,
  In (m, rest) (rmatch r s) -> s = (m +:+ rest)%string /\ In m (lang r).
Proof.
  induction r as [c|lo hi| |r1 IH1 r2 IH2|r1 IH1 r2 IH2]; intros s m rest;
    cbn [rmatch lang].
  - destruct s as [|x s']; [intros []|].
    destruct (Ascii.eqb _ _) eqn:Hx; [|intros []].
    intros [[= <- <-]|[]]. split; [reflexivity|]. by apply in_lang_class.
  - destruct s as [|x s']; [intros []|].
    destruct (in_range lo hi x) eqn:Hx; [|intros []].
    intros [[= <- <-]|[]]. split; [reflexivity|]. by apply in_lang_class.
  - destruct s as [|x s']; [intros []|].
    destruct (is_digit x) eqn:Hx; [|intros []].
    intros [[= <- <-]|[]]. split; [reflexivity|]. by apply in_lang_class.
  - intros ([m1 s1] & H1 & H2)%in_flat_map.
    apply in_map_iff in H2 as ([m2 s2] & [= <- <-] & H2).
    apply IH1 in H1 as [-> Hm1]. apply IH2 in H2 as [-> Hm2].
    split.
    + apply append_assoc.
    + apply in_flat_map. exists m1. split; [done|]. by apply in_map.
  - intros [H|H]%in_app_iff.
    + apply IH1 in H as [-> ?]. split; [done|]. apply in_or_app. by left.
    + apply IH2 in H as [-> ?]. split; [done|]. apply in_or_app. by right.
Qed.

Lemma append_nil_r (a : string) : (a +:+ "")%string = a.
Proof.
  induction a as [|x a IH]; [reflexivity|].
  change (String x (a +:+ "") = String x a)%string. by rewrite IH.
Qed.

Lemma no_lower_append (a b : string) :
  no_lower (a +:+ b) = no_lower a && no_lower b.
Proof.
  induction a as [|x a IH]; [reflexivity|].
  change (no_lower (String x (a +:+ b)) = no_lower (String x a) && no_lower b).
  simpl. rewrite IH. by rewrite andb_assoc.
Qed.

Lemma upper_char_not_lower (c : ascii) :
  negb (in_range "a" "z" (upper_char c)) = true.
Proof. destruct c as [[] [] [] [] [] [] [] []]; reflexivity. Qed.

Lemma no_lower_upper (s : string) : no_lower (upper s) = true.
Proof.
  induction s as [|c s IH]; [reflexivity|].
  simpl. by rewrite upper_char_not_lower, IH.
Qed.

Lemma time_eqb_eq (a b : Date.time) : time_eqb a b = true -> a = b.
Proof.
  destruct a, b. unfold time_eqb. simpl.
  rewrite !andb_true_iff, !Z.eqb_eq. intros [[[-> ->] ->] ->]. reflexivity.
Qed.

Lemma match_I_M_p_sound (s : string) (found : list (directive * string))
    (rest : string) :
  In (found, rest) (match_format fmt_I_M_p s) ->
  exists i m p,
    found = groups_I_M_p i m p
    /\ s = (i +:+ ":" +:+ m +:+ p +:+ rest)%string
    /\ In i (lang (re_of dI)) /\ In m (lang (re_of dM)) /\ In p (lang (re_of dp)).
Proof.
  unfold fmt_I_M_p. cbn [match_format].
  intros ([i s1] & Hi & H)%in_flat_map.
  apply in_map_iff in H as ([g1 r1] & [= <- <-] & H).
  apply in_flat_map in H as ([c s2] & Hc & H).
  apply in_map_iff in H as ([g2 r2] & [= <- <-] & H).
  apply in_flat_map in H as ([m s3] & Hm & H).
  apply in_map_iff in H as ([g3 r3] & [= <- <-] & H).
  apply in_flat_map in H as ([p s4] & Hp & H).
  apply in_map_iff in H as ([g4 r4] & [= <- <-] & [[= <- <-]|[]]).
  apply rmatch_sound in Hi as [-> Hi], Hc as [-> Hc], Hm as [-> Hm], Hp as [-> Hp].
  assert (Hcolon : c = ":"%string).
  { apply (proj1 (List.Forall_forall (fun c => c = ":"%string)
                                     (lang (re_of (dLit ":")))));
      [vm_compute; repeat constructor | exact Hc]. }
  subst c. exists i, m, p.
  split; [reflexivity|]. split; [reflexivity|].
  split; [exact Hi|]. split; [exact Hm | exact Hp].
Qed.

Lemma match_H_M_sound (s : string) (found : list (directive * string))
    (rest : string) :
  In (found, rest) (match_format fmt_H_M s) ->
  exists h m,
    found = groups_H_M h m
    /\ s = (h +:+ ":" +:+ m +:+ rest)%string
    /\ In h (lang (re_of dH)) /\ In m (lang (re_of dM)).
Proof.
  unfold fmt_H_M. cbn [match_format].
  intros ([h s1] & Hh & H)%in_flat_map.
  apply in_map_iff in H as ([g1 r1] & [= <- <-] & H).
  apply in_flat_map in H as ([c s2] & Hc & H).
  apply in_map_iff in H as ([g2 r2] & [= <- <-] & H).
  apply in_flat_map in H as ([m s3] & Hm & H).
  apply in_map_iff in H as ([g3 r3] & [= <- <-] & [[= <- <-]|[]]).
  apply rmatch_sound in Hh as [-> Hh], Hc as [-> Hc], Hm as [-> Hm].
  assert (Hcolon : c = ":"%string).
  { apply (proj1 (List.Forall_forall (fun c => c = ":"%string)
                                     (lang (re_of (dLit ":")))));
      [vm_compute; repeat constructor | exact Hc]. }
  subst c. exists h, m.
  split; [reflexivity|]. split; [reflexivity|].
  split; [exact Hh | exact Hm].
Qed.

Lemma strptime_ok (fmt : list directive) (s : string) (t : Date.time) :
  strptime fmt s = Ok t ->
  exists found, In (found, ""%string) (match_format fmt s)
                /\ t = time_of_groups found.
Proof.
  unfold strptime. destruct (match_format fmt s) as [|[found rest] l]; [discriminate|].
  destruct (String.eqb rest "") eqn:Hrest; [|discriminate].
  apply String.eqb_eq in Hrest. subst rest.
  intros [= <-]. exists found. split; [by left | reflexivity].
Qed.

Lemma strptime_raises (fmt : list directive) (s : string) (e : exn) :
  strptime fmt s = Raise e -> e = ValueError.
Proof.
  unfold strptime. destruct (match_format fmt s) as [|[found rest] l]; [congruence|].
  destruct (String.eqb rest ""); congruence.
Qed.

Lemma accepted_forms_parse :
  forallb (fun f => match try_formats formats (fst f) with
                    | Ok (Some t) => time_eqb t (snd f)
                    | _ => false
                    end) accepted_forms = true.
Proof. vm_compute. reflexivity. Qed.

Lemma number_group_ok_In (lo hi : Z) (x : string) :
  number_group_ok lo hi x = true ->
  In (int x) (zrange lo hi) /\ In x (texts (int x)).
Proof.
  unfold number_group_ok. intros [H1 H2]%andb_true_iff.
  apply existsb_exists in H1 as (v & Hv & <-%Z.eqb_eq).
  apply existsb_exists in H2 as (w & Hw & <-%String.eqb_eq).
  split; assumption.
Qed.

Lemma hour12_group (i : string) :
  In i (lang (re_of dI)) -> In (int i) (zrange 1 12) /\ In i (texts (int i)).
Proof.
  intros Hi. apply number_group_ok_In.
  revert i Hi. apply forallb_forall. vm_compute. reflexivity.
Qed.

Lemma hour24_group (h : string) :
  In h (lang (re_of dH)) -> In (int h) (zrange 0 23) /\ In h (texts (int h)).
Proof.
  intros Hh. apply number_group_ok_In.
  revert h Hh. apply forallb_forall. vm_compute. reflexivity.
Qed.

Lemma minute_group (m : string) :
  In m (lang (re_of dM)) -> In (int m) (zrange 0 59) /\ In m (texts (int m)).
Proof.
  intros Hm. apply number_group_ok_In.
  revert m Hm. apply forallb_forall. vm_compute. reflexivity.
Qed.

Lemma suffix_upper_case (p : string) :
  In p (lang (re_of dp)) -> no_lower p = true -> p = "AM"%string \/ p = "PM"%string.
Proof.
  intros Hp Hup.
  assert (H : implb (no_lower p) (String.eqb p "AM" || String.eqb p "PM") = true).
  { revert p Hp Hup. intros p Hp _. revert p Hp.
    apply forallb_forall. vm_compute. reflexivity. }
  rewrite Hup in H. simpl implb in H.
  apply orb_true_iff in H as [H|H]; apply String.eqb_eq in H; auto.
Qed.

Lemma time_of_groups_I_M_p (i m p : string) :
  p = "AM"%string \/ p = "PM"%string ->
  time_of_groups (groups_I_M_p i m p)
  = Date.mk_time (to_24h (int i) p) (int m) 0 0.
Proof.
  intros [-> | ->].
  - reflexivity.
  - unfold time_of_groups, groups_I_M_p, to_24h. cbn.
    destruct (int i =? 12) eqn:H12; [|reflexivity].
    apply Z.eqb_eq in H12. by rewrite H12.
Qed.

(** What a successful [strptime] of each format says about an upper-case
    string. *)
Lemma strptime_I_M_p_form (n : string) (t : Date.time) :
  no_lower n = true -> strptime fmt_I_M_p n = Ok t -> In (n, t) (ampm_forms texts).
Proof.
  intros Hup (found & Hin & ->)%strptime_ok.
  apply match_I_M_p_sound in Hin as (i & m & p & -> & -> & Hi & Hm & Hp).
  rewrite append_nil_r in Hup |- *.
  rewrite !no_lower_append, !andb_true_iff in Hup.
  destruct Hup as (_ & _ & _ & Hup).
  pose proof (suffix_upper_case p Hp Hup) as Hsuf.
  rewrite time_of_groups_I_M_p by exact Hsuf.
  apply hour12_group in Hi as [Hi1 Hi2]. apply minute_group in Hm as [Hm1 Hm2].
  unfold ampm_forms.
  apply in_flat_map. exists (int i). split; [exact Hi1|].
  apply in_flat_map. exists i. split; [exact Hi2|].
  apply in_flat_map. exists (int m). split; [exact Hm1|].
  apply in_flat_map. exists m. split; [exact Hm2|].
  destruct Hsuf as [-> | ->]; [left | right; left]; reflexivity.
Qed.

Lemma strptime_H_M_form (n : string) (t : Date.time) :
  strptime fmt_H_M n = Ok t -> In (n, t) (h24_forms texts).
Proof.
  intros (found & Hin & ->)%strptime_ok.
  apply match_H_M_sound in Hin as (h & m & -> & -> & Hh & Hm).
  rewrite append_nil_r.
  apply hour24_group in Hh as [Hh1 Hh2]. apply minute_group in Hm as [Hm1 Hm2].
  unfold h24_forms.
  apply in_flat_map. exists (int h). split; [exact Hh1|].
  apply in_flat_map. exists h. split; [exact Hh2|].
  apply in_flat_map. exists (int m). split; [exact Hm1|].
  apply (in_map (fun ms => ((h +:+ ":" +:+ ms)%string,
                            Date.mk_time (int h) (int m) 0 0))).
  exact Hm2.
Qed.

Lemma try_formats_accepted (n : string) (t : Date.time) :
  no_lower n = true ->
  (try_formats formats n = Ok (Some t) <-> In (n, t) accepted_forms).
Proof.
  intros Hup. split.
  - unfold formats. cbn [try_formats].
    destruct (strptime fmt_I_M_p n) as [t1|e1] eqn:H1.
    + intros [= <-]. apply in_or_app. left. by apply strptime_I_M_p_form.
    + apply strptime_raises in H1 as ->.
      destruct (strptime fmt_H_M n) as [t2|e2] eqn:H2.
      * intros [= <-]. apply in_or_app. right. by apply strptime_H_M_form.
      * apply strptime_raises in H2 as ->. discriminate.
  - intros Hin.
    pose proof (proj1 (forallb_forall _ _) accepted_forms_parse (n, t) Hin) as H.
    cbv beta in H. cbn [fst snd] in H.
    destruct (try_formats formats n) as [[t'|]|e]; try discriminate.
    apply time_eqb_eq in H. by subst.
Qed.

Lemma try_formats_never_raises (n : string) :
  exists r, try_formats formats n = Ok r.
Proof.
  unfold formats. cbn [try_formats].
  destruct (strptime fmt_I_M_p n) as [t1|e1] eqn:H1; [eauto|].
  apply strptime_raises in H1 as ->.
  destruct (strptime fmt_H_M n) as [t2|e2] eqn:H2; [eauto|].
  apply strptime_raises in H2 as ->. eauto.
Qed.

End TimeFacts.




(** ** Schedule normaliser *)

Lemma for_days_step (today : Date.date) (s : section) (d : ascii) (ds : string)
    (events : list (gmap string pyval)) :
  for_days today s (String d ds) events
  = match day_map_get d day_map with
    | None => for_days today s ds events
    | Some day_name =>
        match day_unit today s day_name with
        | Ok new => for_days today s ds (events ++ new)
        | Raise e => (events, Raise e)
        end
    end.
Proof.
  cbn [for_days]. destruct (day_map_get d day_map) as [day_name|]; [|reflexivity].
  unfold day_unit.
  destruct (get_next_weekday_date today day_name) as [event_date|e]; [|reflexivity].
  cbn [rbind].
  destruct (parse_time (start_time s)) as [[st|]|e]; cbn [rbind];
    destruct (parse_time (end_time s)) as [[et|]|e']; cbn [rbind];
    rewrite ?app_nil_r; reflexivity.
Qed.

(** The day loop only appends, and what it appends does not depend on the
    events already in the list. *)
Lemma for_days_appends (today : Date.date) (s : section) (ds : string) :
  forall events,
    for_days today s ds events
    = (events ++ fst (for_days today s ds []), snd (for_days today s ds [])).
Proof.
  induction ds as [|d ds IH]; intros events.
  - simpl. by rewrite app_nil_r.
  - rewrite !for_days_step.
    destruct (day_map_get d day_map) as [day_name|]; [|apply IH].
    destruct (day_unit today s day_name) as [new|e].
    + rewrite (IH (events ++ new)), (IH ([] ++ new)). simpl.
      by rewrite app_assoc.
    + simpl. by rewrite app_nil_r.
Qed.

Lemma section_body_appends (today : Date.date) (r : result (option section))
    (events : list (gmap string pyval)) :
  section_body today r events = events ++ section_body today r [].
Proof.
  unfold section_body.
  destruct r as [[s|]|e]; [|by rewrite app_nil_r..].
  destruct (Str.contains "ARR" (days s)); [reflexivity|].
  rewrite for_days_appends. reflexivity.
Qed.

Lemma parse_timetable_from {world : Type}
    (crn_lookup : world -> string -> world * result (option section))
    (today : Date.date) (crns : list string) :
  forall w events,
    snd (fold_left (fun st crn => process_crn crn_lookup today crn st) crns
                   (w, events))
    = events ++ flat_map (fun r => section_body today r [])
                         (lookups crn_lookup w crns).
Proof.
  induction crns as [|crn crns IH]; intros w events; cbn [fold_left lookups].
  - simpl. by rewrite app_nil_r.
  - unfold process_crn at 2. cbn [fst snd].
    destruct (crn_lookup w crn) as [w' r].
    rewrite IH, (section_body_appends _ _ events). cbn [flat_map].
    by rewrite app_assoc.
Qed.

Lemma length_lookups {world : Type}
    (crn_lookup : world -> string -> world * result (option section))
    (crns : list string) :
  forall w, length (lookups crn_lookup w crns) = length crns.
Proof.
  induction crns as [|crn crns IH]; intros w; cbn [lookups]; [reflexivity|].
  destruct (crn_lookup w crn) as [w' r]. simpl. by rewrite IH.
Qed.

Lemma day_map_names_known (d : ascii) (day_name : string) :
  day_map_get d day_map = Some day_name ->
  exists i, index (Str.lower day_name) days_of_week = Ok i.
Proof.
  unfold day_map. cbn [day_map_get].
  repeat (destruct (Ascii.eqb _ d); [intros [= <-]; eexists; reflexivity|]).
  discriminate.
Qed.

Lemma parse_time_total (time_str : string) :
  exists r, parse_time time_str = Ok r.
Proof.
  unfold parse_time.
  destruct (try_formats _ _) as [r|e]; eauto.
Qed.

(** Away from the end of the calendar, one day never raises. *)
Lemma day_unit_ok (today : Date.date) (s : section) (d : ascii) (day_name : string) :
  Date.valid today -> Date.toordinal today + 7 <= Date.MAXORDINAL ->
  day_map_get d day_map = Some day_name ->
  exists new, day_unit today s day_name = Ok new.
Proof.
  intros Hv Hmax Hd.
  destruct (day_map_names_known _ _ Hd) as [i Hi].
  destruct (get_next_weekday_date_known today day_name i Hv Hmax Hi)
    as (k & _ & Hk & _).
  unfold day_unit. rewrite Hk. cbn [rbind].
  destruct (parse_time_total (start_time s)) as [st ->].
  destruct (parse_time_total (end_time s)) as [et ->].
  cbn [rbind]. destruct st, et; eauto.
Qed.

Lemma for_days_flat_map (today : Date.date) (s : section) (ds : string) :
  Date.valid today -> Date.toordinal today + 7 <= Date.MAXORDINAL ->
  for_days today s ds []
  = (flat_map (day_events today s) (list_ascii_of_string ds), Ok tt).
Proof.
  intros Hv Hmax. induction ds as [|d ds IH]; [reflexivity|].
  cbn [list_ascii_of_string flat_map]. unfold day_events at 1.
  rewrite !for_days_step.
  destruct (day_map_get d day_map) as [day_name|] eqn:Hd; [|exact IH].
  destruct (day_unit_ok today s d day_name Hv Hmax Hd) as [new ->].
  rewrite for_days_appends, IH. cbn [for_days fst snd].
  reflexivity.
Qed.

(** C6.  For a section that the resolver returns and whose days field is
    "ARR", the loop body appends exactly one dictionary to the events: the
    arranged occurrence, which carries the section's raw start and end time
    strings and [needs_days_input = True], and whose only keys are subject,
    location, needs_days_input, start_time_str and end_time_str, so it has no
    day and no start or end datetime; the current date plays no part in it. *)
Theorem C6_arranged_section :
  forall (world : Type)
         (crn_lookup : world -> string -> world * result (option section))
         (today : Date.date) (crn : string) (s : section) (w w' : world)
         (events : list (gmap string pyval)),
    crn_lookup w crn = (w', Ok (Some s)) ->
    days s = "ARR"%string ->
    process_crn crn_lookup today crn (w, events)
    = (w', events ++ [arranged_event s])
    /\ arranged_event s !! "needs_days_input"%string = Some (VBool true)
    /\ arranged_event s !! "start_time_str"%string = Some (VStr (start_time s))
    /\ arranged_event s !! "end_time_str"%string = Some (VStr (end_time s))
    /\ arranged_event s !! "subject"%string = Some (VStr (subject_of s))
    /\ arranged_event s !! "location"%string = Some (VStr (location s))
    /\ dom (arranged_event s)
       = list_to_set ["subject"; "location"; "needs_days_input";
                      "start_time_str"; "end_time_str"]%string
    /\ arranged_event s !! "start_datetime"%string = None
    /\ arranged_event s !! "end_datetime"%string = None
    /\ arranged_event s !! "day"%string = None.
Proof.
  intros world crn_lookup today crn s w w' events Hlookup Hdays.
  split.
  { unfold process_crn, section_body. cbn [fst snd].
    rewrite Hlookup, Hdays. reflexivity. }
  unfold arranged_event.
  repeat split; by simplify_map_eq.
Qed.

(** C6 on an arranged research section. *)
Lemma C6_arranged_section_witness :
  let s := mk_section "CS4994" "Undergraduate Research" "TBA" "ARR" "" "" in
  let lookup := fun (w : nat) (_ : string) => (S w, Ok (Some s)) in
  process_crn lookup (Date.of_ymd 2025 11 3) "83538" (0%nat, [])
  = (1%nat, [arranged_event s])
  /\ arranged_event s !! "needs_days_input"%string = Some (VBool true)
  /\ arranged_event s !! "start_datetime"%string = None.
Proof.
  intros s lookup.
  destruct (C6_arranged_section nat lookup (Date.of_ymd 2025 11 3) "83538" s
              0%nat 1%nat [] eq_refl eq_refl)
    as (H1 & H2 & _ & _ & _ & _ & _ & H3 & _).
  split; [exact H1 | split; [exact H2 | exact H3]].
Defined.

(** C7.  A failure stays within its unit.  Every identifier of the text is
    looked up, and the events of the text are the concatenation, lookup
    after lookup, of what the loop body yields for each answer alone; a
    lookup that raises, or that finds nothing, yields no event and leaves
    the events of the others as they are.  Within a section that is not
    arranged (and away from the end of the calendar) the events are the
    concatenation, day letter after day letter, of what each letter yields
    alone; a letter yields no event when either time string fails to parse
    or the letter is not a day letter, and its one occurrence when it is a
    day letter and both strings parse. *)
Theorem C7_failures_are_contained :
  forall (world : Type)
         (crn_lookup : world -> string -> world * result (option section))
         (today : Date.date) (text : string) (w : world),
    snd (parse_timetable_text crn_lookup today text w)
    = flat_map (fun r => section_body today r [])
               (lookups crn_lookup w (crns_of text))
    /\ length (lookups crn_lookup w (crns_of text)) = length (crns_of text)
    /\ (forall e events, section_body today (Raise e) events = events)
    /\ (forall events, section_body today (Ok None) events = events)
    /\ (forall s,
          Str.contains "ARR" (days s) = false ->
          Date.valid today -> Date.toordinal today + 7 <= Date.MAXORDINAL ->
          section_body today (Ok (Some s)) []
          = flat_map (day_events today s) (list_ascii_of_string (days s)))
    /\ (forall s d,
          parse_time (start_time s) = Ok None \/ parse_time (end_time s) = Ok None
          \/ day_map_get d day_map = None ->
          day_events today s d = [])
    /\ (forall s d day_name event_date st et,
          day_map_get d day_map = Some day_name ->
          get_next_weekday_date today day_name = Ok event_date ->
          parse_time (start_time s) = Ok (Some st) ->
          parse_time (end_time s) = Ok (Some et) ->
          day_events today s d = [day_event s day_name event_date st et]).
Proof.
  intros world crn_lookup today text w.
  split; [|split; [|split; [|split; [|split; [|split]]]]].
  - unfold parse_timetable_text. by rewrite parse_timetable_from.
  - apply length_lookups.
  - reflexivity.
  - reflexivity.
  - intros s Harr Hv Hmax.
    unfold section_body. rewrite Harr.
    by rewrite for_days_flat_map.
  - intros s d H. unfold day_events. rewrite for_days_step.
    destruct (day_map_get d day_map) as [day_name|] eqn:Hd; [|reflexivity].
    unfold day_unit.
    destruct (get_next_weekday_date today day_name) as [event_date|e];
      [|reflexivity].
    cbn [rbind].
    destruct (parse_time_total (start_time s)) as [st Hst].
    destruct (parse_time_total (end_time s)) as [et Het].
    rewrite Hst, Het. cbn [rbind].
    destruct H as [H|[H|H]]; [| |discriminate].
    + rewrite Hst in H. injection H as ->. reflexivity.
    + rewrite Het in H. injection H as ->. by destruct st.
  - intros s d day_name event_date st et Hd Hdate Hst Het.
    unfold day_events. rewrite for_days_step, Hd.
    unfold day_unit. rewrite Hdate, Hst, Het. reflexivity.
Qed.

(** C7 on a text with three identifiers, the world being the number of
    lookups made: the lookup of the first raises, the second section has a
    start time that does not parse, the third meets on "MXW", where X is no
    day letter. *)
Lemma C7_failures_are_contained_witness :
  let s := mk_section "CS1114" "Intro" "McBryde 100" "MXW" "9:00AM" "9:50AM" in
  let bad := mk_section "CS2114" "Data" "McBryde 126" "TR" "noon" "1:15PM" in
  let lookup := fun (w : nat) (crn : string) =>
    (S w,
     if String.eqb crn "83538" then Ok (Some s)
     else if String.eqb crn "11111" then Raise ServiceError
     else if String.eqb crn "22222" then Ok (Some bad)
     else Ok None) in
  let today := Date.of_ymd 2025 11 3 in
  snd (parse_timetable_text lookup today "11111 22222 83538 MWF" 0%nat)
  = section_body today (Raise ServiceError) []
    ++ section_body today (Ok (Some bad)) []
    ++ section_body today (Ok (Some s)) []
  /\ section_body today (Ok (Some s)) []
     = day_events today s "M" ++ day_events today s "X" ++ day_events today s "W"
  /\ day_events today bad "T" = []
  /\ parse_timetable_text lookup today "11111 22222 83538 MWF" 0%nat
     = (3%nat,
        [day_event s "Monday" (Date.of_ymd 2025 11 10)
           (Date.mk_time 9 0 0 0) (Date.mk_time 9 50 0 0);
         day_event s "Wednesday" (Date.of_ymd 2025 11 5)
           (Date.mk_time 9 0 0 0) (Date.mk_time 9 50 0 0)]).
Proof.
  intros s bad lookup today.
  destruct (C7_failures_are_contained nat lookup today "11111 22222 83538 MWF" 0%nat)
    as (Hbatch & _ & _ & _ & Hdays & Hdrop & _).
  split.
  { rewrite Hbatch. vm_compute. reflexivity. }
  split.
  { rewrite (Hdays s eq_refl).
    - cbn [list_ascii_of_string days s flat_map]. by rewrite app_nil_r.
    - vm_compute. split; discriminate.
    - vm_compute. discriminate. }
  split; [apply Hdrop; left; vm_compute; reflexivity|].
  vm_compute. reflexivity.
Defined.

(** ** Recurrence builder *)

Lemma weekday_range (d : Date.date) : 0 <= Date.weekday d < 7.
Proof. unfold Date.weekday. apply Z.mod_pos_bound. lia. Qed.

Lemma weekday_index_get_range (v : pyval) (target : Z) :
  weekday_index_get v = Some target -> 0 <= target <= 6.
Proof.
  destruct v as [| |s|]; try discriminate. unfold weekday_index_get, weekday_index_map.
  repeat (destruct (String.eqb _ s); [intros [= <-]; lia|]).
  discriminate.
Qed.

Lemma weekday_codes_getitem (w : Z) :
  0 <= w < 7 ->
  exists code, list_getitem weekday_codes w = Ok code /\ In (w, code) byday_table.
Proof.
  intros Hw.
  assert (H : w = 0 \/ w = 1 \/ w = 2 \/ w = 3 \/ w = 4 \/ w = 5 \/ w = 6) by lia.
  destruct H as [->|[->|[->|[->|[->|[->| ->]]]]]];
    eexists; (split; [reflexivity|]); unfold byday_table; simpl; tauto.
Qed.

Lemma weekday_after (today : Date.date) (target : Z) :
  0 <= target <= 6 ->
  Date.weekday (Date.mk_date (Date.toordinal today
                              + (target - Date.weekday today) mod 7)) = target.
Proof.
  intros Ht. unfold Date.weekday. simpl Date.toordinal.
  set (o := Date.toordinal today + 6).
  replace (Date.toordinal today + (target - o mod 7) mod 7 + 6)
    with (o + (target - o mod 7) mod 7) by (unfold o; lia).
  rewrite Zplus_mod_idemp_r.
  replace (o + (target - o mod 7)) with (target + (o - o mod 7)) by lia.
  rewrite (Z.div_mod o 7) at 1 by lia.
  replace (target + (7 * (o / 7) + o mod 7 - o mod 7))
    with (target + (o / 7) * 7) by lia.
  rewrite Z.mod_add by lia. apply Z.mod_small. lia.
Qed.

(** The payload of a concrete occurrence, in closed form. *)
Lemma build_event_body_concrete (today : Date.date) (event : gmap string pyval)
    (sdt edt : Date.datetime) (subject : pyval) :
  Date.valid today ->
  Date.toordinal today + 6 <= Date.MAXORDINAL ->
  event !! "start_datetime"%string = Some (VDatetime sdt) ->
  event !! "end_datetime"%string = Some (VDatetime edt) ->
  event !! "subject"%string = Some subject ->
  exists code,
    In (Date.weekday (Date.dt_date (payload_datetime today event sdt)), code)
       byday_table
    /\ build_event_body today event
       = Ok {| summary := subject;
               body_location := get (VStr "") event "location";
               body_start :=
                 mk_event_time (payload_datetime today event sdt) "America/New_York";
               body_end :=
                 mk_event_time (payload_datetime today event edt) "America/New_York";
               recurrence := [rrule code (Date.strftime_compact end_of_semester)];
               reminders := mk_reminders false [mk_reminder "popup" 15] |}.
Proof.
  intros Hv Hmax Hs He Hsub.
  destruct (weekday_codes_getitem
              (Date.weekday (Date.dt_date (payload_datetime today event sdt)))
              (weekday_range _)) as (code & Hcode & Htable).
  exists code. split; [exact Htable|].
  unfold build_event_body, getitem. rewrite Hs, He, Hsub. cbn [rbind].
  unfold payload_datetime in *.
  assert (Hens : forall dt, ensure_eastern (VDatetime dt)
            = Ok (match Date.dt_tzinfo dt with
                  | None => Date.localize dt
                  | Some _ => dt
                  end)).
  { intros dt. unfold ensure_eastern. by destruct (Date.dt_tzinfo dt). }
  rewrite !Hens. cbn [rbind].
  destruct (weekday_index_get (get VNone event "day")) as [target|] eqn:Hday.
  - pose proof (weekday_index_get_range _ _ Hday) as Ht.
    pose proof (weekday_range today) as Hw.
    assert (Hd : 0 <= (target - Date.weekday today) mod 7 < 7)
      by (apply Z.mod_pos_bound; lia).
    assert (Hnext : (if (target - Date.weekday today) mod 7 =? 0 then Ok today
                     else Date.add_days today ((target - Date.weekday today) mod 7))
                    = Ok (Date.mk_date (Date.toordinal today
                                        + (target - Date.weekday today) mod 7))).
    { destruct (_ =? 0) eqn:H0.
      - apply Z.eqb_eq in H0. rewrite H0, Z.add_0_r. by destruct today.
      - apply add_days_in_range; [done|lia|lia]. }
    rewrite Hnext. cbn [rbind fst snd].
    rewrite Hcode. reflexivity.
  - cbn [rbind fst snd]. rewrite Hcode. reflexivity.
Qed.

Example byday_codes_of_the_week :
  map (list_getitem weekday_codes) [0; 1; 2; 3; 4; 5; 6]
  = map Ok ["MO"; "TU"; "WE"; "TH"; "FR"; "SA"; "SU"]%string
  /\ map (fun name => weekday_index_get (VStr name))
         ["Monday"; "Tuesday"; "Wednesday"; "Thursday"; "Friday"; "Saturday";
          "Sunday"; "monday"]%string
     = [Some 0; Some 1; Some 2; Some 3; Some 4; Some 5; Some 6; None].
Proof. split; reflexivity. Qed.

Example end_of_semester_until :
  Date.strftime_compact end_of_semester = "20251214T235959Z"%string.
Proof. vm_compute. reflexivity. Qed.

(** C4.  For a concrete occurrence (an event with a subject and with start
    and end datetimes), the payload is built and the by-day code of its
    recurrence rule is the two-letter code of the weekday of the start
    datetime that the payload carries (0 Monday gives MO, ..., 6 Sunday gives
    SU).  That start is the corrected one: when the event's day is one of the
    seven names it falls on that weekday, otherwise it keeps the date of the
    stored start datetime. *)
Theorem C4_byday_is_start_weekday :
  forall (today : Date.date) (event : gmap string pyval)
         (sdt edt : Date.datetime) (subject : pyval),
    Date.valid today ->
    Date.toordinal today + 6 <= Date.MAXORDINAL ->
    event !! "start_datetime"%string = Some (VDatetime sdt) ->
    event !! "end_datetime"%string = Some (VDatetime edt) ->
    event !! "subject"%string = Some subject ->
    exists body code,
      build_event_body today event = Ok body
      /\ recurrence body
         = [("RRULE:FREQ=WEEKLY;BYDAY=" +:+ code +:+ ";UNTIL="
             +:+ Date.strftime_compact end_of_semester)%string]
      /\ In (Date.weekday (Date.dt_date (dateTime (body_start body))), code)
            byday_table
      /\ (forall target,
            weekday_index_get (get VNone event "day") = Some target ->
            Date.weekday (Date.dt_date (dateTime (body_start body))) = target)
      /\ (weekday_index_get (get VNone event "day") = None ->
            Date.dt_date (dateTime (body_start body)) = Date.dt_date sdt).
Proof.
  intros today event sdt edt subject Hv Hmax Hs He Hsub.
  destruct (build_event_body_concrete today event sdt edt subject Hv Hmax Hs He Hsub)
    as (code & Htable & Hbody).
  eexists _, code. split; [exact Hbody|].
  cbn [recurrence body_start dateTime].
  split; [reflexivity|]. split; [exact Htable|].
  unfold payload_datetime. split.
  - intros target Hday. rewrite Hday.
    unfold move_to. cbn [Date.replace_tzinfo Date.combine Date.dt_date].
    apply weekday_after. by apply weekday_index_get_range in Hday.
  - intros Hday. rewrite Hday. by destruct (Date.dt_tzinfo sdt).
Qed.

(** C4 on the Friday occurrence of a section, built on Monday 3 November
    2025. *)
Lemma C4_byday_is_start_weekday_witness :
  let today := Date.of_ymd 2025 11 3 in
  let s := mk_section "CS1114" "Intro" "McBryde 100" "MWF" "9:00AM" "9:50AM" in
  let event := day_event s "Friday" (Date.of_ymd 2025 11 7)
                 (Date.mk_time 9 0 0 0) (Date.mk_time 9 50 0 0) in
  exists body,
    build_event_body today event = Ok body
    /\ recurrence body = ["RRULE:FREQ=WEEKLY;BYDAY=FR;UNTIL=20251214T235959Z"]%string
    /\ Date.weekday (Date.dt_date (dateTime (body_start body))) = 4.
Proof.
  intros today s event.
  destruct (C4_byday_is_start_weekday today event
              (Date.combine (Date.of_ymd 2025 11 7) (Date.mk_time 9 0 0 0))
              (Date.combine (Date.of_ymd 2025 11 7) (Date.mk_time 9 50 0 0))
              (VStr (subject_of s)))
    as (body & code & Hbody & Hrec & Htable & Hday & _).
  - vm_compute. split; discriminate.
  - vm_compute. discriminate.
  - reflexivity.
  - reflexivity.
  - reflexivity.
  - exists body. split; [exact Hbody|].
    assert (Hbody' : build_event_body today event
                     = Ok {| summary := VStr "CS1114 Intro";
                             body_location := VStr "McBryde 100";
                             body_start :=
                               mk_event_time
                                 (Date.mk_datetime (Date.mk_date 739562)
                                    (Date.mk_time 9 0 0 0)
                                    (Some (Date.Eastern (Date.of_ymd 2025 11 7)
                                             (Date.mk_time 9 0 0 0))))
                                 "America/New_York";
                             body_end :=
                               mk_event_time
                                 (Date.mk_datetime (Date.mk_date 739562)
                                    (Date.mk_time 9 50 0 0)
                                    (Some (Date.Eastern (Date.of_ymd 2025 11 7)
                                             (Date.mk_time 9 50 0 0))))
                                 "America/New_York";
                             recurrence :=
                               ["RRULE:FREQ=WEEKLY;BYDAY=FR;UNTIL=20251214T235959Z"]%string;
                             reminders := mk_reminders false [mk_reminder "popup" 15] |})
      by (vm_compute; reflexivity).
    rewrite Hbody in Hbody'. injection Hbody' as ->.
    split; reflexivity.
Defined.

(** C8.  For a concrete occurrence the payload is built with one recurrence
    rule, of weekly frequency, whose by-day code is one of the seven codes
    and whose until field is the fixed end of the semester, 14 December
    2025 23:59:59 UTC, written 20251214T235959Z whatever the event and the
    current date; and its reminders are one popup override 15 minutes before
    the start, with the default reminders turned off. *)
Theorem C8_weekly_rule_and_reminder :
  forall (today : Date.date) (event : gmap string pyval)
         (sdt edt : Date.datetime) (subject : pyval),
    Date.valid today ->
    Date.toordinal today + 6 <= Date.MAXORDINAL ->
    event !! "start_datetime"%string = Some (VDatetime sdt) ->
    event !! "end_datetime"%string = Some (VDatetime edt) ->
    event !! "subject"%string = Some subject ->
    exists body code,
      build_event_body today event = Ok body
      /\ In code weekday_codes
      /\ recurrence body
         = [("RRULE:FREQ=WEEKLY;BYDAY=" +:+ code +:+ ";UNTIL=20251214T235959Z")%string]
      /\ Date.strftime_compact end_of_semester = "20251214T235959Z"%string
      /\ end_of_semester
         = Date.mk_datetime (Date.of_ymd 2025 12 14) (Date.mk_time 23 59 59 0)
                            (Some (Date.Fixed 0))
      /\ useDefault (reminders body) = false
      /\ overrides (reminders body) = [mk_reminder "popup" 15].
Proof.
  intros today event sdt edt subject Hv Hmax Hs He Hsub.
  destruct (build_event_body_concrete today event sdt edt subject Hv Hmax Hs He Hsub)
    as (code & Htable & Hbody).
  eexists _, code. split; [exact Hbody|].
  cbn [recurrence reminders useDefault overrides].
  split.
  { unfold byday_table in Htable. unfold weekday_codes. simpl in Htable |- *.
    destruct Htable as [H|[H|[H|[H|[H|[H|[H|[]]]]]]]];
      injection H as _ <-; tauto. }
  split; [by rewrite end_of_semester_until|].
  split; [exact end_of_semester_until|].
  repeat split.
Qed.

(** C8 on the Monday occurrence of a section. *)
Lemma C8_weekly_rule_and_reminder_witness :
  let today := Date.of_ymd 2025 11 3 in
  let s := mk_section "CS1114" "Intro" "McBryde 100" "MWF" "9:00AM" "9:50AM" in
  let event := day_event s "Monday" (Date.of_ymd 2025 11 10)
                 (Date.mk_time 9 0 0 0) (Date.mk_time 9 50 0 0) in
  exists body code,
    build_event_body today event = Ok body
    /\ recurrence body
       = [("RRULE:FREQ=WEEKLY;BYDAY=" +:+ code +:+ ";UNTIL=20251214T235959Z")%string]
    /\ overrides (reminders body) = [mk_reminder "popup" 15].
Proof.
  intros today s event.
  destruct (C8_weekly_rule_and_reminder today event
              (Date.combine (Date.of_ymd 2025 11 10) (Date.mk_time 9 0 0 0))
              (Date.combine (Date.of_ymd 2025 11 10) (Date.mk_time 9 50 0 0))
              (VStr (subject_of s)))
    as (body & code & Hbody & _ & Hrec & _ & _ & _ & Hrem).
  - vm_compute. split; discriminate.
  - vm_compute. discriminate.
  - reflexivity.
  - reflexivity.
  - reflexivity.
  - exists body, code. split; [exact Hbody | split; [exact Hrec | exact Hrem]].
Defined.

(** ** Batch submission *)

(** A payload is built only for an event that has a subject. *)
Lemma build_event_body_subject (today : Date.date) (event : gmap string pyval)
    (body : event_body) :
  build_event_body today event = Ok body ->
  exists subject, event !! "subject"%string = Some subject.
Proof.
  destruct (event !! "subject"%string) as [subject|] eqn:Hsub; [eauto|].
  unfold build_event_body, getitem. rewrite Hsub.
  repeat match goal with
         | |- context [rbind ?r _] => destruct r; cbn [rbind]; try discriminate
         end.
Qed.

Section Submission.
Context {world : Type}.
Variable get_calendar_service : world -> world * result unit.
Variable insert_event : world -> event_body -> world * result string.
Variable fromisoformat : string -> result Date.datetime.
Variable today : Date.date.

Abbreviation submit :=
  (submit_event get_calendar_service insert_event fromisoformat today).

Lemma convert_field_none (k : string) (event : gmap string pyval) :
  get VNone event k = VNone -> convert_field fromisoformat k event = Ok event.
Proof.
  unfold get, convert_field. destruct (event !! k) as [[]|]; simpl; congruence.
Qed.

(** A conversion changes the field it converts into a datetime and no
    other. *)
Lemma convert_field_other (k k' : string) (event event' : gmap string pyval) :
  k <> k' -> convert_field fromisoformat k event = Ok event' ->
  event' !! k' = event !! k'.
Proof.
  intros Hne. unfold convert_field.
  destruct (event !! k) as [[| |s|]|]; try (by intros [= <-]).
  destruct (fromisoformat s) as [dt|e]; simpl; [|discriminate].
  intros [= <-]. by rewrite lookup_insert_ne.
Qed.

Lemma submit_event_lacking (event : gmap string pyval)
    (st : (world * list event_body) * list creation_result) :
  lacks_datetime event = true -> submit event st = st.
Proof.
  unfold lacks_datetime. intros Hlack. unfold submit_event.
  destruct (convert_field fromisoformat "start_datetime" event)
    as [event1|e1] eqn:H1; cbn [rbind]; [|reflexivity].
  destruct (convert_field fromisoformat "end_datetime" event1)
    as [event2|e2] eqn:H2; [|reflexivity].
  assert (Hfalse : truthy (get VNone event2 "start_datetime")
                   && truthy (get VNone event2 "end_datetime") = false);
    [|by rewrite Hfalse].
  apply orb_true_iff in Hlack as [Hs|He].
  - assert (Hs' : get VNone event "start_datetime" = VNone)
      by (destruct (get VNone event "start_datetime"); done).
    rewrite (convert_field_none _ _ Hs') in H1. injection H1 as <-.
    unfold get.
    rewrite (convert_field_other "end_datetime" "start_datetime" event event2
               ltac:(discriminate) H2).
    fold (get VNone event "start_datetime"). by rewrite Hs'.
  - assert (He' : get VNone event "end_datetime" = VNone)
      by (destruct (get VNone event "end_datetime"); done).
    assert (He1 : get VNone event1 "end_datetime" = VNone).
    { unfold get.
      rewrite (convert_field_other "start_datetime" "end_datetime" event event1
                 ltac:(discriminate) H1).
      exact He'. }
    rewrite (convert_field_none _ _ He1) in H2. injection H2 as <-.
    rewrite He1. apply andb_false_r.
Qed.

Lemma fold_submit_skips_map {A : Type} (g : A -> gmap string pyval)
    (events : list A) : forall st,
  fold_left (fun st event => submit (g event) st) events st
  = fold_left (fun st event => submit (g event) st)
              (List.filter (fun event => negb (lacks_datetime (g event))) events) st.
Proof.
  induction events as [|event events IH]; intros st; [reflexivity|].
  cbn [fold_left List.filter].
  destruct (lacks_datetime (g event)) eqn:Hlack; cbn [negb fold_left].
  - rewrite submit_event_lacking by done. apply IH.
  - apply IH.
Qed.

(** The outcome of one event whose start and end are ISO strings that
    parse and that has a subject, when the service is available, in closed
    form: the event is created when the provider accepts it, and its result
    is collected only if the event also has a day key. *)
Lemma submit_event_concrete (event : gmap string pyval)
    (w w1 : world) (created : list event_body) (res : list creation_result)
    (start_s end_s : string) (sdt edt : Date.datetime) (subject : pyval) :
  Date.valid today ->
  Date.toordinal today + 6 <= Date.MAXORDINAL ->
  get_calendar_service w = (w1, Ok tt) ->
  event !! "start_datetime"%string = Some (VStr start_s) ->
  event !! "end_datetime"%string = Some (VStr end_s) ->
  event !! "subject"%string = Some subject ->
  fromisoformat start_s = Ok sdt ->
  fromisoformat end_s = Ok edt ->
  exists body,
    build_event_body today
      (<["end_datetime" := VDatetime edt]> (<["start_datetime" := VDatetime sdt]> event))
    = Ok body
    /\ submit event ((w, created), res)
       = match insert_event w1 body with
         | (w2, Raise _) => ((w2, created), res)
         | (w2, Ok created_id) =>
             ((w2, created ++ [body]),
              match event !! "day"%string with
              | Some _ => res ++ [mk_creation_result "success" created_id]
              | None => res
              end)
         end.
Proof.
  intros Hv Hmax Hsvc Hs He Hsub Hfs Hfe.
  set (event1 := <["start_datetime" := VDatetime sdt]> event).
  set (event2 := <["end_datetime" := VDatetime edt]> event1).
  assert (H2s : event2 !! "start_datetime"%string = Some (VDatetime sdt))
    by (unfold event2, event1; by simplify_map_eq).
  assert (H2e : event2 !! "end_datetime"%string = Some (VDatetime edt))
    by (unfold event2, event1; by simplify_map_eq).
  assert (H2sub : event2 !! "subject"%string = Some subject)
    by (unfold event2, event1; by simplify_map_eq).
  assert (H2day : event2 !! "day"%string = event !! "day"%string)
    by (unfold event2, event1; by simplify_map_eq).
  destruct (build_event_body_concrete today event2 sdt edt subject Hv Hmax H2s H2e H2sub)
    as (code & _ & Hbody).
  eexists. split; [exact Hbody|].
  unfold submit_event.
  assert (Hc1 : convert_field fromisoformat "start_datetime" event = Ok event1).
  { unfold convert_field. rewrite Hs, Hfs. reflexivity. }
  assert (Hc2 : convert_field fromisoformat "end_datetime" event1 = Ok event2).
  { unfold convert_field.
    replace (event1 !! "end_datetime"%string) with (Some (VStr end_s))
      by (unfold event1; by simplify_map_eq).
    rewrite Hfe. reflexivity. }
  rewrite Hc1. cbn [rbind]. rewrite Hc2.
  unfold get at 1 2. rewrite H2s, H2e. cbn [default truthy andb].
  unfold create_google_event. cbn [fst snd]. rewrite Hsvc, Hbody.
  destruct (insert_event w1 _) as [w2 [created_id|e]]; [|reflexivity].
  unfold getitem. rewrite H2sub, H2day. cbn [rbind].
  by destruct (event !! "day"%string).
Qed.

(** One step of the second loop either leaves the created events and the
    results as they are, or creates one event on the calendar; in that case
    it collects one result, unless the event has no day key. *)
Lemma submit_event_cases (event : gmap string pyval)
    (st : (world * list event_body) * list creation_result) :
  (snd (fst (submit event st)) = snd (fst st)
   /\ snd (submit event st) = snd st)
  \/ exists body,
       snd (fst (submit event st)) = snd (fst st) ++ [body]
       /\ ((exists r, snd (submit event st) = snd st ++ [r])
           \/ (snd (submit event st) = snd st
               /\ event !! "day"%string = None)).
Proof.
  unfold submit_event.
  destruct (convert_field fromisoformat "start_datetime" event)
    as [event1|e1] eqn:H1; cbn [rbind]; [|by left].
  destruct (convert_field fromisoformat "end_datetime" event1)
    as [event2|e2] eqn:H2; [|by left].
  destruct (truthy _ && truthy _); [|by left].
  unfold create_google_event.
  destruct (get_calendar_service (fst (fst st))) as [w1 [[]|e]]; [|by left].
  destruct (build_event_body today event2) as [body|e] eqn:Hbody; [|by left].
  destruct (insert_event w1 body) as [w2 [created_id|e]]; [|by left].
  right. exists body.
  assert (Hday : event2 !! "day"%string = event !! "day"%string).
  { rewrite (convert_field_other "end_datetime" "day" event1 event2
               ltac:(discriminate) H2).
    apply (convert_field_other "start_datetime" "day" event event1
             ltac:(discriminate) H1). }
  destruct (build_event_body_subject _ _ _ Hbody) as [subject Hsub].
  unfold getitem. rewrite Hday, Hsub. cbn [rbind].
  destruct (event !! "day"%string) as [day|]; cbn [fst snd].
  - split; [reflexivity|]. left. eauto.
  - split; [reflexivity|]. right. done.
Qed.

(** The second loop goes through the whole batch and only ever appends to
    the created events and to the results: no step undoes an earlier
    one. *)
Lemma fold_submit_extends (events : list (gmap string pyval)) : forall st st',
  fold_left (fun st event => submit event st) events st = st' ->
  exists created results,
    snd (fst st') = snd (fst st) ++ created /\ snd st' = snd st ++ results.
Proof.
  induction events as [|event events IH]; intros st st'; cbn [fold_left].
  - intros <-. exists [], []. by rewrite !app_nil_r.
  - intros Hfold. destruct (IH _ _ Hfold) as (created & results & Hc & Hr).
    destruct (submit_event_cases event st) as [[Hc1 Hr1]|(body & Hc1 & Hres)].
    + exists created, results. by rewrite Hc, Hr, Hc1, Hr1.
    + destruct Hres as [[r Hr1]|[Hr1 _]].
      * exists (body :: created), (r :: results).
        rewrite Hc, Hr, Hc1, Hr1. by rewrite <- !app_assoc.
      * exists (body :: created), results.
        rewrite Hc, Hr, Hc1, Hr1. by rewrite <- !app_assoc.
Qed.

(** The number of collected results never exceeds the number of created
    events. *)
Lemma results_count_le_created (events : list (gmap string pyval)) : forall st st',
  fold_left (fun st event => submit event st) events st = st' ->
  (length (snd st') - length (snd st)
   <= length (snd (fst st')) - length (snd (fst st)))%nat
  /\ (length (snd (fst st)) <= length (snd (fst st')))%nat
  /\ (length (snd st) <= length (snd st'))%nat.
Proof.
  induction events as [|event events IH]; intros st st'; cbn [fold_left].
  - intros <-. lia.
  - intros Hfold. specialize (IH _ _ Hfold).
    destruct (submit_event_cases event st) as [[Hc Hr]|(body & Hcal & Hres)].
    + rewrite Hc, Hr in IH. exact IH.
    + assert (Hl : length (snd (fst (submit event st)))
                   = S (length (snd (fst st))))
        by (rewrite Hcal, length_app; simpl; lia).
      destruct Hres as [[r Hr]|[Hr _]].
      * assert (length (snd (submit event st)) = S (length (snd st)))
          by (rewrite Hr, length_app; simpl; lia).
        lia.
      * rewrite Hr in IH. lia.
Qed.

(** When every event has a day key, each created event is counted. *)
Lemma results_count_eq_created (events : list (gmap string pyval)) : forall st st',
  Forall (fun event => event !! "day"%string <> None) events ->
  fold_left (fun st event => submit event st) events st = st' ->
  (length (snd st') - length (snd st))%nat
  = (length (snd (fst st')) - length (snd (fst st)))%nat.
Proof.
  induction events as [|event events IH]; intros st st' Hday; cbn [fold_left].
  - intros <-. lia.
  - intros Hfold. apply Forall_cons in Hday as [Hd Hday].
    pose proof (results_count_le_created _ _ _ Hfold) as (_ & Hc & Hr).
    specialize (IH _ _ Hday Hfold).
    destruct (submit_event_cases event st) as [[Hc1 Hr1]|(body & Hcal & Hres)].
    + rewrite Hc1, Hr1 in IH. exact IH.
    + assert (Hl : length (snd (fst (submit event st)))
                   = S (length (snd (fst st))))
        by (rewrite Hcal, length_app; simpl; lia).
      destruct Hres as [[r Hres]|[_ Hnone]]; [|done].
      assert (length (snd (submit event st)) = S (length (snd st)))
        by (rewrite Hres, length_app; simpl; lia).
      lia.
Qed.

End Submission.

Lemma dedup_singleton (event : gmap string json) : dedup [event] = [event].
Proof. reflexivity. Qed.

(** C9.  The count is wrong for an event that has start and end datetimes
    and a subject but no day key: with the service available and a
    provider that accepts the insertion, the event is created on the
    calendar, yet the results stay empty and the message reports "Created 0
    recurring events", because the debug print that follows the creation
    reads [event['day']] and its [KeyError] is taken for a failed
    submission.  The same descriptor with a day key is created and counted:
    "Created 1 recurring events". *)
Theorem C9_created_event_without_day_is_not_counted :
  forall (world : Type)
         (get_calendar_service : world -> world * result unit)
         (insert_event : world -> event_body -> world * result string)
         (fromisoformat : string -> result Date.datetime)
         (today : Date.date) (w w1 w2 : world) (created0 : list event_body)
         (subject start_s end_s : string) (sdt edt : Date.datetime)
         (created_id : string),
    Date.valid today ->
    Date.toordinal today + 6 <= Date.MAXORDINAL ->
    fromisoformat start_s = Ok sdt ->
    fromisoformat end_s = Ok edt ->
    get_calendar_service w = (w1, Ok tt) ->
    (forall body, insert_event w1 body = (w2, Ok created_id)) ->
    (exists body,
       create_events_in_calendar get_calendar_service insert_event fromisoformat
         today w created0 [event_without_day subject start_s end_s]
       = ((w2, created0 ++ [body]),
          mk_response [] "Created 0 recurring events in Google Calendar."))
    /\ (forall day, exists body,
          create_events_in_calendar get_calendar_service insert_event
            fromisoformat today w created0
            [<["day" := day]> (event_without_day subject start_s end_s)]
          = ((w2, created0 ++ [body]),
             mk_response [mk_creation_result "success" created_id]
                         "Created 1 recurring events in Google Calendar.")).
Proof.
  intros world get_calendar_service insert_event fromisoformat today w w1 w2
         created0 subject start_s end_s sdt edt created_id
         Hv Hmax Hfs Hfe Hsvc Hins.
  split.
  - unfold create_events_in_calendar. rewrite dedup_singleton. cbn [fold_left].
    destruct (submit_event_concrete get_calendar_service insert_event
                fromisoformat today
                (to_py <$> event_without_day subject start_s end_s)
                w w1 created0 [] start_s end_s sdt edt (VStr subject) Hv Hmax Hsvc)
      as (body & _ & Hsubmit); try done;
      try (rewrite lookup_fmap; unfold event_without_day; by simplify_map_eq).
    exists body. rewrite Hsubmit, Hins.
    replace ((to_py <$> event_without_day subject start_s end_s) !! "day"%string)
      with (@None pyval)
      by (rewrite lookup_fmap; unfold event_without_day; by simplify_map_eq).
    reflexivity.
  - intros day. unfold create_events_in_calendar. rewrite dedup_singleton.
    cbn [fold_left].
    destruct (submit_event_concrete get_calendar_service insert_event
                fromisoformat today
                (to_py <$> <["day" := day]> (event_without_day subject start_s end_s))
                w w1 created0 [] start_s end_s sdt edt (VStr subject) Hv Hmax Hsvc)
      as (body & _ & Hsubmit); try done;
      try (rewrite lookup_fmap; unfold event_without_day; by simplify_map_eq).
    exists body. rewrite Hsubmit, Hins.
    replace ((to_py <$> <["day" := day]> (event_without_day subject start_s end_s))
               !! "day"%string)
      with (Some (to_py day))
      by (rewrite lookup_fmap; unfold event_without_day; by simplify_map_eq).
    reflexivity.
Qed.

(** C9 on one descriptor without a day key, the world being the number of
    calls made to the service, which accepts every insertion. *)
Lemma C9_created_event_without_day_is_not_counted_witness :
  let fromisoformat := fun s : string =>
    if String.eqb s "2025-11-05T09:00:00"
    then Ok (Date.combine (Date.of_ymd 2025 11 5) (Date.mk_time 9 0 0 0))
    else if String.eqb s "2025-11-05T09:50:00"
    then Ok (Date.combine (Date.of_ymd 2025 11 5) (Date.mk_time 9 50 0 0))
    else Raise ValueError in
  let get_calendar_service := fun w : nat => (S w, Ok tt) in
  let insert_event := fun (w : nat) (_ : event_body) => (2%nat, Ok "evt1"%string) in
  exists body,
    create_events_in_calendar get_calendar_service insert_event fromisoformat
      (Date.of_ymd 2025 11 3) 0%nat []
      [event_without_day "CS1114 Intro" "2025-11-05T09:00:00" "2025-11-05T09:50:00"]
    = ((2%nat, [body]),
       mk_response [] "Created 0 recurring events in Google Calendar.").
Proof.
  intros fromisoformat get_calendar_service insert_event.
  destruct (C9_created_event_without_day_is_not_counted nat get_calendar_service
              insert_event fromisoformat
              (Date.of_ymd 2025 11 3) 0%nat 1%nat 2%nat [] "CS1114 Intro"
              "2025-11-05T09:00:00" "2025-11-05T09:50:00"
              (Date.combine (Date.of_ymd 2025 11 5) (Date.mk_time 9 0 0 0))
              (Date.combine (Date.of_ymd 2025 11 5) (Date.mk_time 9 50 0 0))
              "evt1")
    as [Hno_day _].
  - vm_compute. split; discriminate.
  - vm_compute. discriminate.
  - reflexivity.
  - reflexivity.
  - reflexivity.
  - reflexivity.
  - exact Hno_day.
Defined.

(** C10.  An event of the deduplicated set that lacks a start or an end
    datetime (the key is absent or holds [None]) is skipped: submitting it
    leaves the world, the calendar and the collected results as they are,
    whatever the service would answer, so that no call is made for it.
    This holds in particular for every arranged occurrence built by the
    parser.  Hence the calendar and the response of a batch, with its
    count, are those obtained from the deduplicated events that have both
    datetimes. *)
Theorem C10_events_without_datetimes_are_skipped :
  forall (world : Type)
         (get_calendar_service : world -> world * result unit)
         (insert_event : world -> event_body -> world * result string)
         (fromisoformat : string -> result Date.datetime)
         (today : Date.date),
    (forall event st,
       lacks_datetime event = true ->
       submit_event get_calendar_service insert_event fromisoformat today event st
       = st)
    /\ (forall s st,
          submit_event get_calendar_service insert_event fromisoformat today
            (arranged_event s) st = st)
    /\ (forall w created0 events,
          create_events_in_calendar get_calendar_service insert_event
            fromisoformat today w created0 events
          = let st :=
              fold_left
                (fun st event =>
                   submit_event get_calendar_service insert_event fromisoformat
                     today (to_py <$> event) st)
                (List.filter (fun event => negb (lacks_datetime (to_py <$> event)))
                             (dedup events))
                ((w, created0), []) in
            (fst st, mk_response (snd st) (created_message (length (snd st))))).
Proof.
  intros world get_calendar_service insert_event fromisoformat today.
  split; [|split].
  - intros event st. apply submit_event_lacking.
  - intros s st. apply submit_event_lacking. reflexivity.
  - intros w created0 events. unfold create_events_in_calendar. cbn zeta.
    by rewrite fold_submit_skips_map.
Qed.

(** C10 on an arranged occurrence, with a service that would accept it. *)
Lemma C10_events_without_datetimes_are_skipped_witness :
  let s := mk_section "CS4994" "Undergraduate Research" "TBA" "ARR" "" "" in
  let get_calendar_service := fun w : nat => (S w, Ok tt) in
  let insert_event := fun (w : nat) (_ : event_body) => (S w, Ok "evt1"%string) in
  submit_event get_calendar_service insert_event (fun _ => Raise ValueError)
    (Date.of_ymd 2025 11 3) (arranged_event s) ((0%nat, []), [])
  = ((0%nat, []), []).
Proof.
  intros s get_calendar_service insert_event.
  destruct (C10_events_without_datetimes_are_skipped nat get_calendar_service
              insert_event (fun _ => Raise ValueError) (Date.of_ymd 2025 11 3))
    as (Hskip & _ & _).
  apply Hskip. reflexivity.
Defined.

(** * Further properties of the code *)

(** ** Identifier extractor *)

Module ExtractorMore.
Import Extractor.
Section Findall.
Context {char : Type} (digit : char -> bool).

Lemma match_d5_some (s m : list char) :
  match_d5 digit s = Some m ->
  length m = 5%nat /\ all_digits digit m /\ exists rest, s = m ++ rest.
Proof.
  destruct s as [|c1 [|c2 [|c3 [|c4 [|c5 rest]]]]]; simpl; try discriminate.
  destruct (digit c1) eqn:H1, (digit c2) eqn:H2, (digit c3) eqn:H3,
           (digit c4) eqn:H4, (digit c5) eqn:H5; simpl; try discriminate.
  intros [= <-]. split; [reflexivity|]. split.
  - unfold all_digits. simpl. by rewrite H1, H2, H3, H4, H5.
  - by exists rest.
Qed.

Lemma findall_from_matches (s : list char) : forall skip,
  Forall (fun m => length m = 5%nat /\ all_digits digit m)
         (findall_from digit skip s).
Proof.
  induction s as [|c s IH]; intros skip; [constructor|].
  cbn [findall_from]. destruct skip as [|k]; [|apply IH].
  destruct (match_d5 digit (c :: s)) as [m|] eqn:Hm; [|apply IH].
  constructor; [|apply IH].
  apply match_d5_some in Hm as (? & ? & _). done.
Qed.

Lemma findall_from_occurs (s : list char) : forall skip,
  Forall (fun m => exists pre post, s = pre ++ m ++ post)
         (findall_from digit skip s).
Proof.
  induction s as [|c s IH]; intros skip; [constructor|].
  assert (Hweak : forall k,
            Forall (fun m => exists pre post, c :: s = pre ++ m ++ post)
                   (findall_from digit k s)).
  { intros k. eapply Forall_impl; [apply IH|].
    intros m (pre & post & ->). by exists (c :: pre), post. }
  cbn [findall_from]. destruct skip as [|k]; [|apply Hweak].
  destruct (match_d5 digit (c :: s)) as [m|] eqn:Hm; [|apply Hweak].
  constructor; [|apply Hweak].
  apply match_d5_some in Hm as (_ & _ & rest & ->). by exists [], rest.
Qed.

Lemma runs_from_app_separator (a : list char) : forall cur c b,
  digit c = false ->
  runs_from digit cur (a ++ c :: b)
  = runs_from digit cur a ++ runs_from digit [] b.
Proof.
  induction a as [|x a IH]; intros cur c b Hc; simpl.
  - by rewrite Hc.
  - destruct (digit x); [by apply IH|].
    rewrite IH by done. by rewrite app_assoc.
Qed.

End Findall.
End ExtractorMore.

Lemma crns_of_app_separator (a b : string) (c : ascii) :
  Str.is_digit c = false ->
  crns_of (a +:+ String c b) = crns_of a ++ crns_of b.
Proof.
  intros Hc. unfold crns_of.
  assert (Hl : forall x y : string,
            list_ascii_of_string (x +:+ y)
            = list_ascii_of_string x ++ list_ascii_of_string y).
  { intros x y. induction x as [|z x IH]; [reflexivity|].
    change (z :: list_ascii_of_string (x +:+ y)
            = z :: (list_ascii_of_string x ++ list_ascii_of_string y)).
    by rewrite IH. }
  rewrite Hl. cbn [list_ascii_of_string].
  rewrite !(fun t => ExtractorFacts.findall_blocks_of_runs Str.is_digit (length t) t
                       (Nat.le_refl _)).
  unfold Extractor.digit_runs.
  rewrite ExtractorMore.runs_from_app_separator by done.
  by rewrite flat_map_app, map_app.
Qed.

(** X1.  Every identifier that the extractor returns, and so every
    identifier that is looked up, consists of exactly 5 characters, each of
    them a digit of the pattern's class, and occurs in the text as 5
    consecutive characters.  This holds for any characters and any digit
    class, that of [\d] on the whole of Unicode included. *)
Theorem X1_identifiers_are_five_digits :
  forall (char : Type) (digit : char -> bool) (text : list char),
    Forall (fun crn =>
              length crn = 5%nat
              /\ Extractor.all_digits digit crn
              /\ exists pre post, text = pre ++ crn ++ post)
           (Extractor.findall_d5 digit text).
Proof.
  intros char digit text. unfold Extractor.findall_d5.
  pose proof (ExtractorMore.findall_from_matches digit text 0) as H1.
  pose proof (ExtractorMore.findall_from_occurs digit text 0) as H2.
  induction H1 as [|m ms [Hlen Hdig] _ IH]; [constructor|].
  inversion H2 as [|? ? Hocc H2']; subst.
  constructor; [done|]. by apply IH.
Qed.

(** X2.  A character that is no digit separates the scan: the identifiers
    of two texts joined by such a character (a newline, a space, a letter)
    are those of the first followed by those of the second, so that lines
    are scanned independently of each other. *)
Theorem X2_separator_splits_the_scan :
  forall (a b : string) (c : ascii),
    Str.is_digit c = false ->
    crns_of (a +:+ String c b) = crns_of a ++ crns_of b.
Proof. exact crns_of_app_separator. Qed.

Lemma X2_separator_splits_the_scan_witness :
  crns_of ("83538 CS 1114" +:+ String "010" "9012345678")
  = ["83538"; "90123"; "45678"]%string.
Proof.
  rewrite (X2_separator_splits_the_scan "83538 CS 1114" "9012345678" "010"
             eq_refl).
  reflexivity.
Defined.

(** ** Weekday resolution *)

Lemma lower_char_lower (c : ascii) : Str.lower_char (Str.lower_char c) = Str.lower_char c.
Proof. destruct c as [[] [] [] [] [] [] [] []]; reflexivity. Qed.

Lemma lower_char_upper (c : ascii) : Str.lower_char (Str.upper_char c) = Str.lower_char c.
Proof. destruct c as [[] [] [] [] [] [] [] []]; reflexivity. Qed.

Lemma lower_lower (s : string) : Str.lower (Str.lower s) = Str.lower s.
Proof. induction s as [|c s IH]; simpl; [done|]. by rewrite lower_char_lower, IH. Qed.

Lemma lower_upper (s : string) : Str.lower (Str.upper s) = Str.lower s.
Proof. induction s as [|c s IH]; simpl; [done|]. by rewrite lower_char_upper, IH. Qed.

(** The distance to the target weekday, 7 when it is today's. *)
Lemma days_ahead_range (wd i : Z) :
  0 <= wd < 7 -> 0 <= i <= 6 ->
  let d := (i - wd + 7) mod 7 in
  1 <= (if d =? 0 then 7 else d) <= 7.
Proof.
  intros Hwd Hi d.
  assert (0 <= d < 7) by (apply Z.mod_pos_bound; lia).
  destruct (d =? 0) eqn:H0; [lia|]. apply Z.eqb_neq in H0. lia.
Qed.

(** X3.  A day name of ASCII characters is matched whatever its letter
    case: the name, its upper-case form and its lower-case form resolve to
    the same date. *)
Theorem X3_day_name_case_insensitive :
  forall (today : Date.date) (day_name : string),
    Str.isascii day_name = true ->
    get_next_weekday_date today (Str.upper day_name)
    = get_next_weekday_date today day_name
    /\ get_next_weekday_date today (Str.lower day_name)
       = get_next_weekday_date today day_name.
Proof.
  intros today day_name _. unfold get_next_weekday_date.
  by rewrite lower_upper, lower_lower.
Qed.

(** X3 on "Friday" and "FRIDAY". *)
Lemma X3_day_name_case_insensitive_witness :
  get_next_weekday_date (Date.of_ymd 2025 11 3) "FRIDAY"
  = get_next_weekday_date (Date.of_ymd 2025 11 3) "Friday".
Proof.
  apply (X3_day_name_case_insensitive (Date.of_ymd 2025 11 3) "Friday" eq_refl).
Defined.

(** X4.  On a valid date the only exception that weekday resolution can
    raise is [OverflowError], and it raises it only for a known name in the
    last 7 days before [date.max]; on [date.max] itself every known name
    raises it, while an unknown name still returns the date unchanged. *)
Theorem X4_next_weekday_overflow :
  forall (today : Date.date) (day_name : string),
    Date.valid today ->
    (forall e, get_next_weekday_date today day_name = Raise e ->
       e = OverflowError
       /\ Date.MAXORDINAL < Date.toordinal today + 7
       /\ exists i, index (Str.lower day_name) days_of_week = Ok i)
    /\ (forall i, Date.toordinal today = Date.MAXORDINAL ->
          index (Str.lower day_name) days_of_week = Ok i ->
          get_next_weekday_date today day_name = Raise OverflowError)
    /\ (forall e, index (Str.lower day_name) days_of_week = Raise e ->
          get_next_weekday_date today day_name = Ok today).
Proof.
  intros today day_name Hv. unfold get_next_weekday_date.
  destruct (index (Str.lower day_name) days_of_week) as [i|e0] eqn:Hi.
  - pose proof (index_days_of_week_range _ _ Hi) as Hr.
    pose proof (weekday_range today) as Hw.
    pose proof (days_ahead_range _ _ Hw Hr) as Hk. cbv zeta in Hk.
    set (k := if (i - Date.weekday today + 7) mod 7 =? 0 then 7
              else (i - Date.weekday today + 7) mod 7) in *.
    unfold Date.add_days, Date.valid, Date.MINORDINAL in *.
    split; [|split].
    + intros e.
      destruct ((0 <? Date.toordinal today + k)
                && (Date.toordinal today + k <=? Date.MAXORDINAL)) eqn:Hc;
        [discriminate|].
      intros [= <-]. split; [reflexivity|]. split; [|eauto].
      apply andb_false_iff in Hc as [Hc|Hc];
        [apply Z.ltb_ge in Hc | apply Z.leb_gt in Hc]; lia.
    + intros i' Hmax [= <-].
      replace (Date.toordinal today + k <=? Date.MAXORDINAL) with false
        by (symmetry; apply Z.leb_gt; lia).
      by rewrite andb_false_r.
    + discriminate.
  - split; [discriminate|]. split; [discriminate|]. reflexivity.
Qed.

(** X4 on 31 December 9999, a Friday. *)
Lemma X4_next_weekday_overflow_witness :
  get_next_weekday_date (Date.mk_date Date.MAXORDINAL) "Monday"
  = Raise OverflowError
  /\ get_next_weekday_date (Date.mk_date Date.MAXORDINAL) "Funday"
     = Ok (Date.mk_date Date.MAXORDINAL).
Proof.
  assert (Hv : Date.valid (Date.mk_date Date.MAXORDINAL))
    by (vm_compute; split; discriminate).
  split.
  - destruct (X4_next_weekday_overflow (Date.mk_date Date.MAXORDINAL) "Monday" Hv)
      as (_ & Hmax & _).
    apply (Hmax 0); reflexivity.
  - destruct (X4_next_weekday_overflow (Date.mk_date Date.MAXORDINAL) "Funday" Hv)
      as (_ & _ & Hunknown).
    apply (Hunknown ValueError). reflexivity.
Defined.

(** ** Time parsing *)

Lemma parse_time_try_formats (time_str : string) :
  parse_time time_str
  = try_formats TimeForms.formats (normalize_time_str time_str).
Proof.
  unfold parse_time. fold TimeForms.formats.
  destruct (TimeFacts.try_formats_never_raises (normalize_time_str time_str))
    as [r ->]. reflexivity.
Qed.

Lemma In_zrange (lo hi x : Z) : lo <= x <= hi -> In x (TimeForms.zrange lo hi).
Proof.
  intros Hx. unfold TimeForms.zrange.
  replace x with (lo + Z.of_nat (Z.to_nat (x - lo))) by lia.
  apply (in_map (fun i => lo + Z.of_nat i)), in_seq. lia.
Qed.

Lemma remove_spaces_append (a b : string) :
  Str.remove_spaces (a +:+ b)
  = (Str.remove_spaces a +:+ Str.remove_spaces b)%string.
Proof.
  induction a as [|c a IH]; [reflexivity|].
  change (Str.remove_spaces (String c (a +:+ b))
          = (Str.remove_spaces (String c a) +:+ Str.remove_spaces b)%string).
  simpl. destruct (Ascii.eqb c " "); [exact IH|].
  change (String c (Str.remove_spaces (a +:+ b))
          = String c (Str.remove_spaces a +:+ Str.remove_spaces b))%string.
  by rewrite IH.
Qed.

Lemma upper_char_space (c : ascii) :
  Ascii.eqb (Str.upper_char c) " " = Ascii.eqb c " ".
Proof. destruct c as [[] [] [] [] [] [] [] []]; reflexivity. Qed.

Lemma lower_char_space (c : ascii) :
  Ascii.eqb (Str.lower_char c) " " = Ascii.eqb c " ".
Proof. destruct c as [[] [] [] [] [] [] [] []]; reflexivity. Qed.

Lemma upper_char_upper (c : ascii) : Str.upper_char (Str.upper_char c) = Str.upper_char c.
Proof. destruct c as [[] [] [] [] [] [] [] []]; reflexivity. Qed.

Lemma upper_char_lower (c : ascii) : Str.upper_char (Str.lower_char c) = Str.upper_char c.
Proof. destruct c as [[] [] [] [] [] [] [] []]; reflexivity. Qed.

Lemma normalize_upper (s : string) :
  normalize_time_str (Str.upper s) = normalize_time_str s.
Proof.
  unfold normalize_time_str. induction s as [|c s IH]; [reflexivity|].
  simpl. rewrite upper_char_space. destruct (Ascii.eqb c " "); [exact IH|].
  simpl. by rewrite upper_char_upper, IH.
Qed.

Lemma normalize_lower (s : string) :
  normalize_time_str (Str.lower s) = normalize_time_str s.
Proof.
  unfold normalize_time_str. induction s as [|c s IH]; [reflexivity|].
  simpl. rewrite lower_char_space. destruct (Ascii.eqb c " "); [exact IH|].
  simpl. by rewrite upper_char_lower, IH.
Qed.

(** X5.  A time that [parse_time] returns is a time of day to the minute:
    its hour is between 0 and 23, its minute between 0 and 59, and its
    second and microsecond are 0. *)
Theorem X5_parse_time_range :
  forall (time_str : string) (t : Date.time),
    parse_time time_str = Ok (Some t) ->
    0 <= Date.hour t <= 23 /\ 0 <= Date.minute t <= 59
    /\ Date.second t = 0 /\ Date.microsecond t = 0.
Proof.
  intros time_str t. rewrite parse_time_try_formats.
  intros Hin%TimeFacts.try_formats_accepted; [|apply TimeFacts.no_lower_upper].
  assert (Hall : forallb (fun f => (0 <=? Date.hour (snd f)) && (Date.hour (snd f) <=? 23)
                                   && (0 <=? Date.minute (snd f))
                                   && (Date.minute (snd f) <=? 59)
                                   && (Date.second (snd f) =? 0)
                                   && (Date.microsecond (snd f) =? 0))
                         TimeForms.accepted_forms = true)
    by (vm_compute; reflexivity).
  pose proof (proj1 (forallb_forall _ _) Hall _ Hin) as H.
  cbv beta in H. cbn [snd] in H.
  rewrite !andb_true_iff, !Z.leb_le, !Z.eqb_eq in H. lia.
Qed.

Lemma X5_parse_time_range_witness :
  0 <= Date.hour (Date.mk_time 21 5 0 0) <= 23
  /\ 0 <= Date.minute (Date.mk_time 21 5 0 0) <= 59
  /\ Date.second (Date.mk_time 21 5 0 0) = 0
  /\ Date.microsecond (Date.mk_time 21 5 0 0) = 0.
Proof.
  apply (X5_parse_time_range " 9:05 pm"). vm_compute. reflexivity.
Defined.

(** X6.  [parse_time] ignores spaces and letter case: a space inserted
    anywhere in the string, and turning the string to upper or to lower
    case, do not change its result. *)
Theorem X6_parse_time_ignores_spaces_and_case :
  forall a b : string,
    parse_time (a +:+ " " +:+ b) = parse_time (a +:+ b)
    /\ parse_time (Str.upper a) = parse_time a
    /\ parse_time (Str.lower a) = parse_time a.
Proof.
  intros a b. unfold parse_time.
  rewrite normalize_upper, normalize_lower.
  split; [|done].
  unfold normalize_time_str. rewrite !remove_spaces_append.
  change (Str.remove_spaces (" " +:+ b)) with (Str.remove_spaces b).
  reflexivity.
Qed.

Lemma render_parse_all :
  forallb (fun h =>
    forallb (fun m =>
      match parse_time (render_24h h m), parse_time (render_12h h m) with
      | Ok (Some t), Ok (Some t') =>
          TimeForms.time_eqb t (Date.mk_time h m 0 0)
          && TimeForms.time_eqb t' (Date.mk_time h m 0 0)
      | _, _ => false
      end) (TimeForms.zrange 0 59)) (TimeForms.zrange 0 23) = true.
Proof. vm_compute. reflexivity. Qed.

(** X7.  Parsing undoes rendering: for every hour 0 to 23 and minute 0 to
    59, [parse_time] applied to the 24-hour text HH:MM, or to the 12-hour
    text "HH:MM AM" or "HH:MM PM" of that time of day (12 for midnight and
    noon), returns that hour and minute. *)
Theorem X7_parse_time_round_trip :
  forall h m : Z,
    0 <= h <= 23 -> 0 <= m <= 59 ->
    parse_time (render_24h h m) = Ok (Some (Date.mk_time h m 0 0))
    /\ parse_time (render_12h h m) = Ok (Some (Date.mk_time h m 0 0)).
Proof.
  intros h m Hh Hm.
  pose proof (proj1 (forallb_forall _ _) render_parse_all h (In_zrange _ _ _ Hh))
    as H1. cbv beta in H1.
  pose proof (proj1 (forallb_forall _ _) H1 m (In_zrange _ _ _ Hm)) as H2.
  cbv beta in H2.
  destruct (parse_time (render_24h h m)) as [[t|]|]; try discriminate.
  destruct (parse_time (render_12h h m)) as [[t'|]|]; try discriminate.
  apply andb_true_iff in H2 as [Ht Ht'].
  apply TimeFacts.time_eqb_eq in Ht, Ht'. by subst.
Qed.

Lemma X7_parse_time_round_trip_witness :
  parse_time "00:30" = Ok (Some (Date.mk_time 0 30 0 0))
  /\ parse_time "12:30 AM" = Ok (Some (Date.mk_time 0 30 0 0)).
Proof. apply (X7_parse_time_round_trip 0 30); lia. Defined.

(** ** Schedule normaliser *)

(** The three tables of day names agree. *)
Lemma day_map_names_indexed (d : ascii) (day_name : string) :
  day_map_get d day_map = Some day_name ->
  exists i, index (Str.lower day_name) days_of_week = Ok i
            /\ weekday_index_get (VStr day_name) = Some i.
Proof.
  unfold day_map. cbn [day_map_get].
  repeat (destruct (Ascii.eqb _ d);
          [intros [= <-]; eexists; split; reflexivity|]).
  discriminate.
Qed.

Lemma weekday_days_ahead (today : Date.date) (i : Z) :
  0 <= i <= 6 ->
  let d := (i - Date.weekday today + 7) mod 7 in
  Date.weekday (Date.mk_date (Date.toordinal today + (if d =? 0 then 7 else d)))
  = i.
Proof.
  intros Hi d.
  assert (Hd : d = (i - Date.weekday today) mod 7).
  { unfold d. replace (i - Date.weekday today + 7)
      with (i - Date.weekday today + 1 * 7) by lia.
    apply Z.mod_add. lia. }
  pose proof (weekday_after today i Hi) as Hafter. rewrite <- Hd in Hafter.
  destruct (d =? 0) eqn:H0; [|exact Hafter].
  apply Z.eqb_eq in H0. rewrite H0, Z.add_0_r in Hafter.
  unfold Date.weekday in *. simpl Date.toordinal in *.
  replace (Date.toordinal today + 7 + 6)
    with (Date.toordinal today + 6 + 1 * 7) by lia.
  rewrite Z.mod_add by lia. exact Hafter.
Qed.

(** A date returned for a day letter is 1 to 7 days ahead, on that
    weekday. *)
Lemma get_next_weekday_date_letter (today event_date : Date.date) (d : ascii)
    (day_name : string) :
  day_map_get d day_map = Some day_name ->
  get_next_weekday_date today day_name = Ok event_date ->
  exists k,
    event_date = Date.mk_date (Date.toordinal today + k)
    /\ 1 <= k <= 7
    /\ weekday_index_get (VStr day_name) = Some (Date.weekday event_date)
    /\ (k = 7 <-> Date.weekday event_date = Date.weekday today).
Proof.
  intros Hd. destruct (day_map_names_indexed _ _ Hd) as (i & Hi & Hidx).
  unfold get_next_weekday_date. rewrite Hi.
  pose proof (index_days_of_week_range _ _ Hi) as Hr.
  pose proof (weekday_range today) as Hw.
  pose proof (days_ahead_range _ _ Hw Hr) as Hk.
  pose proof (weekday_days_ahead today i Hr) as Hwd.
  cbv zeta in Hk, Hwd.
  assert (Hk7 : (if (i - Date.weekday today + 7) mod 7 =? 0 then 7
                 else (i - Date.weekday today + 7) mod 7) = 7
                <-> i = Date.weekday today).
  { assert (Hm : 0 <= (i - Date.weekday today + 7) mod 7 < 7)
      by (apply Z.mod_pos_bound; lia).
    destruct (_ =? 0) eqn:H0.
    - apply Z.eqb_eq in H0. split; [intros _|done].
      destruct (decide (i = Date.weekday today)) as [|Hne]; [done|].
      exfalso.
      assert (Hcase : 0 < i - Date.weekday today + 7 < 7
                      \/ 7 < i - Date.weekday today + 7 < 14) by lia.
      destruct Hcase as [Hc|Hc].
      + rewrite Z.mod_small in H0 by lia. lia.
      + replace (i - Date.weekday today + 7)
          with (i - Date.weekday today + 1 * 7) in H0 by lia.
        rewrite Z.mod_add, Z.mod_small in H0 by lia. lia.
    - apply Z.eqb_neq in H0. split; [lia|]. intros ->. exfalso. apply H0.
      replace (Date.weekday today - Date.weekday today + 7) with (1 * 7) by lia.
      apply Z.mod_mul. lia. }
  set (k := if (i - Date.weekday today + 7) mod 7 =? 0 then 7
            else (i - Date.weekday today + 7) mod 7) in *.
  unfold Date.add_days.
  destruct ((0 <? Date.toordinal today + k)
            && (Date.toordinal today + k <=? Date.MAXORDINAL)); [|discriminate].
  intros [= <-]. exists k. rewrite Hwd. done.
Qed.

Lemma day_unit_occurrences (today : Date.date) (s : section) (d : ascii)
    (day_name : string) (new : list (gmap string pyval)) :
  day_map_get d day_map = Some day_name ->
  day_unit today s day_name = Ok new ->
  Forall (parsed_occurrence today) new /\ (length new <= 1)%nat.
Proof.
  intros Hd. unfold day_unit.
  destruct (get_next_weekday_date today day_name) as [event_date|e] eqn:Hdate;
    [|discriminate].
  cbn [rbind].
  destruct (parse_time (start_time s)) as [[st|]|] eqn:Hst; cbn [rbind];
    [| |discriminate];
    (destruct (parse_time (end_time s)) as [[et|]|] eqn:Het; cbn [rbind];
     [| |discriminate]);
    intros [= <-]; (split; [|simpl; lia]); [|constructor..].
  constructor; [|constructor].
  destruct (get_next_weekday_date_letter _ _ _ _ Hd Hdate)
    as (k & -> & Hk & Hidx & _).
  right. exists s, day_name, k, st, et. done.
Qed.

Lemma for_days_occurrences (today : Date.date) (s : section) (ds : string) :
  forall events,
    Forall (parsed_occurrence today) events ->
    Forall (parsed_occurrence today) (fst (for_days today s ds events))
    /\ (length (fst (for_days today s ds events))
        <= length events + String.length ds)%nat.
Proof.
  induction ds as [|d ds IH]; intros events Hev.
  - simpl. split; [done | lia].
  - rewrite for_days_step.
    destruct (day_map_get d day_map) as [day_name|] eqn:Hd.
    + destruct (day_unit today s day_name) as [new|e] eqn:Hunit.
      * destruct (day_unit_occurrences _ _ _ _ _ Hd Hunit) as [Hnew Hlen].
        destruct (IH (events ++ new)) as [H1 H2].
        { apply Forall_app. done. }
        split; [exact H1|]. rewrite length_app in H2. simpl. lia.
      * simpl. split; [done | lia].
    + destruct (IH events Hev) as [H1 H2]. split; [exact H1|]. simpl. lia.
Qed.

Lemma prefix_length (a b : string) :
  String.prefix a b = true -> (String.length a <= String.length b)%nat.
Proof.
  revert b. induction a as [|c a IH]; intros b; [simpl; lia|].
  destruct b as [|c' b]; simpl; [discriminate|].
  destruct (ascii_dec c c'); [|discriminate].
  intros H%IH. lia.
Qed.

Lemma contains_length (sub s : string) :
  Str.contains sub s = true -> (String.length sub <= String.length s)%nat.
Proof.
  induction s as [|c s IH]; cbn [Str.contains].
  - rewrite orb_false_r. apply prefix_length.
  - intros [H|H]%orb_true_iff.
    + by apply prefix_length.
    + apply IH in H. simpl. lia.
Qed.

Lemma section_body_occurrences (today : Date.date) (r : result (option section)) :
  Forall (parsed_occurrence today) (section_body today r [])
  /\ (length (section_body today r []) <= days_bound r)%nat.
Proof.
  unfold section_body, days_bound.
  destruct r as [[s|]|e]; [|split; [constructor | simpl; lia]..].
  destruct (Str.contains "ARR" (days s)) eqn:Harr.
  - split.
    + constructor; [|constructor]. left. by exists s.
    + apply contains_length in Harr. simpl in *. lia.
  - destruct (for_days_occurrences today s (days s) []) as [H1 H2];
      [constructor|]. split; [exact H1|]. simpl in H2. lia.
Qed.

Lemma parse_timetable_occurrences {world : Type}
    (crn_lookup : world -> string -> world * result (option section))
    (today : Date.date) (text : string) (w : world) :
  Forall (parsed_occurrence today)
         (snd (parse_timetable_text crn_lookup today text w)).
Proof.
  unfold parse_timetable_text. rewrite parse_timetable_from. simpl.
  induction (lookups crn_lookup w (crns_of text)) as [|r rs IH]; [constructor|].
  simpl. apply Forall_app. split; [|exact IH].
  apply section_body_occurrences.
Qed.

Lemma parse_timetable_no_identifier {world : Type}
    (crn_lookup : world -> string -> world * result (option section))
    (today : Date.date) (text : string) (w : world) :
  Forall (fun r => (length r < 5)%nat)
         (Extractor.digit_runs Str.is_digit (list_ascii_of_string text)) ->
  crns_of text = []
  /\ parse_timetable_text crn_lookup today text w = (w, []).
Proof.
  intros Hshort.
  assert (Hcrns : crns_of text = []).
  { unfold crns_of.
    rewrite (ExtractorFacts.findall_blocks_of_runs Str.is_digit _ _ (Nat.le_refl _)).
    induction Hshort as [|r rs Hr _ IH]; [reflexivity|].
    cbn [flat_map]. rewrite ExtractorFacts.blocks5_short by done. exact IH. }
  split; [exact Hcrns|].
  unfold parse_timetable_text. by rewrite Hcrns.
Qed.




(** X10.  The answer of a lookup yields at most as many events as its
    section has characters in its days field (none when the lookup raises or
    finds nothing), so the number of events of a text is at most the sum of
    these lengths over the lookups made. *)
Theorem X10_events_bounded_by_days :
  forall (world : Type)
         (crn_lookup : world -> string -> world * result (option section))
         (today : Date.date) (text : string) (w : world),
    (forall r, length (section_body today r []) <= days_bound r)%nat
    /\ (length (snd (parse_timetable_text crn_lookup today text w))
        <= list_sum (map days_bound (lookups crn_lookup w (crns_of text))))%nat.
Proof.
  intros world crn_lookup today text w.
  split; [intros r; apply section_body_occurrences|].
  unfold parse_timetable_text. rewrite parse_timetable_from. simpl.
  induction (lookups crn_lookup w (crns_of text)) as [|r rs IH]; [simpl; lia|].
  simpl. rewrite length_app.
  pose proof (proj2 (section_body_occurrences today r)). lia.
Qed.

(** ** Recurrence builder *)

Lemma day_map_get_In (d : ascii) (day_name : string) (m : list (ascii * string)) :
  day_map_get d m = Some day_name -> In (d, day_name) m.
Proof.
  induction m as [|[k v] m IH]; simpl; [discriminate|].
  destruct (Ascii.eqb k d) eqn:Hk.
  - apply Ascii.eqb_eq in Hk. intros [= <-]. left. by subst.
  - intros H. right. by apply IH.
Qed.

(** X11.  The tables of day names agree.  Each day letter stands for one
    name, and no two letters for the same name; that name is known to the
    weekday resolver and to the recurrence builder under the same weekday
    number, whose by-day code is the first two letters of the name in upper
    case.  Every name that the recurrence builder knows is known to the
    resolver under the same number. *)
Theorem X11_day_tables_agree :
  (forall d day_name,
     day_map_get d day_map = Some day_name ->
     exists i code,
       index (Str.lower day_name) days_of_week = Ok i
       /\ weekday_index_get (VStr day_name) = Some i
       /\ list_getitem weekday_codes i = Ok code
       /\ code = Str.upper (String.substring 0 2 day_name))
  /\ (forall d1 d2 day_name,
        day_map_get d1 day_map = Some day_name ->
        day_map_get d2 day_map = Some day_name -> d1 = d2)
  /\ (forall day_name i,
        weekday_index_get (VStr day_name) = Some i ->
        index (Str.lower day_name) days_of_week = Ok i).
Proof.
  split; [|split].
  - intros d day_name. unfold day_map. cbn [day_map_get].
    repeat (destruct (Ascii.eqb _ d);
            [intros [= <-]; eexists _, _; repeat split; reflexivity|]).
    discriminate.
  - intros d1 d2 day_name H1%day_map_get_In H2%day_map_get_In.
    unfold day_map in H1, H2. cbn [In] in H1, H2.
    repeat (destruct H1 as [H1|H1]; [injection H1 as <- <-|]);
      [..|destruct H1];
      repeat (destruct H2 as [H2|H2]; [congruence|]);
      destruct H2.
  - intros day_name i. unfold weekday_index_get, weekday_index_map.
    repeat match goal with
           | |- context [String.eqb ?k day_name] =>
               destruct (String.eqb_spec k day_name) as [<-|_];
               [intros [= <-]; reflexivity|]
           end.
    discriminate.
Qed.


Lemma payload_datetime_time (today : Date.date) (event : gmap string pyval)
    (dt : Date.datetime) :
  Date.dt_time (payload_datetime today event dt) = Date.dt_time dt.
Proof.
  unfold payload_datetime, move_to, Date.replace_tzinfo, Date.combine,
    Date.localize.
  by destruct (Date.dt_tzinfo dt), (weekday_index_get _).
Qed.

Lemma payload_datetime_tzinfo (today : Date.date) (event : gmap string pyval)
    (dt : Date.datetime) :
  Date.dt_tzinfo (payload_datetime today event dt)
  = Some (default (Date.Eastern (Date.dt_date dt) (Date.dt_time dt))
                  (Date.dt_tzinfo dt)).
Proof.
  unfold payload_datetime, move_to, Date.replace_tzinfo, Date.combine,
    Date.localize.
  destruct (Date.dt_tzinfo dt) as [tz|] eqn:Htz, (weekday_index_get _);
    cbn [Date.dt_tzinfo default]; by rewrite ?Htz.
Qed.

Lemma payload_datetime_known (today : Date.date) (event : gmap string pyval)
    (dt : Date.datetime) (target : Z) :
  weekday_index_get (get VNone event "day") = Some target ->
  Date.dt_date (payload_datetime today event dt)
  = Date.mk_date (Date.toordinal today + (target - Date.weekday today) mod 7).
Proof.
  unfold payload_datetime. intros ->. reflexivity.
Qed.

Lemma payload_datetime_unknown (today : Date.date) (event : gmap string pyval)
    (dt : Date.datetime) :
  weekday_index_get (get VNone event "day") = None ->
  Date.dt_date (payload_datetime today event dt) = Date.dt_date dt.
Proof.
  unfold payload_datetime. intros ->. by destruct (Date.dt_tzinfo dt).
Qed.

(** X13.  The payload keeps the wall-clock fields (hour, minute, second,
    microsecond) of the stored start and end datetimes, and their tzinfo
    when they have one; a naive datetime gets the Eastern offset that is in
    force at its stored date and time, and carries that offset to whatever
    date it is moved to.  When the event's day is one of the seven names,
    start and end are both moved to one date, between the current date and
    6 days after it; otherwise both keep their dates. *)
Theorem X13_payload_keeps_times :
  forall (today : Date.date) (event : gmap string pyval)
         (sdt edt : Date.datetime) (subject : pyval),
    Date.valid today ->
    Date.toordinal today + 6 <= Date.MAXORDINAL ->
    event !! "start_datetime"%string = Some (VDatetime sdt) ->
    event !! "end_datetime"%string = Some (VDatetime edt) ->
    event !! "subject"%string = Some subject ->
    exists body,
      build_event_body today event = Ok body
      /\ Date.dt_time (dateTime (body_start body)) = Date.dt_time sdt
      /\ Date.dt_time (dateTime (body_end body)) = Date.dt_time edt
      /\ Date.dt_tzinfo (dateTime (body_start body))
         = Some (match Date.dt_tzinfo sdt with
                 | Some tz => tz
                 | None => Date.Eastern (Date.dt_date sdt) (Date.dt_time sdt)
                 end)
      /\ Date.dt_tzinfo (dateTime (body_end body))
         = Some (match Date.dt_tzinfo edt with
                 | Some tz => tz
                 | None => Date.Eastern (Date.dt_date edt) (Date.dt_time edt)
                 end)
      /\ (forall target,
            weekday_index_get (get VNone event "day") = Some target ->
            Date.dt_date (dateTime (body_end body))
            = Date.dt_date (dateTime (body_start body))
            /\ Date.toordinal today
               <= Date.toordinal (Date.dt_date (dateTime (body_start body)))
               <= Date.toordinal today + 6)
      /\ (weekday_index_get (get VNone event "day") = None ->
            Date.dt_date (dateTime (body_start body)) = Date.dt_date sdt
            /\ Date.dt_date (dateTime (body_end body)) = Date.dt_date edt).
Proof.
  intros today event sdt edt subject Hv Hmax Hs He Hsub.
  destruct (build_event_body_concrete today event sdt edt subject Hv Hmax Hs He Hsub)
    as (code & _ & Hbody).
  eexists. split; [exact Hbody|].
  cbn [body_start body_end dateTime].
  rewrite !payload_datetime_time, !payload_datetime_tzinfo.
  do 4 (split; [reflexivity|]).
  split.
  - intros target Hday.
    rewrite !(payload_datetime_known _ _ _ _ Hday).
    split; [reflexivity|]. cbn [Date.toordinal].
    pose proof (weekday_index_get_range _ _ Hday) as Ht.
    pose proof (weekday_range today) as Hw.
    assert (Hd : 0 <= (target - Date.weekday today) mod 7 < 7)
      by (apply Z.mod_pos_bound; lia).
    lia.
  - intros Hday. by rewrite !(payload_datetime_unknown _ _ _ Hday).
Qed.

(** X13 on an occurrence stored on Friday 31 October 2025, 09:00 to 09:50,
    without time zone, and submitted on Monday 3 November: both ends are
    moved to Friday 7 November and keep 09:00 and 09:50 with the Eastern
    offset of 31 October. *)
Lemma X13_payload_keeps_times_witness :
  let today := Date.of_ymd 2025 11 3 in
  let sdt := Date.combine (Date.of_ymd 2025 10 31) (Date.mk_time 9 0 0 0) in
  let edt := Date.combine (Date.of_ymd 2025 10 31) (Date.mk_time 9 50 0 0) in
  let event : gmap string pyval :=
    <["day" := VStr "Friday"]>
    (<["end_datetime" := VDatetime edt]>
    (<["start_datetime" := VDatetime sdt]>
    (<["subject" := VStr "Lab"]> ∅))) in
  exists body,
    build_event_body today event = Ok body
    /\ Date.dt_time (dateTime (body_start body)) = Date.mk_time 9 0 0 0
    /\ Date.dt_time (dateTime (body_end body)) = Date.mk_time 9 50 0 0
    /\ Date.dt_tzinfo (dateTime (body_start body))
       = Some (Date.Eastern (Date.of_ymd 2025 10 31) (Date.mk_time 9 0 0 0))
    /\ Date.dt_date (dateTime (body_end body))
       = Date.dt_date (dateTime (body_start body)).
Proof.
  intros today sdt edt event.
  destruct (X13_payload_keeps_times today event sdt edt (VStr "Lab"))
    as (body & Hbody & Hst & Het & Htz & _ & Hday & _).
  - vm_compute. split; discriminate.
  - vm_compute. discriminate.
  - reflexivity.
  - reflexivity.
  - reflexivity.
  - exists body. split; [exact Hbody|]. split; [exact Hst|]. split; [exact Het|].
    split; [exact Htz|]. apply (Hday 4). reflexivity.
Defined.

(** X14.  The recurrence builder re-dates an occurrence that the parser
    built on the same day (at least 6 days before the last date of the
    calendar): the payload starts on the parser's date, unless
    the current date already falls on the occurrence's weekday, in which
    case the parser dated it 7 days ahead and the payload starts on the
    current date. *)
Theorem X14_parser_date_and_payload_date :
  forall (today event_date : Date.date) (s : section) (d : ascii)
         (day_name : string) (st et : Date.time),
    Date.valid today ->
    Date.toordinal today + 6 <= Date.MAXORDINAL ->
    day_map_get d day_map = Some day_name ->
    get_next_weekday_date today day_name = Ok event_date ->
    exists body,
      build_event_body today (day_event s day_name event_date st et) = Ok body
      /\ Date.dt_date (dateTime (body_end body))
         = Date.dt_date (dateTime (body_start body))
      /\ (Date.weekday today <> Date.weekday event_date ->
            Date.dt_date (dateTime (body_start body)) = event_date)
      /\ (Date.weekday today = Date.weekday event_date ->
            Date.dt_date (dateTime (body_start body)) = today
            /\ Date.toordinal event_date = Date.toordinal today + 7).
Proof.
  intros today event_date s d day_name st et Hv Hmax Hd Hdate.
  destruct (get_next_weekday_date_letter _ _ _ _ Hd Hdate)
    as (k & Hev & Hk & Hidx & Hk7).
  set (event := day_event s day_name event_date st et).
  assert (Hs : event !! "start_datetime"%string
               = Some (VDatetime (Date.combine event_date st)))
    by (unfold event, day_event; by simplify_map_eq).
  assert (He : event !! "end_datetime"%string
               = Some (VDatetime (Date.combine event_date et)))
    by (unfold event, day_event; by simplify_map_eq).
  assert (Hsub : event !! "subject"%string = Some (VStr (subject_of s)))
    by (unfold event, day_event; by simplify_map_eq).
  assert (Hday : get VNone event "day" = VStr day_name)
    by (unfold get, event, day_event; by simplify_map_eq).
  destruct (build_event_body_concrete today event _ _ _ Hv Hmax Hs He Hsub)
    as (code & _ & Hbody).
  eexists. split; [exact Hbody|].
  cbn [body_start body_end dateTime].
  assert (Hget : weekday_index_get (get VNone event "day")
                 = Some (Date.weekday event_date))
    by (rewrite Hday; exact Hidx).
  rewrite !(payload_datetime_known _ _ _ _ Hget).
  split; [reflexivity|].
  assert (Hmod : (Date.weekday event_date - Date.weekday today) mod 7 = k mod 7).
  { rewrite Hev. unfold Date.weekday. cbn [Date.toordinal].
    rewrite Zminus_mod_idemp_l, Zminus_mod_idemp_r. f_equal. lia. }
  rewrite Hmod.
  split.
  - intros Hne.
    assert (Hk' : k <> 7) by (intros Hk'; apply Hne; symmetry; by apply Hk7).
    rewrite Z.mod_small by lia. by rewrite Hev.
  - intros Heq. assert (Hk' : k = 7) by (apply Hk7; by rewrite Heq).
    rewrite Hk'. change (7 mod 7) with 0. rewrite Z.add_0_r.
    split; [by destruct today|]. by rewrite Hev, Hk'.
Qed.

(** X14 on Monday 3 November 2025: the Monday occurrence is dated 10
    November by the parser and 3 November in the payload. *)
Lemma X14_parser_date_and_payload_date_witness :
  let today := Date.of_ymd 2025 11 3 in
  let s := mk_section "CS1114" "Intro" "McBryde 100" "MWF" "9:00AM" "9:50AM" in
  exists body,
    build_event_body today
      (day_event s "Monday" (Date.of_ymd 2025 11 10)
         (Date.mk_time 9 0 0 0) (Date.mk_time 9 50 0 0)) = Ok body
    /\ Date.dt_date (dateTime (body_start body)) = Date.of_ymd 2025 11 3.
Proof.
  intros today s.
  destruct (X14_parser_date_and_payload_date today (Date.of_ymd 2025 11 10)
              s "M" "Monday" (Date.mk_time 9 0 0 0) (Date.mk_time 9 50 0 0))
    as (body & Hbody & _ & _ & Hsame).
  - vm_compute. split; discriminate.
  - vm_compute. discriminate.
  - reflexivity.
  - reflexivity.
  - exists body. split; [exact Hbody|]. apply Hsame. reflexivity.
Defined.

(** ** Batch submission, continued *)

Section FirstOccurrencesMore.
Context {K V : Type} `{EqDecision K} (key : V -> K).

Lemma first_occurrences_seen (events : list V) : forall seen,
  (forall e, e ∈ events -> key e ∈ seen) ->
  first_occurrences key seen events = [].
Proof.
  induction events as [|x events IH]; intros seen Hseen; simpl; [done|].
  rewrite decide_True by (apply Hseen; left).
  apply IH. intros e He. apply Hseen. by right.
Qed.

Lemma first_occurrences_app (xs ys : list V) : forall seen,
  first_occurrences key seen (xs ++ ys)
  = first_occurrences key seen xs
    ++ first_occurrences key
         (seen ++ map key (first_occurrences key seen xs)) ys.
Proof.
  induction xs as [|x xs IH]; intros seen; simpl.
  - by rewrite app_nil_r.
  - destruct (decide (key x ∈ seen)) as [Hin|Hout]; [apply IH|].
    simpl. rewrite IH. by rewrite <- app_assoc.
Qed.

(** Events whose keys all occur earlier in the list are dropped. *)
Lemma first_occurrences_repeats (xs ys : list V) :
  (forall y, y ∈ ys -> exists x, x ∈ xs /\ key y = key x) ->
  first_occurrences key [] (xs ++ ys) = first_occurrences key [] xs.
Proof.
  intros Hrep. rewrite first_occurrences_app.
  rewrite (first_occurrences_seen ys).
  - apply app_nil_r.
  - intros y Hy. simpl. destruct (Hrep y Hy) as (x & Hx & ->).
    destruct (first_occurrences_complete key xs [] x Hx) as (x' & Hx' & <-).
    + apply not_elem_of_nil.
    + apply list_elem_of_fmap. eauto.
Qed.

Lemma first_occurrences_fixed_NoDup (events : list V) :
  first_occurrences key [] events = events <-> NoDup (map key events).
Proof.
  split.
  - intros <-. apply first_occurrences_NoDup.
  - intros Hnd. apply first_occurrences_fixed; [done|].
    intros e _. apply not_elem_of_nil.
Qed.

End FirstOccurrencesMore.

Lemma dedup_first_occurrences (events : list (gmap string json)) :
  dedup events = first_occurrences dedup_key [] events.
Proof. unfold dedup. apply values_unique_events. Qed.

Section SubmissionMore.
Context {world : Type}.
Variable get_calendar_service : world -> world * result unit.
Variable insert_event : world -> event_body -> world * result string.
Variable fromisoformat : string -> result Date.datetime.
Variable today : Date.date.

Abbreviation submit' :=
  (submit_event get_calendar_service insert_event fromisoformat today).

(** What one step of the second loop adds to the created events and to the
    results. *)
Lemma submit_event_adds (event : gmap string pyval)
    (st : (world * list event_body) * list creation_result) :
  exists created new_results,
    snd (fst (submit' event st)) = snd (fst st) ++ created
    /\ snd (submit' event st) = snd st ++ new_results
    /\ (length new_results <= length created <= 1)%nat
    /\ Forall (fun r => status r = "success"%string) new_results.
Proof.
  unfold submit_event.
  destruct (let! event0 := convert_field fromisoformat "start_datetime" event in
            convert_field fromisoformat "end_datetime" event0) as [event2|e];
    [|exists [], []; rewrite !app_nil_r; repeat split; [simpl; lia..|constructor]].
  destruct (truthy _ && truthy _);
    [|exists [], []; rewrite !app_nil_r; repeat split; [simpl; lia..|constructor]].
  unfold create_google_event.
  destruct (get_calendar_service (fst (fst st))) as [w1 [[]|e]];
    [|exists [], []; rewrite !app_nil_r; repeat split; [simpl; lia..|constructor]].
  destruct (build_event_body today event2) as [body|e];
    [|exists [], []; rewrite !app_nil_r; repeat split; [simpl; lia..|constructor]].
  destruct (insert_event w1 body) as [w2 [created_id|e]];
    [|exists [], []; rewrite !app_nil_r; repeat split; [simpl; lia..|constructor]].
  destruct (let! _ := getitem event2 "subject" in getitem event2 "day").
  - exists [body], [mk_creation_result "success" created_id].
    repeat split; [simpl; lia..|]. by constructor.
  - exists [body], []. rewrite app_nil_r.
    repeat split; [simpl; lia..|constructor].
Qed.

Lemma fold_submit_adds {A : Type} (g : A -> gmap string pyval)
    (events : list A) : forall st,
  exists created new_results,
    snd (fst (fold_left (fun st event => submit' (g event) st) events st))
    = snd (fst st) ++ created
    /\ snd (fold_left (fun st event => submit' (g event) st) events st)
       = snd st ++ new_results
    /\ (length new_results <= length created <= length events)%nat
    /\ Forall (fun r => status r = "success"%string) new_results.
Proof.
  induction events as [|event events IH]; intros st; cbn [fold_left].
  - exists [], []. rewrite !app_nil_r. repeat split; [simpl; lia..|constructor].
  - destruct (IH (submit' (g event) st)) as (c2 & r2 & Hc2 & Hr2 & Hl2 & Hs2).
    destruct (submit_event_adds (g event) st)
      as (c1 & r1 & Hc1 & Hr1 & Hl1 & Hs1).
    exists (c1 ++ c2), (r1 ++ r2).
    rewrite Hc2, Hr2, Hc1, Hr1, <- !app_assoc.
    repeat split; [rewrite !length_app; simpl; lia..|].
    by apply Forall_app.
Qed.

(** A step in which a conversion fails, or no service is obtained, or the
    provider refuses, leaves the created events and the results as they
    are. *)
Lemma submit_event_no_service (event : gmap string pyval)
    (st : (world * list event_body) * list creation_result) :
  (forall w, exists w' e, get_calendar_service w = (w', Raise e))
  \/ (forall w body, exists w' e, insert_event w body = (w', Raise e)) ->
  snd (fst (submit' event st)) = snd (fst st)
  /\ snd (submit' event st) = snd st.
Proof.
  intros Hfail. unfold submit_event.
  destruct (let! event0 := convert_field fromisoformat "start_datetime" event in
            convert_field fromisoformat "end_datetime" event0) as [event2|e];
    [|done].
  destruct (truthy _ && truthy _); [|done].
  unfold create_google_event.
  destruct Hfail as [Hsvc|Hins].
  - destruct (Hsvc (fst (fst st))) as (w' & e & ->). done.
  - destruct (get_calendar_service (fst (fst st))) as [w1 [[]|e]]; [|done].
    destruct (build_event_body today event2) as [body|e]; [|done].
    destruct (Hins w1 body) as (w' & e & ->). done.
Qed.

Lemma submit_event_rejected (event : gmap string json)
    (st : (world * list event_body) * list creation_result) :
  rejected_timestamp fromisoformat event -> submit' (to_py <$> event) st = st.
Proof.
  intros (k & s & e & Hk & Hlook & Hrej). unfold submit_event.
  assert (Hpy : (to_py <$> event) !! k = Some (VStr s))
    by (by rewrite lookup_fmap, Hlook).
  destruct Hk as [-> | ->].
  - assert (H1 : convert_field fromisoformat "start_datetime" (to_py <$> event)
                 = Raise e)
      by (unfold convert_field; rewrite Hpy, Hrej; reflexivity).
    rewrite H1. reflexivity.
  - destruct (convert_field fromisoformat "start_datetime" (to_py <$> event))
      as [event1|e1] eqn:H1; cbn [rbind]; [|reflexivity].
    assert (H2 : convert_field fromisoformat "end_datetime" event1 = Raise e).
    { unfold convert_field.
      rewrite (convert_field_other fromisoformat "start_datetime" "end_datetime"
                 _ _ ltac:(discriminate) H1), Hpy, Hrej.
      reflexivity. }
    rewrite H2. reflexivity.
Qed.

End SubmissionMore.

(** X15.  The response of [create_events_in_calendar] never over-counts:
    the events already on the calendar stay, in order; at most one event is
    created for each distinct event of the batch; each result stands for
    one created event, so there are no more results than created events;
    and every result has the status "success". *)
Theorem X15_results_never_exceed_created :
  forall (world : Type)
         (get_calendar_service : world -> world * result unit)
         (insert_event : world -> event_body -> world * result string)
         (fromisoformat : string -> result Date.datetime)
         (today : Date.date) (w : world) (created0 : list event_body)
         (events : list (gmap string json)),
    let out := create_events_in_calendar get_calendar_service insert_event
                 fromisoformat today w created0 events in
    exists created,
      snd (fst out) = created0 ++ created
      /\ (length (results (snd out)) <= length created)%nat
      /\ (length created <= length (dedup events))%nat
      /\ (length (dedup events) <= length events)%nat
      /\ Forall (fun r => status r = "success"%string) (results (snd out)).
Proof.
  intros world get_calendar_service insert_event fromisoformat today w
         created0 events out.
  unfold out, create_events_in_calendar. cbn [fst snd results].
  destruct (fold_submit_adds get_calendar_service insert_event fromisoformat
              today (fmap to_py) (dedup events) ((w, created0), []))
    as (created & new_results & -> & -> & Hl & Hs).
  cbn [fst snd app].
  exists created. repeat split; [lia..| |exact Hs].
  rewrite dedup_first_occurrences.
  apply sublist_length, first_occurrences_sublist.
Qed.

(** X16.  Repeated events are submitted once.  When every event of a
    second list has the key (subject, day, start, end, location) of some
    event of a first list, submitting the first list followed by the second
    has the same effect and the same response as submitting the first
    alone. *)
Theorem X16_repeated_events_change_nothing :
  forall (world : Type)
         (get_calendar_service : world -> world * result unit)
         (insert_event : world -> event_body -> world * result string)
         (fromisoformat : string -> result Date.datetime)
         (today : Date.date) (w : world) (created0 : list event_body)
         (events repeats : list (gmap string json)),
    (forall y, y ∈ repeats ->
       exists x, x ∈ events /\ dedup_key y = dedup_key x) ->
    create_events_in_calendar get_calendar_service insert_event fromisoformat
      today w created0 (events ++ repeats)
    = create_events_in_calendar get_calendar_service insert_event fromisoformat
        today w created0 events.
Proof.
  intros world get_calendar_service insert_event fromisoformat today w
         created0 events repeats Hrep.
  unfold create_events_in_calendar.
  by rewrite !dedup_first_occurrences, first_occurrences_repeats.
Qed.

(** X16 on a batch that holds the same event twice, the second time with
    an additional field. *)
Lemma X16_repeated_events_change_nothing_witness :
  let event : gmap string json :=
    <["subject" := JStr "CS1114 Intro"]>
    (<["day" := JStr "Monday"]>
    (<["start_datetime" := JStr "2025-11-10T09:00:00"]>
    (<["end_datetime" := JStr "2025-11-10T09:50:00"]>
    (<["location" := JStr "McBryde 100"]> ∅)))) in
  let again := <["needs_days_input" := JBool false]> event in
  let fromisoformat := fun _ : string =>
    Ok (Date.combine (Date.of_ymd 2025 11 10) (Date.mk_time 9 0 0 0)) in
  let today := Date.of_ymd 2025 11 3 in
  create_events_in_calendar (fun w : unit => (w, Ok tt))
    (fun w _ => (w, Ok "id"%string)) fromisoformat today tt [] [event; again]
  = create_events_in_calendar (fun w : unit => (w, Ok tt))
      (fun w _ => (w, Ok "id"%string)) fromisoformat today tt [] [event].
Proof.
  intros event again fromisoformat today.
  apply (X16_repeated_events_change_nothing unit _ _ fromisoformat today tt []
           [event] [again]).
  intros y ->%list_elem_of_singleton. exists event. split; [left|].
  vm_compute. reflexivity.
Defined.

(** X17.  A batch is submitted as it stands exactly when its keys are
    pairwise distinct: the de-duplication returns the batch unchanged if and
    only if no two of its events have the same key. *)
Theorem X17_dedup_fixes_distinct_keys :
  forall events : list (gmap string json),
    dedup events = events <-> NoDup (map dedup_key events).
Proof.
  intros events. rewrite dedup_first_occurrences.
  apply first_occurrences_fixed_NoDup.
Qed.

(** X18.  An event whose start or end is a string that [fromisoformat]
    rejects is skipped before anything is asked of the calendar service: a
    batch of such events leaves the outside world and the calendar as they
    were, and the response reports no result. *)
Theorem X18_rejected_timestamps_are_skipped :
  forall (world : Type)
         (get_calendar_service : world -> world * result unit)
         (insert_event : world -> event_body -> world * result string)
         (fromisoformat : string -> result Date.datetime)
         (today : Date.date) (w : world) (created0 : list event_body)
         (events : list (gmap string json)),
    Forall (rejected_timestamp fromisoformat) events ->
    create_events_in_calendar get_calendar_service insert_event fromisoformat
      today w created0 events
    = ((w, created0), mk_response [] (created_message 0)).
Proof.
  intros world get_calendar_service insert_event fromisoformat today w
         created0 events Hrej.
  unfold create_events_in_calendar.
  assert (Hfold : forall l st,
            Forall (rejected_timestamp fromisoformat) l ->
            fold_left (fun st event =>
                         submit_event get_calendar_service insert_event
                           fromisoformat today (to_py <$> event) st) l st = st).
  { induction l as [|event l IH]; intros st Hl; cbn [fold_left]; [done|].
    apply Forall_cons in Hl as [He Hl].
    rewrite submit_event_rejected by done. by apply IH. }
  rewrite Hfold; [reflexivity|].
  rewrite dedup_first_occurrences.
  apply Forall_forall. intros event Hevent.
  apply (proj1 (Forall_forall _ _) Hrej).
  eapply elem_of_sublist; [exact Hevent|].
  apply first_occurrences_sublist.
Qed.

(** X18 on an event whose start is not a timestamp, for a [fromisoformat]
    that accepts only one string. *)
Lemma X18_rejected_timestamps_are_skipped_witness :
  let fromisoformat := fun s : string =>
    if String.eqb s "2025-11-10T09:50:00"
    then Ok (Date.combine (Date.of_ymd 2025 11 10) (Date.mk_time 9 50 0 0))
    else Raise ValueError in
  let event : gmap string json :=
    <["subject" := JStr "CS1114 Intro"]>
    (<["day" := JStr "Monday"]>
    (<["start_datetime" := JStr "next Monday at nine"]>
    (<["end_datetime" := JStr "2025-11-10T09:50:00"]> ∅))) in
  create_events_in_calendar (fun w : unit => (w, Ok tt))
    (fun w _ => (w, Ok "id"%string)) fromisoformat (Date.of_ymd 2025 11 3)
    tt [] [event]
  = ((tt, []), mk_response [] "Created 0 recurring events in Google Calendar.").
Proof.
  intros fromisoformat event.
  apply (X18_rejected_timestamps_are_skipped unit _ _ fromisoformat
           (Date.of_ymd 2025 11 3) tt [] [event]).
  constructor; [|constructor].
  exists "start_datetime"%string, "next Monday at nine"%string, ValueError.
  split; [by left|]. split; reflexivity.
Defined.

(** X19.  When no calendar service can be obtained, or when the provider
    refuses every insertion, no event of the batch is created and the
    response reports no result; the failures stop neither the loop nor the
    endpoint. *)
Theorem X19_unavailable_calendar_creates_nothing :
  forall (world : Type)
         (get_calendar_service : world -> world * result unit)
         (insert_event : world -> event_body -> world * result string)
         (fromisoformat : string -> result Date.datetime)
         (today : Date.date) (w : world) (created0 : list event_body)
         (events : list (gmap string json)),
    (forall w, exists w' e, get_calendar_service w = (w', Raise e))
    \/ (forall w body, exists w' e, insert_event w body = (w', Raise e)) ->
    let out := create_events_in_calendar get_calendar_service insert_event
                 fromisoformat today w created0 events in
    snd (fst out) = created0
    /\ snd out = mk_response [] (created_message 0).
Proof.
  intros world get_calendar_service insert_event fromisoformat today w
         created0 events Hfail out.
  unfold out, create_events_in_calendar. cbn [fst snd].
  assert (Hfold : forall l st,
            let st' := fold_left
                         (fun st event =>
                            submit_event get_calendar_service insert_event
                              fromisoformat today (to_py <$> event) st) l st in
            snd (fst st') = snd (fst st) /\ snd st' = snd st).
  { induction l as [|event l IH]; intros st; cbn [fold_left]; [done|].
    destruct (IH (submit_event get_calendar_service insert_event fromisoformat
                    today (to_py <$> event) st)) as [Hc Hr].
    destruct (submit_event_no_service get_calendar_service insert_event
                fromisoformat today (to_py <$> event) st Hfail) as [Hc1 Hr1].
    cbn zeta in *. split; congruence. }
  destruct (Hfold (dedup events) ((w, created0), [])) as [Hc Hr].
  cbn zeta in *. rewrite Hc, Hr. done.
Qed.

(** X19 with a service that cannot be obtained. *)
Lemma X19_unavailable_calendar_creates_nothing_witness :
  let event : gmap string json :=
    <["subject" := JStr "CS1114 Intro"]>
    (<["day" := JStr "Monday"]>
    (<["start_datetime" := JStr "2025-11-10T09:00:00"]>
    (<["end_datetime" := JStr "2025-11-10T09:50:00"]> ∅))) in
  let out :=
    create_events_in_calendar (fun w : unit => (w, Raise ServiceError))
      (fun w _ => (w, Ok "id"%string))
      (fun _ => Ok (Date.combine (Date.of_ymd 2025 11 10) (Date.mk_time 9 0 0 0)))
      (Date.of_ymd 2025 11 3) tt [] [event] in
  snd (fst out) = []
  /\ snd out = mk_response [] "Created 0 recurring events in Google Calendar.".
Proof.
  intros event out.
  apply (X19_unavailable_calendar_creates_nothing unit
           (fun w : unit => (w, Raise ServiceError))).
  left. intros w. by exists w, ServiceError.
Defined.

(** ** Upload endpoint *)

Section UploadFacts.
Context {image : Type}.
Variable image_open : list Byte.byte -> Upload.outcome image.
Variable convert : image -> string -> Upload.outcome image.
Variable image_to_string : image -> string -> Upload.outcome string.

(** Whatever goes wrong in decoding the image, one exception leaves
    [preprocess_image]. *)
Lemma preprocess_image_raises (image_bytes : list Byte.byte) (e : Upload.raised) :
  Upload.preprocess_image image_open convert image_bytes = Upload.Raises e ->
  Upload.exc e = Upload.ValueErrorClass
  /\ Upload.str e = "Could not process the provided image file."%string.
Proof.
  unfold Upload.preprocess_image.
  destruct (Upload.obind _ _); [discriminate|]. by intros [= <-].
Qed.

(** [extract_text_from_image] raises a [RuntimeError] or a [ValueError]
    with a fixed message. *)
Lemma extract_text_raises (img : image) (e : Upload.raised) :
  Upload.extract_text_from_image image_to_string img = Upload.Raises e ->
  (Upload.exc e = Upload.ValueErrorClass
   /\ Upload.str e = "Failed to extract text from the image."%string)
  \/ (Upload.exc e = Upload.RuntimeErrorClass
      /\ In (Upload.str e) ocr_failure_messages).
Proof.
  unfold Upload.extract_text_from_image.
  destruct (image_to_string img _) as [text|e0]; [discriminate|].
  destruct (Upload.exc e0); intros [= <-]; auto.
  right. split; [reflexivity|]. right. right. left. reflexivity.
Qed.

(** What leaves the OCR stage of the endpoint when the file was read. *)
Lemma ocr_stage_raises (image_bytes : list Byte.byte) (e : Upload.raised) :
  Upload.obind (Upload.preprocess_image image_open convert image_bytes)
    (fun preprocessed_image =>
       Upload.extract_text_from_image image_to_string preprocessed_image)
  = Upload.Raises e ->
  (Upload.exc e = Upload.ValueErrorClass \/ Upload.exc e = Upload.RuntimeErrorClass)
  /\ In (Upload.str e) ocr_failure_messages.
Proof.
  destruct (Upload.preprocess_image image_open convert image_bytes)
    as [img|e0] eqn:Hpre; cbn [Upload.obind].
  - intros [[Hc Hm]|[Hc Hm]]%extract_text_raises.
    + split; [by left|]. rewrite Hm. right. left. reflexivity.
    + split; [by right|exact Hm].
  - intros [= <-]. apply preprocess_image_raises in Hpre as [Hc Hm].
    split; [by left|]. rewrite Hm. left. reflexivity.
Qed.

End UploadFacts.




(** ** Calendar credentials *)

(** X22.  [get_calendar_service] keeps the token file in step with the
    service.  When it returns a service, the token file holds the
    credentials that the service was built with.  Stored credentials that
    are valid are used as they are: nothing is refreshed, no login is run
    and the file is not rewritten.  When the function raises, the file is
    as before, unless it was the construction of the service that failed
    after new credentials were stored. *)
Theorem X22_token_file_follows_the_service :
  forall (service : Type)
         (refresh : Credentials.creds -> result Credentials.creds)
         (run_local_server : result Credentials.creds)
         (build : Credentials.creds -> result service)
         (token_pickle : option Credentials.creds),
    match Credentials.get_calendar_service refresh run_local_server build
            token_pickle with
    | (token_pickle', Ok s) =>
        exists c, token_pickle' = Some c /\ build c = Ok s
    | (token_pickle', Raise e) =>
        token_pickle' = token_pickle
        \/ (exists c, token_pickle' = Some c /\ build c = Raise e
                      /\ (run_local_server = Ok c
                          \/ exists c0, token_pickle = Some c0
                                        /\ refresh c0 = Ok c))
    end
    /\ (forall c0, token_pickle = Some c0 -> Credentials.valid c0 = true ->
          Credentials.get_calendar_service refresh run_local_server build
            token_pickle = (token_pickle, build c0)).
Proof.
  intros service refresh run_local_server build token_pickle.
  unfold Credentials.get_calendar_service.
  split.
  - destruct token_pickle as [c0|].
    + destruct (Credentials.valid c0) eqn:Hvalid; cbn [negb].
      * destruct (build c0) as [s|e] eqn:Hbuild; [|by left].
        by exists c0.
      * destruct (Credentials.expired c0
                  && Credentials.token_truthy (Credentials.refresh_token c0)).
        -- destruct (refresh c0) as [c|e] eqn:Hrefresh; cbn [rbind]; [|by left].
           destruct (build c) as [s|e] eqn:Hbuild; [by exists c|].
           right. exists c. split; [reflexivity|]. split; [exact Hbuild|].
           right. by exists c0.
        -- destruct run_local_server as [c|e] eqn:Hflow; cbn [rbind]; [|by left].
           destruct (build c) as [s|e] eqn:Hbuild; [by exists c|].
           right. exists c. split; [reflexivity|]. split; [exact Hbuild|].
           by left.
    + destruct run_local_server as [c|e] eqn:Hflow; cbn [rbind]; [|by left].
      destruct (build c) as [s|e] eqn:Hbuild; [by exists c|].
      right. exists c. split; [reflexivity|]. split; [exact Hbuild|]. by left.
  - intros c0 -> Hvalid. rewrite Hvalid. reflexivity.
Qed.
